(** * notebookConverter: folder scans, title extraction and TOC generation

    A shallow embedding of [generators/app/notebookConverter.js].

    Conventions of the embedding.
    - JavaScript strings are Rocq [string]s, one character per code unit,
      which covers the texts whose code units are below 256.  A theorem whose
      statement holds the lower-cased or trimmed form of a text takes that
      text to be ASCII, as a hypothesis, so that it does not depend on what
      lies outside ASCII.
    - [path] is Node's [path.posix]; [os.EOL] is the line feed.
    - A JavaScript exception is the [Throw] outcome carrying [e.message].
    - The file system is a finite map from lists of components below the
      root to files and directories.  A path is walked component by
      component, the way the system does it: a component is looked up in
      what the walk has reached, which has to be a directory.  There are no
      symbolic links and names are compared case-sensitively. *)

From Stdlib Require Import Ascii.
From stdpp Require Import gmap strings list fin_maps pretty.

Local Open Scope Z_scope.

(** ** Characters and strings *)

Module Js.

Definition LF : ascii := "010"%char.
Definition CR : ascii := "013"%char.
Definition SLASH : ascii := "/"%char.
Definition DOT : ascii := "."%char.
Definition BACKSLASH : ascii := "\"%char.
Definition DQUOTE : ascii := "034"%char.
Definition SQUOTE : ascii := "039"%char.

Definition chr (c : ascii) : string := String c "".

Definition ascii_eqb (a b : ascii) : bool := bool_decide (a = b).

Definition string_eqb (a b : string) : bool := bool_decide (a = b).

(** [s.length] *)
Definition len (s : string) : Z := Z.of_nat (String.length s).

(** [s.charCodeAt(i)], [None] where JavaScript gives [NaN]. *)
Definition charAt (s : string) (i : Z) : option ascii :=
  if i <? 0 then None else String.get (Z.to_nat i) s.

(** [s.slice(a, b)] for [0 <= a], [0 <= b]. *)
Definition slice (s : string) (a b : Z) : string :=
  String.substring (Z.to_nat a) (Z.to_nat (b - a)) s.

(** [s.slice(0, -k)] for [0 < k]: the end index is [max (length - k) 0]. *)
Definition slice_drop_end (s : string) (k : Z) : string :=
  slice s 0 (Z.max (len s - k) 0).

(** [s.toLowerCase()] on code units below 256: the letters [A] to [Z] and
    the capital letters from 192 to 222, but for the multiplication sign at
    215, are lowered by adding 32; every other code unit is left as it is. *)
Definition lower_char (c : ascii) : ascii :=
  let n := nat_of_ascii c in
  if ((65 <=? n) && (n <=? 90) ||
      (192 <=? n) && (n <=? 222) && negb (n =? 215))%nat
  then ascii_of_nat (n + 32) else c.

Fixpoint toLowerCase (s : string) : string :=
  match s with
  | EmptyString => EmptyString
  | String c r => String (lower_char c) (toLowerCase r)
  end.

(** [prefix p s]: [s] starts with [p]. *)
Fixpoint starts_with (p s : string) : bool :=
  match p, s with
  | EmptyString, _ => true
  | String a p', String b s' => ascii_eqb a b && starts_with p' s'
  | String _ _, EmptyString => false
  end.

(** [s.indexOf(p) > -1] *)
Fixpoint includes (p s : string) : bool :=
  starts_with p s ||
  match s with
  | EmptyString => false
  | String _ s' => includes p s'
  end.

(** [s.replace(re, '')] where the global pattern [re] is the character
    class of the colon, the hash, the double quote, the single quote and the
    comma. *)
Definition is_title_punct (c : ascii) : bool :=
  ascii_eqb c ":" || ascii_eqb c "#" || ascii_eqb c DQUOTE ||
  ascii_eqb c SQUOTE || ascii_eqb c ",".

Fixpoint strip_punct (s : string) : string :=
  match s with
  | EmptyString => EmptyString
  | String c r => if is_title_punct c then strip_punct r
                  else String c (strip_punct r)
  end.

(** [s.replace(re, '')] where the global pattern [re] is a backslash
    followed by the letter n: one left-to-right pass over the matches. *)
Fixpoint strip_backslash_n (s : string) : string :=
  match s with
  | EmptyString => EmptyString
  | String c r =>
      match r with
      | String d r' =>
          if ascii_eqb c BACKSLASH && ascii_eqb d "n" then strip_backslash_n r'
          else String c (strip_backslash_n r)
      | EmptyString => String c EmptyString
      end
  end.

(** [s.trim()] on code units below 256: what is removed at both ends is the
    tab, the line feed, the vertical tab, the form feed, the carriage return,
    the space and the no-break space at 160. *)
Definition is_space (c : ascii) : bool :=
  let n := nat_of_ascii c in
  ((9 <=? n) && (n <=? 13) || (n =? 32) || (n =? 160))%nat.

Fixpoint trim_start (s : string) : string :=
  match s with
  | EmptyString => EmptyString
  | String c r => if is_space c then trim_start r else s
  end.

Fixpoint trim_end (s : string) : string :=
  match s with
  | EmptyString => EmptyString
  | String c r =>
      match trim_end r with
      | EmptyString => if is_space c then EmptyString else chr c
      | r' => String c r'
      end
  end.

Definition trim (s : string) : string := trim_end (trim_start s).

(** [s.split(/\r?\n/)]: a separator is a line feed, together with the
    carriage return right before it when there is one.  The result is never
    empty: the empty string splits into one empty line. *)
Fixpoint split_lines (s : string) : list string :=
  match s with
  | EmptyString => [EmptyString]
  | String c r =>
      if ascii_eqb c LF then EmptyString :: split_lines r
      else
        match r with
        | String d r' =>
            if ascii_eqb c CR && ascii_eqb d LF then EmptyString :: split_lines r'
            else match split_lines r with
                 | l :: ls => String c l :: ls
                 | [] => [chr c]
                 end
        | EmptyString => [chr c]
        end
  end.

(** [arr.join(sep)] *)
Fixpoint join (sep : string) (l : list string) : string :=
  match l with
  | [] => EmptyString
  | [x] => x
  | x :: r => x +:+ sep +:+ join sep r
  end.

(** A template literal hole [${v}] for a value that is a string or
    [undefined]. *)
Definition show (v : option string) : string :=
  match v with
  | Some s => s
  | None => "undefined"
  end.

(** A count converted to a string by string concatenation. *)
Definition show_nat (n : nat) : string := pretty n.

End Js.

Import Js.

(** ** Node's [path.posix] *)

Module Path.

(** [path.split('/')]: the segments between slashes. *)
Fixpoint segments (s : string) : list string :=
  match s with
  | EmptyString => [EmptyString]
  | String c r =>
      if ascii_eqb c SLASH then EmptyString :: segments r
      else match segments r with
           | h :: t => String c h :: t
           | [] => [chr c]
           end
  end.

(** [normalizeString]: one pass over the segments.  Empty segments and
    single dots are dropped; a double dot removes the segment before it
    unless there is none or it is a double dot itself, in which case it is
    kept when [allowAboveRoot] and dropped otherwise.  [stack] holds the
    segments kept so far, the last one first. *)
Fixpoint normalize_segments (allowAboveRoot : bool) (stack segs : list string)
  : list string :=
  match segs with
  | [] => stack
  | seg :: rest =>
      if string_eqb seg "" || string_eqb seg "." then
        normalize_segments allowAboveRoot stack rest
      else if string_eqb seg ".." then
        match stack with
        | top :: below =>
            if string_eqb top ".." then
              normalize_segments allowAboveRoot
                (if allowAboveRoot then ".." :: stack else stack) rest
            else normalize_segments allowAboveRoot below rest
        | [] =>
            normalize_segments allowAboveRoot
              (if allowAboveRoot then [".."] else []) rest
        end
      else normalize_segments allowAboveRoot (seg :: stack) rest
  end.

Definition isAbsolute (p : string) : bool := starts_with "/" p.

Definition ends_with_slash (p : string) : bool :=
  match charAt p (len p - 1) with
  | Some c => ascii_eqb c SLASH
  | None => false
  end.

(** [path.normalize(p)] *)
Definition normalize (p : string) : string :=
  if string_eqb p "" then "."
  else
    let absolute := isAbsolute p in
    let trailingSeparator := ends_with_slash p in
    let body := join "/" (reverse (normalize_segments (negb absolute) [] (segments p))) in
    if string_eqb body "" then
      if absolute then "/" else if trailingSeparator then "./" else "."
    else
      (if absolute then "/" else "") +:+ body +:+
      (if trailingSeparator then "/" else "").

(** [path.join(...args)] *)
Definition join (args : list string) : string :=
  match filter (fun a => a ≠ EmptyString) args with
  | [] => "."
  | parts => normalize (Js.join "/" parts)
  end.

(** The backward scan of [path.extname]: the loop variables. *)
Record ext_scan := {
  startDot : Z;
  startPart : Z;
  ext_end : Z;
  ext_matchedSlash : bool;
  preDotState : Z }.

(** One run of the loop of [path.extname], from index [i] down to 0;
    [chars] are the characters at [i], [i - 1], ..., 0. *)
Fixpoint ext_loop (chars : list ascii) (i : Z) (st : ext_scan) : ext_scan :=
  match chars with
  | [] => st
  | code :: before =>
      if ascii_eqb code SLASH then
        if negb (ext_matchedSlash st) then
          {| startDot := startDot st; startPart := i + 1; ext_end := ext_end st;
             ext_matchedSlash := ext_matchedSlash st;
             preDotState := preDotState st |}
        else ext_loop before (i - 1) st
      else
        let st1 :=
          if ext_end st =? -1 then
            {| startDot := startDot st; startPart := startPart st;
               ext_end := i + 1; ext_matchedSlash := false;
               preDotState := preDotState st |}
          else st in
        let st2 :=
          if ascii_eqb code DOT then
            if startDot st1 =? -1 then
              {| startDot := i; startPart := startPart st1;
                 ext_end := ext_end st1;
                 ext_matchedSlash := ext_matchedSlash st1;
                 preDotState := preDotState st1 |}
            else if negb (preDotState st1 =? 1) then
              {| startDot := startDot st1; startPart := startPart st1;
                 ext_end := ext_end st1;
                 ext_matchedSlash := ext_matchedSlash st1;
                 preDotState := 1 |}
            else st1
          else if negb (startDot st1 =? -1) then
            {| startDot := startDot st1; startPart := startPart st1;
               ext_end := ext_end st1;
               ext_matchedSlash := ext_matchedSlash st1;
               preDotState := -1 |}
          else st1 in
        ext_loop before (i - 1) st2
  end.

(** [path.extname(p)] *)
Definition extname (p : string) : string :=
  let st := ext_loop (reverse (String.list_ascii_of_string p)) (len p - 1)
              {| startDot := -1; startPart := 0; ext_end := -1;
                 ext_matchedSlash := true; preDotState := 0 |} in
  if (startDot st =? -1) || (ext_end st =? -1) || (preDotState st =? 0) ||
     ((preDotState st =? 1) && (startDot st =? ext_end st - 1) &&
      (startDot st =? startPart st + 1))
  then ""
  else slice p (startDot st) (ext_end st).

(** The backward scan of [path.basename] without a suffix: the loop
    variables [start], [end] and [matchedSlash]. *)
Fixpoint base_loop (chars : list ascii) (i : Z) (st : Z * Z * bool) : Z * Z * bool :=
  match chars with
  | [] => st
  | code :: before =>
      let '(start, end_, matchedSlash) := st in
      if ascii_eqb code SLASH then
        if negb matchedSlash then (i + 1, end_, matchedSlash)
        else base_loop before (i - 1) st
      else if end_ =? -1 then base_loop before (i - 1) (start, i + 1, false)
      else base_loop before (i - 1) st
  end.

(** [path.basename(p)] *)
Definition basename (p : string) : string :=
  let '(start, end_, _) :=
    base_loop (reverse (String.list_ascii_of_string p)) (len p - 1) (0, -1, true) in
  if end_ =? -1 then "" else slice p start end_.

End Path.

(** ** Outcomes and the state monad of the embedding *)

(** The result of running a piece of JavaScript: a value, or an exception
    with its [message]. *)
Inductive outcome (A : Type) : Type :=
  | Ok (a : A)
  | Throw (message : string).
Arguments Ok {A} a.
Arguments Throw {A} message.

(** A computation over a state [St]; the state reached is kept when an
    exception is thrown. *)
Definition M (St A : Type) : Type := St → outcome A * St.

Definition ret {St A} (a : A) : M St A := fun s => (Ok a, s).

Definition throw {St A} (message : string) : M St A := fun s => (Throw message, s).

Definition bind {St A B} (c : M St A) (k : A → M St B) : M St B :=
  fun s =>
    match c s with
    | (Ok a, s') => k a s'
    | (Throw e, s') => (Throw e, s')
    end.

(** [try { c } catch (e) { h(e.message) }] *)
Definition try_catch {St A} (c : M St A) (h : string → M St A) : M St A :=
  fun s =>
    match c s with
    | (Ok a, s') => (Ok a, s')
    | (Throw e, s') => h e s'
    end.

Notation "x <- c ;; k" := (bind c (fun x => k))
  (at level 100, c at next level, right associativity,
   format "'[v' x  <-  c  ;; '/' k ']'").
Notation "c ;; k" := (bind c (fun _ => k))
  (at level 100, right associativity,
   format "'[v' c  ;; '/' k ']'").

(** [arr.forEach(f)]: the callback runs on each element in order; an
    exception that leaves the callback ends the loop. *)
Fixpoint forEach {St A} (arr : list A) (f : A → M St unit) : M St unit :=
  match arr with
  | [] => ret tt
  | x :: rest => f x ;; forEach rest f
  end.

(** Variables of an enclosing function that a callback assigns to: the
    callback runs over the state paired with those variables. *)
Definition lift {St L A} (c : M St A) : M (St * L) A :=
  fun '(s, l) => let '(r, s') := c s in (r, (s', l)).

Definition locals {St L} : M (St * L) L := fun '(s, l) => (Ok l, (s, l)).

Definition assign {St L} (l : L) : M (St * L) unit := fun '(s, _) => (Ok tt, (s, l)).

(** Runs [c] with the variables initialised to [l0] and gives their final
    values. *)
Definition with_locals {St L A} (l0 : L) (c : M (St * L) A) : M St (A * L) :=
  fun s =>
    let '(r, (s', l)) := c (s, l0) in
    match r with
    | Ok a => (Ok (a, l), s')
    | Throw e => (Throw e, s')
    end.

(** ** The file system *)

Inductive node : Type :=
  | File (data : string)
  | Dir (entries : list string).

(** [nodes] maps a place, the list of the names that lead to it from the
    root, to what is there; the entries of a directory are kept in the order
    [readdirSync] lists them.  [cwd] is the working directory.
    [slot entries name] is the position at which the file system lists a
    name that is new in a directory. *)
Record FS : Type := {
  nodes : gmap (list string) node;
  cwd : list string;
  slot : list string → string → nat }.

(** Where one segment of a path leads from [cur]: an empty segment (a
    doubled or closing slash) and a dot stay, a double dot goes to the parent,
    the root being its own parent, a name goes to the entry of that name. *)
Definition step (cur : list string) (seg : string) : list string :=
  if string_eqb seg "" || string_eqb seg "." then cur
  else if string_eqb seg ".." then removelast cur
  else cur ++ [seg].

(** Where the walk of a path starts. *)
Definition start (fs : FS) (p : string) : list string :=
  if Path.isAbsolute p then [] else cwd fs.

(** Where a path leads when every directory on the way is there. *)
Definition resolve (fs : FS) (p : string) : list string :=
  foldl step (start fs p) (Path.segments p).

Definition ENOENT := "ENOENT: no such file or directory".
Definition ENOTDIR := "ENOTDIR: not a directory".
Definition EISDIR := "EISDIR: illegal operation on a directory".

(** Going on from what the walk has reached: it has to be a directory.  The
    walk fails with [ENOTDIR] when it stands at a file and with [ENOENT] when
    it stands at nothing. *)
Definition through {A} (reached : option node) (rest : outcome A) : outcome A :=
  match reached with
  | Some (Dir _) => rest
  | Some (File _) => Throw ENOTDIR
  | None => Throw ENOENT
  end.

(** The walk of the system along the segments that are left, from the place
    it has reached: every segment is taken in a directory.  This holds for
    empty segments, dots and double dots as well: a slash after the name of
    a file, and a double dot after a name that is not there, make the walk
    fail. *)
Fixpoint walk (m : gmap (list string) node) (cur : list string) (segs : list string)
  : outcome (list string) :=
  match segs with
  | [] => Ok cur
  | seg :: rest => through (m !! cur) (walk m (step cur seg) rest)
  end.

(** The walk of a whole path: the place it leads to, where there may be a
    node or not, or the code of the failure on the way.  The empty path
    leads nowhere.  The directory the walk starts in, the root or the
    working directory, is there. *)
Definition locate (fs : FS) (p : string) : outcome (list string) :=
  if string_eqb p "" then Throw ENOENT
  else match Path.segments p with
       | first :: rest => walk (nodes fs) (step (start fs p) first) rest
       | [] => Throw ENOENT
       end.

Definition sys_error (code syscall p : string) : string :=
  code +:+ ", " +:+ syscall +:+ " '" +:+ p +:+ "'".

(** What [fs.Stats] is used for: [isDirectory()]. *)
Record Stats : Type := { isDirectory : bool }.

Definition fs_stat (fs : FS) (p : string) : outcome Stats :=
  match locate fs p with
  | Ok key =>
      match nodes fs !! key with
      | Some (Dir _) => Ok {| isDirectory := true |}
      | Some (File _) => Ok {| isDirectory := false |}
      | None => Throw (sys_error ENOENT "stat" p)
      end
  | Throw code => Throw (sys_error code "stat" p)
  end.

Definition fs_readdir (fs : FS) (p : string) : outcome (list string) :=
  match locate fs p with
  | Ok key =>
      match nodes fs !! key with
      | Some (Dir entries) => Ok entries
      | Some (File _) => Throw (sys_error ENOTDIR "scandir" p)
      | None => Throw (sys_error ENOENT "scandir" p)
      end
  | Throw code => Throw (sys_error code "scandir" p)
  end.

Definition fs_readFile (fs : FS) (p : string) : outcome string :=
  match locate fs p with
  | Ok key =>
      match nodes fs !! key with
      | Some (File data) => Ok data
      | Some (Dir _) => Throw (EISDIR +:+ ", read")
      | None => Throw (sys_error ENOENT "open" p)
      end
  | Throw code => Throw (sys_error code "open" p)
  end.

(** The entries of a directory after [name] has been created in it. *)
Definition add_entry (fs : FS) (entries : list string) (name : string) : list string :=
  let k := slot fs entries name in
  take k entries ++ name :: drop k entries.

Definition set_nodes (fs : FS) (m : gmap (list string) node) : FS :=
  {| nodes := m; cwd := cwd fs; slot := slot fs |}.

(** [writeFileSync] with the default flag: an existing file is replaced, a
    missing one is created in its directory. *)
Definition fs_writeFile (fs : FS) (p data : string) : outcome unit * FS :=
  match locate fs p with
  | Ok key =>
      match nodes fs !! key with
      | Some (Dir _) => (Throw (sys_error EISDIR "open" p), fs)
      | Some (File _) => (Ok tt, set_nodes fs (<[key := File data]> (nodes fs)))
      | None =>
          match last key with
          | None => (Throw (sys_error EISDIR "open" p), fs)
          | Some name =>
              let parent := removelast key in
              match nodes fs !! parent with
              | Some (Dir entries) =>
                  (Ok tt,
                   set_nodes fs (<[key := File data]>
                     (<[parent := Dir (add_entry fs entries name)]> (nodes fs))))
              | Some (File _) => (Throw (sys_error ENOTDIR "open" p), fs)
              | None => (Throw (sys_error ENOENT "open" p), fs)
              end
          end
      end
  | Throw code => (Throw (sys_error code "open" p), fs)
  end.

(** ** The generator object and the world *)

(** [generator.extensionConfig]: each field is an array, or [undefined]
    ([None]) when the caller has not set it. *)
Record ExtensionConfig : Type := {
  notebookNames : option (list string);
  notebookPaths : option (list string);
  notebookFolders : option (list string) }.

(** The generator: its configuration and what its [log] method was given. *)
Record Generator : Type := {
  extensionConfig : ExtensionConfig;
  logged : list string }.

(** The state the module runs in: the file system, the generator object the
    functions are handed, and the lines printed by [console.log]. *)
Record World : Type := {
  w_fs : FS;
  generator : Generator;
  console : list string }.

Definition TypeError_undefined (prop : string) : string :=
  "Cannot read properties of undefined (reading '" +:+ prop +:+ "')".

Definition statSync (p : string) : M World Stats :=
  fun w => (fs_stat (w_fs w) p, w).

Definition readdirSync (p : string) : M World (list string) :=
  fun w => (fs_readdir (w_fs w) p, w).

Definition readFileSync (p : string) : M World string :=
  fun w => (fs_readFile (w_fs w) p, w).

Definition writeFileSync (p data : string) : M World unit :=
  fun w =>
    let '(r, fs') := fs_writeFile (w_fs w) p data in
    (r, {| w_fs := fs'; generator := generator w; console := console w |}).

Definition console_log (line : string) : M World unit :=
  fun w => (Ok tt, {| w_fs := w_fs w; generator := generator w;
                      console := console w ++ [line] |}).

(** [generator.log(line)] *)
Definition generator_log (line : string) : M World unit :=
  fun w =>
    (Ok tt, {| w_fs := w_fs w;
               generator := {| extensionConfig := extensionConfig (generator w);
                               logged := logged (generator w) ++ [line] |};
               console := console w |}).

Definition set_config (w : World) (c : ExtensionConfig) : World :=
  {| w_fs := w_fs w;
     generator := {| extensionConfig := c; logged := logged (generator w) |};
     console := console w |}.

(** [generator.extensionConfig.notebookNames.push(x)] *)
Definition notebookNames_push (x : string) : M World unit :=
  fun w =>
    let c := extensionConfig (generator w) in
    match notebookNames c with
    | Some arr =>
        (Ok tt, set_config w {| notebookNames := Some (arr ++ [x]);
                                notebookPaths := notebookPaths c;
                                notebookFolders := notebookFolders c |})
    | None => (Throw (TypeError_undefined "push"), w)
    end.

(** [generator.extensionConfig.notebookPaths.push(x)] *)
Definition notebookPaths_push (x : string) : M World unit :=
  fun w =>
    let c := extensionConfig (generator w) in
    match notebookPaths c with
    | Some arr =>
        (Ok tt, set_config w {| notebookNames := notebookNames c;
                                notebookPaths := Some (arr ++ [x]);
                                notebookFolders := notebookFolders c |})
    | None => (Throw (TypeError_undefined "push"), w)
    end.

(** [generator.extensionConfig.notebookFolders.push(x)] *)
Definition notebookFolders_push (x : string) : M World unit :=
  fun w =>
    let c := extensionConfig (generator w) in
    match notebookFolders c with
    | Some arr =>
        (Ok tt, set_config w {| notebookNames := notebookNames c;
                                notebookPaths := notebookPaths c;
                                notebookFolders := Some (arr ++ [x]) |})
    | None => (Throw (TypeError_undefined "push"), w)
    end.

(** ** The module *)

(** [errors.length > 0 ? prefix + errors.join(sep) : ''] *)
Definition problems (pre sep : string) (errors : list string) : string :=
  if 0 <? Z.of_nat (length errors) then pre +:+ Js.join sep errors else "".

Definition EOL : string := chr LF.

(** [getFolderContent(folderPath, errors)].  [errors] is the caller's array,
    [None] when the argument is left out; the array after the call is
    returned next to the result. *)
Definition getFolderContent (folderPath : string) (errors : option (list string))
  : M World (list string * option (list string)) :=
  try_catch
    (stats <- statSync folderPath ;;
     if isDirectory stats then
       files <- readdirSync folderPath ;;
       ret (files, errors)
     else ret ([], errors))
    (fun e =>
       match errors with
       | Some arr =>
           ret ([], Some (arr ++ ["Unable to access " +:+ folderPath +:+ ": " +:+ e]))
       | None => throw (TypeError_undefined "push")
       end).

Definition is_notebook_extension (extension : string) : bool :=
  string_eqb extension ".ipynb" || string_eqb extension ".md".

(** The callback of [files.forEach] in [findNotebookFiles]; the variable it
    assigns to is [notebookCount]. *)
Definition findNotebookFiles_each (folderPath fileName : string) : M (World * nat) unit :=
  try_catch
    (let extension := toLowerCase (Path.extname fileName) in
     if is_notebook_extension extension then
       notebookCount <- locals ;;
       assign (S notebookCount) ;;
       let filePath := Path.join [folderPath; fileName] in
       lift (notebookNames_push fileName) ;;
       lift (notebookPaths_push filePath)
     else ret tt)
    (fun e => lift (console_log ("Finding notebook files encountered an error: " +:+ e))).

(** [findNotebookFiles(folderPath, errors, generator)] *)
Definition findNotebookFiles (folderPath : string) (errors : option (list string))
  : M World (nat * option (list string)) :=
  r <- getFolderContent folderPath errors ;;
  let '(files, errors) := r in
  r <- with_locals 0%nat (forEach files (findNotebookFiles_each folderPath)) ;;
  let '(_, notebookCount) := r in
  ret (notebookCount, errors).

(** [exports.processNotebookFolder(folderPath, generator)] *)
Definition processNotebookFolder (folderPath : string) : M World nat :=
  r <- findNotebookFiles folderPath (Some []) ;;
  let '(count, errors) := r in
  let errors := default [] errors in
  if (Z.of_nat count <=? 0) then
    generator_log ("No valid notebooks found in " +:+ folderPath +:+
                   problems ("." +:+ chr LF) EOL errors) ;;
    ret count
  else
    generator_log (show_nat count +:+ " notebook(s) found." +:+
                   problems (chr LF +:+ chr LF +:+ "Problems while converting: " +:+ chr LF)
                            EOL errors) ;;
    ret count.

(** The callback of [subfolders.forEach]; the variables are
    [totalNotebookCount] and the [errors] array handed down. *)
Definition discover_each (rootFolder dir : string)
  : M (World * (nat * option (list string))) unit :=
  let dirPath := Path.join [rootFolder; dir] in
  l <- locals ;;
  let '(totalNotebookCount, errors) := l in
  r <- lift (findNotebookFiles dirPath errors) ;;
  let '(n, errors) := r in
  assign ((totalNotebookCount + n)%nat, errors) ;;
  lift (notebookFolders_push dir).

(** [discoverFoldersContainingNotebooks(rootFolder, errors, generator)] *)
Definition discoverFoldersContainingNotebooks (rootFolder : string)
    (errors : option (list string)) : M World (nat * option (list string)) :=
  r <- getFolderContent rootFolder None ;;
  let '(subfolders, _) := r in
  r <- with_locals (0%nat, errors) (forEach subfolders (discover_each rootFolder)) ;;
  let '(_, l) := r in
  ret l.

(** [exports.processBookFolder(folderPath, generator)]; [None] is
    [undefined], the value of a call that ends without [return]. *)
Definition processBookFolder (folderPath : string) : M World (option nat) :=
  let book_problems :=
    problems (chr LF +:+ chr LF +:+ "Problems while converting: " +:+ chr LF) (chr LF) in
  try_catch
    (generator_log ("Jupyter Book found!" +:+ book_problems []) ;;
     r <- discoverFoldersContainingNotebooks folderPath (Some []) ;;
     let '(count, errors) := r in
     generator_log (show_nat count +:+ " notebook(s) found! " +:+
                    book_problems (default [] errors)) ;;
     ret (Some count))
    (fun e =>
       generator_log ("An unexpected error occurred: " +:+ e) ;;
       ret None).

(** [findTitle(file, filePath)]; [None] is [undefined], the value of a call
    that ends without [return]. *)
Definition findTitle (file filePath : string) : M World (option string) :=
  data <- readFileSync filePath ;;
  let lines := split_lines data in
  if bool_decide (lines !! 0%nat = Some EmptyString) ||
     ((7 <=? Z.of_nat (length lines)) &&
      match lines !! 6%nat with
      | Some line => includes "collapsed" line
      | None => false
      end)
  then ret (Some "Untitled")
  else if string_eqb (Path.extname file) ".ipynb" then
    match lines !! 6%nat with
    | Some line =>
        let regexStr := strip_punct line in
        ret (Some (trim (strip_backslash_n regexStr)))
    | None => throw (TypeError_undefined "replace")
    end
  else if string_eqb (Path.extname file) ".md" then
    match lines !! 0%nat with
    | Some line =>
        let regexStr := strip_punct line in
        ret (Some (trim (strip_backslash_n regexStr)))
    | None => throw (TypeError_undefined "replace")
    end
  else ret None.

(** [getSlicedFilename(fileName)] *)
Definition getSlicedFilename (fileName : string) : string :=
  if string_eqb (Path.extname fileName) ".ipynb" then slice_drop_end fileName 6
  else slice_drop_end fileName 3.

(** The callback of [notebooks.forEach] in [writeForEachNotebook]; the
    variable is [content]. *)
Definition writeForEachNotebook_each (chapter notebookDir file : string)
  : M (World * string) unit :=
  if negb (includes "readme" file) then
    let fullFilePath := Path.join [notebookDir; file] in
    let fileName := Path.basename file in
    let slicedFileName := getSlicedFilename fileName in
    title <- lift (findTitle file fullFilePath) ;;
    content <- locals ;;
    assign (content +:+ "  - title: " +:+ show title +:+ chr LF +:+
            "    url: " +:+ toLowerCase chapter +:+ "/" +:+
            toLowerCase slicedFileName +:+ chr LF)
  else ret tt.

(** [writeForEachNotebook(chapter, notebookDir)] *)
Definition writeForEachNotebook (chapter notebookDir : string) : M World string :=
  notebooks <- readdirSync notebookDir ;;
  r <- with_locals "" (forEach notebooks (writeForEachNotebook_each chapter notebookDir)) ;;
  ret (snd r).

(** [writeSingleNotebook(notebookDir, file)] *)
Definition writeSingleNotebook (notebookDir file : string) : M World string :=
  let content := "" in
  let fullFilePath := Path.join [notebookDir; file] in
  let fileName := Path.basename file in
  let slicedFileName := getSlicedFilename fileName in
  title <- findTitle file fullFilePath ;;
  ret (content +:+ "- title: " +:+ show title +:+ chr LF +:+
       "  url: " +:+ toLowerCase slicedFileName +:+ chr LF).

(** The callback of [files.forEach] in [writeToReadme]; the variable is
    [fileContent]. *)
Definition writeToReadme_each (contentFilePath file : string) : M (World * string) unit :=
  if negb (includes "readme" file) then
    let fullFilePath := Path.join [contentFilePath; file] in
    title <- lift (findTitle file fullFilePath) ;;
    fileContent <- locals ;;
    assign (fileContent +:+ "- [" +:+ show title +:+ "](" +:+ file +:+ ")" +:+ chr LF)
  else ret tt.

(** [writeToReadme(contentFilePath, file)] *)
Definition writeToReadme (contentFilePath file : string) : M World unit :=
  let readmeFilePath := Path.join ["."; "content"; file; "readme.md"] in
  files <- readdirSync contentFilePath ;;
  r <- with_locals ("## Notebooks in this Chapter" +:+ chr LF)
         (forEach files (writeToReadme_each contentFilePath)) ;;
  writeFileSync readmeFilePath (snd r).

(** [context]: [chapterNames] is an array of strings or [undefined]. *)
Record Context : Type := { chapterNames : option (list string) }.

(** The callback of [bookContents.forEach] in [customizeJupyterBook]; the
    variables are [tocContent] and [idx]. *)
Definition customizeJupyterBook_each (context : Context) (bookContentPath file : string)
  : M (World * (string * nat)) unit :=
  try_catch
    (let dirPath := Path.join [bookContentPath; file] in
     stats <- lift (statSync dirPath) ;;
     if isDirectory stats then
       match chapterNames context with
       | Some names =>
           let chapterFilePath := Path.join ["."; "content"; file] in
           l <- locals ;;
           let chapterTitle := names !! (snd l) in
           assign (fst l +:+ "- title: " +:+ show chapterTitle +:+ chr LF +:+
                   "  url: " +:+ file +:+ "/readme" +:+ chr LF +:+
                   "  not_numbered: true" +:+ chr LF +:+
                   "  expand_sections: true" +:+ chr LF +:+
                   "  sections: " +:+ chr LF, snd l) ;;
           l <- locals ;;
           section <- lift (writeForEachNotebook file chapterFilePath) ;;
           assign (fst l +:+ section, snd l) ;;
           lift (writeToReadme chapterFilePath file) ;;
           l <- locals ;;
           assign (fst l, (snd l + 1)%nat)
       | None => ret tt
       end
     else
       l <- locals ;;
       single <- lift (writeSingleNotebook bookContentPath file) ;;
       assign (fst l +:+ single, snd l))
    (fun e => lift (console_log e)).

(** [customizeJupyterBook(context)] *)
Definition customizeJupyterBook (context : Context) : M World unit :=
  let tocFilePath := Path.join ["."; "_data"; "toc.yml"] in
  let bookContentPath := Path.join ["."; "content"] in
  bookContents <- readdirSync bookContentPath ;;
  r <- with_locals ("", 0%nat)
         (forEach bookContents (customizeJupyterBook_each context bookContentPath)) ;;
  let tocContent := fst (snd r) in
  writeFileSync tocFilePath tocContent.

(** [exports.buildCustomBook(context)] *)
Definition buildCustomBook (context : Context) : M World unit :=
  try_catch (customizeJupyterBook context)
    (fun e => console_log ("An unexpected error occurred: " +:+ e)).

(** ** Sample worlds *)

Module Sample.

Definition base : list string := ["home"; "book"].

Definition empty_config : ExtensionConfig :=
  {| notebookNames := Some []; notebookPaths := Some []; notebookFolders := Some [] |}.

Definition world_of (fs : FS) (c : ExtensionConfig) : World :=
  {| w_fs := fs; generator := {| extensionConfig := c; logged := [] |}; console := [] |}.

(** A book: [content/ch1/intro.md], [content/standalone.md] and an empty
    [_data] directory, seen from the book's directory. *)
Definition book_nodes (content_entries : list string) (intro standalone : string)
  : gmap (list string) node :=
  list_to_map [
    ([], Dir ["home"]);
    (["home"], Dir ["book"]);
    (base, Dir ["content"; "_data"]);
    (base ++ ["_data"], Dir []);
    (base ++ ["content"], Dir content_entries);
    (base ++ ["content"; "ch1"], Dir ["intro.md"]);
    (base ++ ["content"; "ch1"; "intro.md"], File intro);
    (base ++ ["content"; "standalone.md"], File standalone)].

Definition book_fs : FS :=
  {| nodes := book_nodes ["ch1"; "standalone.md"]
                ("# Intro" +:+ chr LF +:+ "Some text.") "# Standalone";
     cwd := base;
     slot := fun entries _ => length entries |}.

Definition book : World := world_of book_fs empty_config.

(** The same book handed to a generator whose configuration has none of
    the three sequences. *)
Definition unset_config : ExtensionConfig :=
  {| notebookNames := None; notebookPaths := None; notebookFolders := None |}.

Definition book_unset : World := world_of book_fs unset_config.

(** A directory of documents: a notebook whose first cell is a collapsed
    code cell, a notebook that opens with a heading, a notebook of three
    lines, and a markdown file. *)
Definition quoted (s : string) : string := chr DQUOTE +:+ s +:+ chr DQUOTE.

Definition unlines (ls : list string) : string := Js.join (chr LF) ls.

Definition collapsed_notebook : string :=
  unlines [
    "{";
    " " +:+ quoted "cells" +:+ ": [";
    "  {";
    "   " +:+ quoted "cell_type" +:+ ": " +:+ quoted "code" +:+ ",";
    "   " +:+ quoted "execution_count" +:+ ": null,";
    "   " +:+ quoted "metadata" +:+ ": {";
    "    " +:+ quoted "collapsed" +:+ ": true";
    "   },";
    "   " +:+ quoted "source" +:+ ": []";
    "  }";
    " ]";
    "}"].

Definition titled_notebook : string :=
  unlines [
    "{";
    " " +:+ quoted "cells" +:+ ": [";
    "  {";
    "   " +:+ quoted "cell_type" +:+ ": " +:+ quoted "markdown" +:+ ",";
    "   " +:+ quoted "metadata" +:+ ": {},";
    "   " +:+ quoted "source" +:+ ": [";
    "    " +:+ quoted "# Getting Started\n" +:+ ",";
    "    " +:+ quoted "Some text.";
    "   ]";
    "  }";
    " ]";
    "}"].

Definition short_notebook : string := unlines ["{"; " " +:+ quoted "cells" +:+ ": []"; "}"].

Definition docs_fs : FS :=
  {| nodes := list_to_map [
       ([], Dir ["docs"]);
       (["docs"], Dir ["collapsed.ipynb"; "titled.ipynb"; "short.ipynb"; "hello.md"]);
       (["docs"; "collapsed.ipynb"], File collapsed_notebook);
       (["docs"; "titled.ipynb"], File titled_notebook);
       (["docs"; "short.ipynb"], File short_notebook);
       (["docs"; "hello.md"], File ("# Hello World" +:+ chr CR +:+ chr LF +:+ "Text."))];
     cwd := ["docs"];
     slot := fun entries _ => length entries |}.

Definition docs : World := world_of docs_fs empty_config.

(** A context that names one chapter. *)
Definition one_chapter : Context := {| chapterNames := Some ["Chapter One"] |}.

End Sample.

(** ** Notions used in the statements *)

Definition access_error (folderPath e : string) : string :=
  "Unable to access " +:+ folderPath +:+ ": " +:+ e.

(** The test [findNotebookFiles] applies to a directory entry.  The
    lower-cased extension is compared with two ASCII texts, and JavaScript
    lowers no text outside ASCII to either of them, so the test is the one
    of the code on every name. *)
Definition is_notebook (fileName : string) : bool :=
  is_notebook_extension (toLowerCase (Path.extname fileName)).

(** The entries of a listing that pass the test, in listing order. *)
Definition notebooks_of (files : list string) : list string :=
  filter (fun f => is_notebook f) files.

Definition config_of (w : World) : ExtensionConfig := extensionConfig (generator w).

(** The world after both pushes of one matching entry. *)
Definition pushed (w : World) (names paths : list string) : World :=
  set_config w {| notebookNames := Some names; notebookPaths := Some paths;
                  notebookFolders := notebookFolders (config_of w) |}.


(** ASCII text: every code unit is below 128. *)
Definition ascii_text (s : string) : bool :=
  forallb (fun c => (nat_of_ascii c <? 128)%nat) (String.list_ascii_of_string s).

(** A file system whose names and texts are ASCII. *)
Definition ascii_fs (fs : FS) : bool :=
  forallb (fun kn => match snd kn with
                     | Dir entries => forallb ascii_text entries
                     | File data => ascii_text data
                     end)
          (map_to_list (nodes fs)).

(** The contract of the folder lister read literally: the listing for a
    directory, and for every other path an empty result together with one
    new error string that contains the path. *)
Definition lists_or_reports (folderPath : string) (arr : list string) (w : World) : Prop :=
  match fs_readdir (w_fs w) folderPath with
  | Ok entries =>
      getFolderContent folderPath (Some arr) w = (Ok (entries, Some arr), w)
  | Throw _ =>
      ∃ e, getFolderContent folderPath (Some arr) w = (Ok ([], Some (arr ++ [e])), w) ∧
           includes folderPath e = true
  end.

(** A pushed path belongs to a pushed name: it is some folder path joined
    with that name. *)
Definition joined (name filePath : string) : Prop :=
  ∃ folderPath, filePath = Path.join [folderPath; name].

(** The registry invariant: both sequences are there and have one length. *)
Definition registry_balanced (w : World) : Prop :=
  ∃ names paths,
    notebookNames (config_of w) = Some names ∧
    notebookPaths (config_of w) = Some paths ∧
    length names = length paths.

(** What a scan may do to the world: the file system stays as it is, and
    when both sequences are there they grow at the end by names and paths
    that correspond index by index. *)
Definition grows (w w' : World) : Prop :=
  w_fs w' = w_fs w ∧
  ∀ names paths,
    notebookNames (config_of w) = Some names →
    notebookPaths (config_of w) = Some paths →
    ∃ new_names new_paths,
      notebookNames (config_of w') = Some (names ++ new_names) ∧
      notebookPaths (config_of w') = Some (paths ++ new_paths) ∧
      Forall2 joined new_names new_paths.

(** The world after [console.log] printed [lines]. *)
Definition printed (w : World) (lines : list string) : World :=
  {| w_fs := w_fs w; generator := generator w; console := console w ++ lines |}.

(** The world after [generator.log] was given [lines]. *)
Definition told (w : World) (lines : list string) : World :=
  {| w_fs := w_fs w;
     generator := {| extensionConfig := config_of w;
                     logged := logged (generator w) ++ lines |};
     console := console w |}.

(** The number of notebooks the single-folder scan counts at a path. *)
Definition folder_count (fs : FS) (folderPath : string) : nat :=
  match fs_readdir fs folderPath with
  | Ok files => length (notebooks_of files)
  | Throw _ => 0%nat
  end.

(** The sum of the counts over the entries of a root folder. *)
Definition book_count (fs : FS) (rootFolder : string) (subfolders : list string) : nat :=
  sum_list (map (fun dir => folder_count fs (Path.join [rootFolder; dir])) subfolders).

Definition push_failure : string :=
  "Finding notebook files encountered an error: " +:+ TypeError_undefined "push".

(** [keeps R c]: every run of [c] takes a state to an [R]-related one,
    whether it ends in a value or in an exception. *)
Definition keeps {St A} (R : relation St) (c : M St A) : Prop :=
  ∀ s, R s (snd (c s)).

(** A relation on worlds, seen on worlds paired with local variables. *)
Definition on_world {L} (R : relation World) : relation (World * L) :=
  fun s s' => R (fst s) (fst s').

Definition unexpected (e : string) : string := "An unexpected error occurred: " +:+ e.

(** [has_char c s]: the character occurs in the text. *)
Fixpoint has_char (c : ascii) (s : string) : bool :=
  match s with
  | EmptyString => false
  | String a r => ascii_eqb a c || has_char c r
  end.

Fixpoint last_char (s : string) : option ascii :=
  match s with
  | EmptyString => None
  | String a EmptyString => Some a
  | String _ r => last_char r
  end.

Definition first_char (s : string) : option ascii :=
  match s with
  | EmptyString => None
  | String a _ => Some a
  end.

Fixpoint all_spaces (s : string) : bool :=
  match s with
  | EmptyString => true
  | String a r => is_space a && all_spaces r
  end.

(** No white space at this end of the text. *)
Definition tight (end_char : option ascii) : Prop :=
  match end_char with
  | Some c => is_space c = false
  | None => True
  end.

(** The text that [findTitle] turns a line into. *)
Definition clean_title (line : string) : string :=
  trim (strip_backslash_n (strip_punct line)).

(** The test that makes [findTitle] answer with the fixed title. *)
Definition untitled (lines : list string) : Prop :=
  lines !! 0%nat = Some EmptyString ∨
  ∃ line, lines !! 6%nat = Some line ∧ includes "collapsed" line = true.

(** The title rule read literally, for every file the test above lets
    through: for a notebook the cleaned line at index 6, for a markdown file
    the cleaned line at index 0. *)
Definition title_from_fixed_line (file filePath : string) (w : World) : Prop :=
  ∀ data,
    fs_readFile (w_fs w) filePath = Ok data →
    ¬ untitled (split_lines data) →
    (Path.extname file = ".ipynb" →
     ∃ line, split_lines data !! 6%nat = Some line ∧
             findTitle file filePath w = (Ok (Some (clean_title line)), w)) ∧
    (Path.extname file = ".md" →
     ∃ line, split_lines data !! 0%nat = Some line ∧
             findTitle file filePath w = (Ok (Some (clean_title line)), w)).

(** A text with a slash in it. *)
Fixpoint has_slash (s : string) : bool :=
  match s with
  | EmptyString => false
  | String c r => ascii_eqb c SLASH || has_slash r
  end.

(** What a directory lists: a name that is not empty, is neither the single
    nor the double dot, and has no slash. *)
Definition plain_name (s : string) : bool :=
  negb (string_eqb s "") && negb (string_eqb s ".") && negb (string_eqb s "..") &&
  negb (has_slash s).

(** A relative path written from its components. *)
Definition path_of (components : list string) : string := Js.join "/" components.

(** ** The TOC build as functions of the file system

    The functions below say what the TOC functions of the module compute and
    what they do to the file system; each is proved equal to the function it
    stands for. *)

(** [findTitle], from the outcome of reading the file. *)
Definition title_of (file : string) (read : outcome string) : outcome (option string) :=
  match read with
  | Throw e => Throw e
  | Ok data =>
      let lines := split_lines data in
      if bool_decide (lines !! 0%nat = Some EmptyString) ||
         ((7 <=? Z.of_nat (length lines)) &&
          match lines !! 6%nat with
          | Some line => includes "collapsed" line
          | None => false
          end)
      then Ok (Some "Untitled")
      else if string_eqb (Path.extname file) ".ipynb" then
        match lines !! 6%nat with
        | Some line => Ok (Some (clean_title line))
        | None => Throw (TypeError_undefined "replace")
        end
      else if string_eqb (Path.extname file) ".md" then
        match lines !! 0%nat with
        | Some line => Ok (Some (clean_title line))
        | None => Throw (TypeError_undefined "replace")
        end
      else Ok None
  end.

(** The entries that are listed under a chapter and in its readme. *)
Definition no_readme (file : string) : bool := negb (includes "readme" file).

Definition nested_stanza (chapter file : string) (title : option string) : string :=
  "  - title: " +:+ show title +:+ chr LF +:+
  "    url: " +:+ toLowerCase chapter +:+ "/" +:+
  toLowerCase (getSlicedFilename (Path.basename file)) +:+ chr LF.

Definition flat_stanza (file : string) (title : option string) : string :=
  "" +:+ "- title: " +:+ show title +:+ chr LF +:+
  "  url: " +:+ toLowerCase (getSlicedFilename (Path.basename file)) +:+ chr LF.

Definition readme_line (file : string) (title : option string) : string :=
  "- [" +:+ show title +:+ "](" +:+ file +:+ ")" +:+ chr LF.

Definition chapter_stanza (file : string) (title : option string) : string :=
  "- title: " +:+ show title +:+ chr LF +:+
  "  url: " +:+ file +:+ "/readme" +:+ chr LF +:+
  "  not_numbered: true" +:+ chr LF +:+
  "  expand_sections: true" +:+ chr LF +:+
  "  sections: " +:+ chr LF.

(** The loop of [writeForEachNotebook] ([line] is [nested_stanza chapter])
    and of [writeToReadme] ([line] is [readme_line]): [content] grows by one
    line per entry without [readme] in its name, until a title fails. *)
Fixpoint listed (fs : FS) (line : string → option string → string)
    (dir : string) (files : list string) (content : string) : outcome string :=
  match files with
  | [] => Ok content
  | file :: rest =>
      if no_readme file then
        match title_of file (fs_readFile fs (Path.join [dir; file])) with
        | Ok title => listed fs line dir rest (content +:+ line file title)
        | Throw e => Throw e
        end
      else listed fs line dir rest content
  end.

(** What [writeForEachNotebook] returns. *)
Definition chapter_section (fs : FS) (chapter notebookDir : string) : outcome string :=
  match fs_readdir fs notebookDir with
  | Ok notebooks => listed fs (nested_stanza chapter) notebookDir notebooks ""
  | Throw e => Throw e
  end.

(** What [writeToReadme] writes. *)
Definition readme_text (fs : FS) (contentFilePath : string) : outcome string :=
  match fs_readdir fs contentFilePath with
  | Ok files =>
      listed fs readme_line contentFilePath files ("## Notebooks in this Chapter" +:+ chr LF)
  | Throw e => Throw e
  end.

(** What [writeSingleNotebook] returns. *)
Definition single_entry (fs : FS) (notebookDir file : string) : outcome string :=
  match title_of file (fs_readFile fs (Path.join [notebookDir; file])) with
  | Ok title => Ok (flat_stanza file title)
  | Throw e => Throw e
  end.

(** The state of the loop of [customizeJupyterBook]: the file system, the
    variables [tocContent] and [idx], and the lines printed so far. *)
Record book_state : Type := {
  b_fs : FS;
  b_toc : string;
  b_idx : nat;
  b_printed : list string }.

(** One round of the loop of [customizeJupyterBook]. *)
Definition book_step (context : Context) (s : book_state) (file : string) : book_state :=
  let fs := b_fs s in
  let failed toc e :=
    {| b_fs := fs; b_toc := toc; b_idx := b_idx s; b_printed := b_printed s ++ [e] |} in
  match fs_stat fs (Path.join ["content"; file]) with
  | Throw e => failed (b_toc s) e
  | Ok stats =>
      if isDirectory stats then
        match chapterNames context with
        | None => s
        | Some names =>
            let chapterFilePath := Path.join ["."; "content"; file] in
            let toc1 := b_toc s +:+ chapter_stanza file (names !! b_idx s) in
            match chapter_section fs file chapterFilePath with
            | Throw e => failed toc1 e
            | Ok section =>
                let toc2 := toc1 +:+ section in
                match readme_text fs chapterFilePath with
                | Throw e => failed toc2 e
                | Ok text =>
                    match fs_writeFile fs (Path.join ["."; "content"; file; "readme.md"]) text with
                    | (Throw e, fs') =>
                        {| b_fs := fs'; b_toc := toc2; b_idx := b_idx s;
                           b_printed := b_printed s ++ [e] |}
                    | (Ok _, fs') =>
                        {| b_fs := fs'; b_toc := toc2; b_idx := S (b_idx s);
                           b_printed := b_printed s |}
                    end
                end
            end
        end
      else
        match single_entry fs "content" file with
        | Throw e => failed (b_toc s) e
        | Ok single =>
            {| b_fs := fs; b_toc := b_toc s +:+ single; b_idx := b_idx s;
               b_printed := b_printed s |}
        end
  end.

(** The world that goes with a state of the loop. *)
Definition world_at (w : World) (s : book_state) : World :=
  {| w_fs := b_fs s; generator := generator w; console := b_printed s |}.

Definition book_start (w : World) : book_state :=
  {| b_fs := w_fs w; b_toc := ""; b_idx := 0; b_printed := console w |}.

(** The whole build: the outcome, and the state after the last write. *)
Definition book_run (context : Context) (w : World) : outcome unit * World :=
  match fs_readdir (w_fs w) "content" with
  | Throw e => (Throw e, w)
  | Ok bookContents =>
      let s := foldl (book_step context) (book_start w) bookContents in
      let '(r, fs') := fs_writeFile (b_fs s) "_data/toc.yml" (b_toc s) in
      (r, {| w_fs := fs'; generator := generator w; console := b_printed s |})
  end.

(** ** The book on the file system *)

Definition content_key (fs : FS) : list string := cwd fs ++ ["content"].
Definition entry_key (fs : FS) (f : string) : list string := cwd fs ++ ["content"; f].
Definition nested_key (fs : FS) (f g : string) : list string := cwd fs ++ ["content"; f; g].
Definition data_key (fs : FS) : list string := cwd fs ++ ["_data"].
Definition toc_key (fs : FS) : list string := cwd fs ++ ["_data"; "toc.yml"].

Definition is_dir (n : option node) : bool :=
  match n with
  | Some (Dir _) => true
  | _ => false
  end.

(** Every name listed by a directory of the file system is plain. *)
Definition names_plain (fs : FS) : bool :=
  forallb (fun kn => match snd kn with
                     | Dir entries => forallb plain_name entries
                     | File _ => true
                     end)
          (map_to_list (nodes fs)).

(** The entries of a chapter that the build looks at. *)
Definition kept (entries : list string) : list string :=
  filter (fun g => no_readme g = true) entries.

(** Two nodes the build cannot tell apart. *)
Definition similar_node (a b : option node) : Prop :=
  match a, b with
  | None, None => True
  | Some (File d), Some (File d') => d = d'
  | Some (Dir l), Some (Dir l') => kept l = kept l'
  | _, _ => False
  end.

(** Two file systems the loop of the build cannot tell apart: the same
    listing of [content], entries of [content] that are similar, the same
    files under the chapters but for readme files, and readme paths that
    are directories in both or in neither. *)
Record same_book (fs fs' : FS) : Prop := {
  sb_cwd : cwd fs' = cwd fs;
  sb_content : nodes fs' !! content_key fs = nodes fs !! content_key fs;
  sb_entry : ∀ f, plain_name f = true →
    similar_node (nodes fs !! entry_key fs f) (nodes fs' !! entry_key fs f);
  sb_nested : ∀ f g, plain_name f = true → plain_name g = true → no_readme g = true →
    nodes fs' !! nested_key fs f g = nodes fs !! nested_key fs f g;
  sb_readme : ∀ f, plain_name f = true →
    is_dir (nodes fs' !! nested_key fs f "readme.md") =
    is_dir (nodes fs !! nested_key fs f "readme.md") }.

(** The names the build makes paths of are plain. *)
Definition book_names_plain (fs : FS) : Prop :=
  (∀ l, nodes fs !! content_key fs = Some (Dir l) → Forall (fun f => plain_name f = true) l) ∧
  (∀ f l, plain_name f = true → nodes fs !! entry_key fs f = Some (Dir l) →
          Forall (fun g => plain_name g = true) (kept l)).

(** What one round of the loop writes to the readme of [file], if it gets
    that far. *)
Definition readme_plan (context : Context) (fs : FS) (file : string) : option string :=
  match fs_stat fs (Path.join ["content"; file]) with
  | Ok stats =>
      if isDirectory stats then
        match chapterNames context with
        | Some _ =>
            match chapter_section fs file (Path.join ["."; "content"; file]) with
            | Ok _ =>
                match readme_text fs (Path.join ["."; "content"; file]) with
                | Ok text => Some text
                | Throw _ => None
                end
            | Throw _ => None
            end
        | None => None
        end
      else None
  | Throw _ => None
  end.

(** What one round of the loop does to the file system. *)
Definition step_fs (context : Context) (fs : FS) (file : string) : FS :=
  match readme_plan context fs file with
  | Some text => snd (fs_writeFile fs (Path.join ["."; "content"; file; "readme.md"]) text)
  | None => fs
  end.

(** ** The book with one chapter and one page *)

(** [first_line data line]: the text starts with [line] and the test for the
    fixed title lets it through. *)
Definition first_line (data line : string) : Prop :=
  split_lines data !! 0%nat = Some line ∧ ¬ untitled (split_lines data).

(** The book of the example, seen from the working directory: the chapter
    [ch1] holds [intro.md] and, besides it, only names with [readme] in
    them; [standalone.md] is a file next to it; the readme of the chapter and
    the TOC file can be written. *)
Record intro_book (fs : FS) (chapter_files : list string) (intro standalone : string)
  : Prop := {
  ib_chapter : nodes fs !! entry_key fs "ch1" = Some (Dir chapter_files);
  ib_kept : kept chapter_files = ["intro.md"];
  ib_intro : nodes fs !! nested_key fs "ch1" "intro.md" = Some (File intro);
  ib_standalone : nodes fs !! entry_key fs "standalone.md" = Some (File standalone);
  ib_readme : is_dir (nodes fs !! nested_key fs "ch1" "readme.md") = false;
  ib_data : is_dir (nodes fs !! data_key fs) = true;
  ib_toc : is_dir (nodes fs !! toc_key fs) = false }.

Definition intro_section : string :=
  "  - title: Intro" +:+ chr LF +:+ "    url: ch1/intro" +:+ chr LF.

Definition standalone_stanza : string :=
  "- title: Standalone" +:+ chr LF +:+ "  url: standalone" +:+ chr LF.

Definition intro_readme : string :=
  "## Notebooks in this Chapter" +:+ chr LF +:+ "- [Intro](intro.md)" +:+ chr LF.

(** ** Notions for the further properties *)

(** The line [processNotebookFolder] hands to the log. *)
Definition folder_report (fs : FS) (folderPath : string) : string :=
  match fs_stat fs folderPath with
  | Ok _ =>
      if bool_decide (folder_count fs folderPath = 0%nat) then
        "No valid notebooks found in " +:+ folderPath
      else show_nat (folder_count fs folderPath) +:+ " notebook(s) found."
  | Throw message =>
      "No valid notebooks found in " +:+ folderPath +:+ "." +:+ chr LF +:+
      access_error folderPath message
  end.

(** Runs of the scans leave the log and the file system as they are. *)
Definition quiet (w w' : World) : Prop :=
  w_fs w' = w_fs w ∧ logged (generator w') = logged (generator w).

(** The same book handed to a generator that has names but no paths. *)
Definition book_no_paths : World :=
  Sample.world_of Sample.book_fs
    {| notebookNames := Some []; notebookPaths := None; notebookFolders := Some [] |}.

(** Texts put one after the other. *)
Definition glue (parts : list string) : string := foldr String.append "" parts.

(** What an entry of [content] adds to the TOC when the context has no
    chapter names: the flat stanza of an entry that is not a directory and
    has a title, and nothing otherwise. *)
Definition flat_part (fs : FS) (file : string) : string :=
  match fs_stat fs (Path.join ["content"; file]) with
  | Ok stats =>
      if isDirectory stats then ""
      else match single_entry fs "content" file with
           | Ok single => single
           | Throw _ => ""
           end
  | Throw _ => ""
  end.

(** The path of the readme of a chapter. *)
Definition readme_path (file : string) : string :=
  Path.join ["."; "content"; file; "readme.md"].

(** A node that was left alone: a file keeps its data, a directory keeps
    its entries (it may list more), and what was not there is not there. *)
Definition node_kept (a b : option node) : Prop :=
  match a with
  | Some (File d) => b = Some (File d)
  | Some (Dir l) => ∃ l', b = Some (Dir l') ∧ ∀ x, x ∈ l → x ∈ l'
  | None => b = None
  end.

(** The book without a [_data] directory. *)
Definition book_no_data_fs : FS :=
  {| nodes := list_to_map [
       ([], Dir ["home"]);
       (["home"], Dir ["book"]);
       (Sample.base, Dir ["content"]);
       (Sample.base ++ ["content"], Dir ["ch1"; "standalone.md"]);
       (Sample.base ++ ["content"; "ch1"], Dir ["intro.md"]);
       (Sample.base ++ ["content"; "ch1"; "intro.md"],
        File ("# Intro" +:+ Js.chr Js.LF +:+ "Some text."));
       (Sample.base ++ ["content"; "standalone.md"], File "# Standalone")];
     cwd := Sample.base;
     slot := fun entries _ => length entries |}.

Definition book_no_data : World := Sample.world_of book_no_data_fs Sample.empty_config.

(** The path of a chapter, as the build writes it. *)
Definition chapter_path (file : string) : string := Path.join ["."; "content"; file].

(** A site whose first chapter holds a folder, whose second chapter holds
    two pages and a readme, and which has a text file next to the
    chapters. *)
Definition site_fs : FS :=
  {| nodes := list_to_map [
       ([], Dir ["site"]);
       (["site"], Dir ["content"; "_data"]);
       (["site"; "_data"], Dir []);
       (["site"; "content"], Dir ["ch1"; "ch2"; "notes.txt"]);
       (["site"; "content"; "ch1"], Dir ["a.md"; "sub"]);
       (["site"; "content"; "ch1"; "a.md"], File "# A");
       (["site"; "content"; "ch1"; "sub"], Dir []);
       (["site"; "content"; "ch2"], Dir ["b.md"; "readme.md"; "c.md"]);
       (["site"; "content"; "ch2"; "b.md"], File "# B");
       (["site"; "content"; "ch2"; "readme.md"], File "old");
       (["site"; "content"; "ch2"; "c.md"], File "# C, continued");
       (["site"; "content"; "notes.txt"], File "Some notes")];
     cwd := ["site"];
     slot := fun entries _ => length entries |}.

Definition site : World := Sample.world_of site_fs Sample.empty_config.

Definition two_chapters : Context := {| chapterNames := Some ["First"; "Second"] |}.
(** ** Running computations *)

Lemma bind_ok {St A B} (c : M St A) (k : A → M St B) s a s' :
  c s = (Ok a, s') → bind c k s = k a s'.
Proof. intros H. unfold bind. by rewrite H. Qed.

Lemma bind_throw {St A B} (c : M St A) (k : A → M St B) s e s' :
  c s = (Throw e, s') → bind c k s = (Throw e, s').
Proof. intros H. unfold bind. by rewrite H. Qed.

Lemma try_catch_ok {St A} (c : M St A) h s a s' :
  c s = (Ok a, s') → try_catch c h s = (Ok a, s').
Proof. intros H. unfold try_catch. by rewrite H. Qed.

Lemma try_catch_throw {St A} (c : M St A) h s e s' :
  c s = (Throw e, s') → try_catch c h s = h e s'.
Proof. intros H. unfold try_catch. by rewrite H. Qed.

Lemma forEach_cons {St A} (x : A) rest (f : A → M St unit) s :
  forEach (x :: rest) f s = bind (f x) (fun _ => forEach rest f) s.
Proof. done. Qed.

(** ** Strings *)

Lemma starts_with_app p s : starts_with p (p +:+ s) = true.
Proof.
  induction p as [|c p IH]; simpl; [done|].
  unfold ascii_eqb. by rewrite bool_decide_eq_true_2.
Qed.

Lemma includes_here p s : starts_with p s = true → includes p s = true.
Proof.
  intros H. destruct s as [|c s].
  - by destruct p.
  - change (starts_with p (String c s) || includes p s = true). by rewrite H.
Qed.

Lemma includes_app_l p a s : includes p s = true → includes p (a +:+ s) = true.
Proof.
  intros H. induction a as [|c a IH]; simpl; [done|].
  rewrite IH. apply orb_true_r.
Qed.

Lemma includes_middle p a b : includes p (a +:+ p +:+ b) = true.
Proof. apply includes_app_l, includes_here, starts_with_app. Qed.

(** ** [getFolderContent] *)

Lemma access_error_includes folderPath e :
  includes folderPath (access_error folderPath e) = true.
Proof. unfold access_error. apply includes_middle. Qed.

(** *** What the system calls answer *)

Lemma walk_codes m segs : ∀ cur code,
  walk m cur segs = Throw code → code = ENOENT ∨ code = ENOTDIR.
Proof.
  induction segs as [|seg rest IH]; intros cur code; simpl; [done|].
  destruct (m !! cur) as [[d|l]|]; simpl;
    [intros [= <-]; by right|apply IH|intros [= <-]; by left].
Qed.

Lemma locate_codes fs p code : locate fs p = Throw code → code = ENOENT ∨ code = ENOTDIR.
Proof.
  unfold locate. destruct (string_eqb p ""); [intros [= <-]; by left|].
  destruct (Path.segments p); [intros [= <-]; by left|apply walk_codes].
Qed.

(** [statSync] and [readdirSync] on one path: the listing is there exactly
    when the path leads to a directory, and [statSync] fails with one of two
    codes. *)
Lemma fs_stat_readdir fs p :
  match fs_stat fs p with
  | Ok stats =>
      if isDirectory stats then ∃ entries, fs_readdir fs p = Ok entries
      else fs_readdir fs p = Throw (sys_error ENOTDIR "scandir" p)
  | Throw message =>
      (message = sys_error ENOENT "stat" p ∨ message = sys_error ENOTDIR "stat" p) ∧
      ∃ e, fs_readdir fs p = Throw e
  end.
Proof.
  unfold fs_stat, fs_readdir. destruct (locate fs p) as [key|code] eqn:Hl.
  - destruct (nodes fs !! key) as [[d|l]|]; simpl; [done|by eexists|].
    split; [by left|by eexists].
  - split; [|by eexists]. by destruct (locate_codes _ _ _ Hl) as [-> | ->]; [left|right].
Qed.

Lemma fs_readdir_stat fs p entries :
  fs_readdir fs p = Ok entries → fs_stat fs p = Ok {| isDirectory := true |}.
Proof.
  unfold fs_stat, fs_readdir. destruct (locate fs p) as [key|code]; [|done].
  by destruct (nodes fs !! key) as [[d|l]|].
Qed.

(** The three ways a path can look to the folder lister. *)
Lemma fs_place fs p :
  (∃ entries, fs_readdir fs p = Ok entries ∧ fs_stat fs p = Ok {| isDirectory := true |}) ∨
  (∃ e, fs_readdir fs p = Throw e ∧ fs_stat fs p = Ok {| isDirectory := false |}) ∨
  (∃ e message, fs_readdir fs p = Throw e ∧ fs_stat fs p = Throw message).
Proof.
  pose proof (fs_stat_readdir fs p) as H.
  destruct (fs_stat fs p) as [[[]]|message].
  - destruct H as [entries H]. left. by exists entries.
  - right. left. simpl in H. by eexists.
  - destruct H as [_ [e H]]. right. right. by exists e, message.
Qed.

(** The answers on the paths that do not lead anywhere although their text
    looks as if they did: the empty path, a slash after the name of a file,
    a name under a file, and a double dot after a name that is not there. *)
Lemma fs_stat_examples :
  fs_stat (w_fs Sample.book) "" = Throw (sys_error ENOENT "stat" "") ∧
  fs_stat (w_fs Sample.book) "content/standalone.md/" =
    Throw (sys_error ENOTDIR "stat" "content/standalone.md/") ∧
  fs_stat (w_fs Sample.book) "content/standalone.md/x" =
    Throw (sys_error ENOTDIR "stat" "content/standalone.md/x") ∧
  fs_stat (w_fs Sample.book) "nope/../content" =
    Throw (sys_error ENOENT "stat" "nope/../content") ∧
  fs_stat (w_fs Sample.book) "content/../content/" = Ok {| isDirectory := true |} ∧
  fs_stat (w_fs Sample.book) "/home/book/content/ch1/intro.md" =
    Ok {| isDirectory := false |}.
Proof. by vm_compute. Qed.

Lemma getFolderContent_dir folderPath errors w entries :
  fs_readdir (w_fs w) folderPath = Ok entries →
  getFolderContent folderPath errors w = (Ok (entries, errors), w).
Proof.
  intros H. pose proof (fs_readdir_stat _ _ _ H) as Hs.
  unfold getFolderContent, try_catch, bind, statSync, readdirSync, ret.
  rewrite Hs. simpl. by rewrite H.
Qed.

Lemma getFolderContent_file folderPath errors w :
  fs_stat (w_fs w) folderPath = Ok {| isDirectory := false |} →
  getFolderContent folderPath errors w = (Ok ([], errors), w).
Proof.
  intros H. unfold getFolderContent, try_catch, bind, statSync, ret, throw.
  by rewrite H.
Qed.

Lemma getFolderContent_missing folderPath arr w message :
  fs_stat (w_fs w) folderPath = Throw message →
  getFolderContent folderPath (Some arr) w =
    (Ok ([], Some (arr ++ [access_error folderPath message])), w).
Proof.
  intros H. unfold getFolderContent, try_catch, bind, statSync, ret, throw.
  by rewrite H.
Qed.

Lemma getFolderContent_missing_no_collector folderPath w message :
  fs_stat (w_fs w) folderPath = Throw message →
  getFolderContent folderPath None w = (Throw (TypeError_undefined "push"), w).
Proof.
  intros H. unfold getFolderContent, try_catch, bind, statSync, ret, throw.
  by rewrite H.
Qed.

(** ** [findNotebookFiles] *)

Lemma set_config_same w :
  set_config w {| notebookNames := notebookNames (config_of w);
                  notebookPaths := notebookPaths (config_of w);
                  notebookFolders := notebookFolders (config_of w) |} = w.
Proof. by destruct w as [? [[] ?] ?]. Qed.

Lemma findNotebookFiles_each_skip folderPath fileName s :
  is_notebook fileName = false →
  findNotebookFiles_each folderPath fileName s = (Ok tt, s).
Proof.
  intros H. unfold findNotebookFiles_each, try_catch. fold (is_notebook fileName).
  by rewrite H.
Qed.

Lemma findNotebookFiles_each_push folderPath fileName w c ns ps :
  is_notebook fileName = true →
  notebookNames (config_of w) = Some ns →
  notebookPaths (config_of w) = Some ps →
  findNotebookFiles_each folderPath fileName (w, c) =
    (Ok tt, (pushed w (ns ++ [fileName]) (ps ++ [Path.join [folderPath; fileName]]), S c)).
Proof.
  intros H Hn Hp. unfold findNotebookFiles_each, try_catch.
  fold (is_notebook fileName). rewrite H.
  unfold bind, locals, assign, lift, notebookNames_push, notebookPaths_push.
  unfold config_of in *. rewrite Hn. simpl. rewrite Hp. done.
Qed.

Lemma notebooks_of_cons f files :
  notebooks_of (f :: files) =
    if is_notebook f then f :: notebooks_of files else notebooks_of files.
Proof.
  unfold notebooks_of. rewrite filter_cons.
  destruct (is_notebook f); by case_decide.
Qed.

Lemma forEach_findNotebookFiles folderPath files : ∀ w c ns ps,
  notebookNames (config_of w) = Some ns →
  notebookPaths (config_of w) = Some ps →
  forEach files (findNotebookFiles_each folderPath) (w, c) =
    (Ok tt,
     (pushed w (ns ++ notebooks_of files)
        (ps ++ map (fun f => Path.join [folderPath; f]) (notebooks_of files)),
      (c + length (notebooks_of files))%nat)).
Proof.
  induction files as [|f files IH]; intros w c ns ps Hn Hp.
  - simpl. unfold ret, pushed. rewrite !app_nil_r, <- Hn, <- Hp, set_config_same.
    by rewrite Nat.add_0_r.
  - rewrite forEach_cons, notebooks_of_cons.
    destruct (is_notebook f) eqn:Hf.
    + erewrite bind_ok by (by apply findNotebookFiles_each_push).
      erewrite IH by done. simpl.
      rewrite <- !app_assoc. simpl. unfold pushed, set_config. simpl.
      do 3 f_equal. lia.
    + erewrite bind_ok by (by apply findNotebookFiles_each_skip).
      by apply IH.
Qed.

Lemma findNotebookFiles_dir folderPath errors w files names paths :
  fs_readdir (w_fs w) folderPath = Ok files →
  notebookNames (config_of w) = Some names →
  notebookPaths (config_of w) = Some paths →
  findNotebookFiles folderPath errors w =
    (Ok (length (notebooks_of files), errors),
     pushed w (names ++ notebooks_of files)
       (paths ++ map (fun f => Path.join [folderPath; f]) (notebooks_of files))).
Proof.
  intros Hd Hn Hp. unfold findNotebookFiles.
  erewrite bind_ok by (by apply getFolderContent_dir).
  unfold bind, with_locals. by erewrite forEach_findNotebookFiles.
Qed.

Lemma findNotebookFiles_no_entries folderPath errors errors' w :
  getFolderContent folderPath errors w = (Ok ([], errors'), w) →
  findNotebookFiles folderPath errors w = (Ok (0%nat, errors'), w).
Proof. intros H. unfold findNotebookFiles. by erewrite bind_ok by done. Qed.

(** The test is on the lower-cased extension, so [.IPYNB] and [.Md] pass; a
    name that is only [.md] has no extension and does not. *)
Lemma is_notebook_spec fileName :
  is_notebook fileName = true ↔
  toLowerCase (Path.extname fileName) = ".ipynb" ∨ toLowerCase (Path.extname fileName) = ".md".
Proof.
  unfold is_notebook, is_notebook_extension, string_eqb.
  by rewrite orb_true_iff, !bool_decide_eq_true.
Qed.

Lemma is_notebook_examples :
  is_notebook "Report.IPYNB" = true ∧ is_notebook "notes.Md" = true ∧
  is_notebook "data.json" = false ∧ is_notebook ".md" = false ∧
  is_notebook "README" = false.
Proof. by repeat split. Qed.

(** C1. When the folder path leads to a directory, as the system walks it,
    and the listing of that directory has [N] entries whose lower-cased
    extension is [.ipynb] or [.md] and [M] other entries, the single-folder
    scan returns [N] and pushes exactly those [N] entries, in listing order,
    onto [notebookNames], and the folder path joined with each of them, in
    the same order, onto [notebookPaths]: the i-th pushed path is the join of
    the folder path and the i-th pushed name. *)
Theorem findNotebookFiles_counts_and_appends
    folderPath errors w files names paths (N M : nat) :
  fs_readdir (w_fs w) folderPath = Ok files →
  notebookNames (config_of w) = Some names →
  notebookPaths (config_of w) = Some paths →
  length (filter (fun f => is_notebook f = true) files) = N →
  length (filter (fun f => is_notebook f = false) files) = M →
  ∃ w' new_names new_paths,
    findNotebookFiles folderPath errors w = (Ok (N, errors), w') ∧
    notebookNames (config_of w') = Some (names ++ new_names) ∧
    notebookPaths (config_of w') = Some (paths ++ new_paths) ∧
    length new_names = N ∧ length new_paths = N ∧
    new_names = filter (fun f => is_notebook f = true) files ∧
    (∀ i name, new_names !! i = Some name →
               new_paths !! i = Some (Path.join [folderPath; name])) ∧
    (N + M)%nat = length files.
Proof.
  intros Hd Hn Hp HN HM.
  assert (Hf : filter (fun f => is_notebook f = true) files = notebooks_of files).
  { unfold notebooks_of. apply list_filter_iff. intros f.
    by destruct (is_notebook f). }
  rewrite Hf in HN.
  exists (pushed w (names ++ notebooks_of files)
            (paths ++ map (fun f => Path.join [folderPath; f]) (notebooks_of files))).
  exists (notebooks_of files),
         (map (fun f => Path.join [folderPath; f]) (notebooks_of files)).
  split; [|split; [done|split; [done|split; [done|split; [|split; [done|split]]]]]].
  - rewrite <- HN. by apply findNotebookFiles_dir.
  - by rewrite length_map.
  - intros i name Hi. by rewrite list_lookup_fmap, Hi.
  - subst N M. clear. unfold notebooks_of.
    induction files as [|f files IH]; [done|].
    rewrite !filter_cons. destruct (is_notebook f);
      repeat case_decide; simpl in *; try done; lia.
Qed.

Lemma findNotebookFiles_counts_and_appends_witness :
  ∃ w' new_names new_paths,
    findNotebookFiles "content/ch1" (Some []) Sample.book = (Ok (1%nat, Some []), w') ∧
    notebookNames (config_of w') = Some ([] ++ new_names) ∧
    notebookPaths (config_of w') = Some ([] ++ new_paths) ∧
    length new_names = 1%nat ∧ length new_paths = 1%nat ∧
    new_names = filter (fun f => is_notebook f = true) ["intro.md"] ∧
    (∀ i name, new_names !! i = Some name →
               new_paths !! i = Some (Path.join ["content/ch1"; name])) ∧
    (1 + 0)%nat = length ["intro.md"].
Proof.
  apply (findNotebookFiles_counts_and_appends "content/ch1" (Some []) Sample.book
           ["intro.md"] [] [] 1 0); reflexivity.
Defined.

(** C2, amended.  With an error collector supplied, the folder lister never
    raises and leaves the world as it is, whatever the path.  It returns the
    listing, in order, when the path leads to a directory; an empty list and
    an untouched collector when it leads to something that is not a
    directory; and, when the path cannot be accessed, because something on
    the way is missing or is not a directory, an empty list with exactly one
    string appended to the collector, which is [Unable to access], the path
    and the message of the system, and so contains the path.  The
    single-folder scan of such a path finds nothing and reports that one
    string. *)
Theorem getFolderContent_outcomes folderPath arr w :
  match fs_stat (w_fs w) folderPath with
  | Ok stats =>
      if isDirectory stats then
        ∃ entries, fs_readdir (w_fs w) folderPath = Ok entries ∧
                   getFolderContent folderPath (Some arr) w = (Ok (entries, Some arr), w)
      else getFolderContent folderPath (Some arr) w = (Ok ([], Some arr), w)
  | Throw message =>
      ∃ e, getFolderContent folderPath (Some arr) w = (Ok ([], Some (arr ++ [e])), w) ∧
           findNotebookFiles folderPath (Some arr) w = (Ok (0%nat, Some (arr ++ [e])), w) ∧
           e = access_error folderPath message ∧
           (message = sys_error ENOENT "stat" folderPath ∨
            message = sys_error ENOTDIR "stat" folderPath) ∧
           includes folderPath e = true
  end.
Proof.
  pose proof (fs_stat_readdir (w_fs w) folderPath) as H.
  destruct (fs_stat (w_fs w) folderPath) as [[[]]|message] eqn:Hs.
  - destruct H as [entries H]. exists entries. split; [done|].
    by apply getFolderContent_dir.
  - by apply getFolderContent_file.
  - destruct H as [Hm _]. eexists. split; [by apply getFolderContent_missing|].
    split; [|split; [done|split; [done|apply access_error_includes]]].
    apply findNotebookFiles_no_entries. by apply getFolderContent_missing.
Qed.

(** C2 as stated fails on a path that is a regular file: the result is
    empty and nothing is appended to the collector. *)
Lemma getFolderContent_file_is_silent :
  fs_stat (w_fs Sample.book) "content/standalone.md" = Ok {| isDirectory := false |} ∧
  getFolderContent "content/standalone.md" (Some []) Sample.book =
    (Ok ([], Some []), Sample.book) ∧
  ¬ lists_or_reports "content/standalone.md" [] Sample.book.
Proof.
  assert (H : getFolderContent "content/standalone.md" (Some []) Sample.book =
              (Ok ([], Some []), Sample.book))
    by (by eapply getFolderContent_file; vm_compute).
  split; [by vm_compute|split; [exact H|]].
  unfold lists_or_reports.
  replace (fs_readdir (w_fs Sample.book) "content/standalone.md")
    with (Throw (A := list string) (sys_error ENOTDIR "scandir" "content/standalone.md"))
    by (by vm_compute).
  intros [e [He _]]. rewrite H in He. simpl in He. discriminate He.
Qed.

(** ** Scans and the registry *)

Lemma grows_refl w : grows w w.
Proof.
  split; [done|]. intros ns ps Hn Hp. exists [], [].
  rewrite !app_nil_r. split; [done|]. split; [done|]. constructor.
Qed.

Lemma grows_trans w1 w2 w3 : grows w1 w2 → grows w2 w3 → grows w1 w3.
Proof.
  intros [Hf1 H1] [Hf2 H2]. split; [congruence|].
  intros ns ps Hn Hp.
  destruct (H1 _ _ Hn Hp) as (ns1 & ps1 & Hn1 & Hp1 & HF1).
  destruct (H2 _ _ Hn1 Hp1) as (ns2 & ps2 & Hn2 & Hp2 & HF2).
  exists (ns1 ++ ns2), (ps1 ++ ps2). rewrite !app_assoc.
  split; [done|]. split; [done|]. by apply Forall2_app.
Qed.

Lemma grows_same_registry w w' :
  w_fs w' = w_fs w → config_of w' = config_of w → grows w w'.
Proof.
  intros Hf Hc. split; [done|]. intros ns ps Hn Hp. exists [], [].
  rewrite !app_nil_r, Hc. split; [done|]. split; [done|]. constructor.
Qed.

Lemma grows_balanced w w' : grows w w' → registry_balanced w → registry_balanced w'.
Proof.
  intros [_ H] (ns & ps & Hn & Hp & Hl).
  destruct (H _ _ Hn Hp) as (ns' & ps' & Hn' & Hp' & HF).
  exists (ns ++ ns'), (ps ++ ps'). split; [done|]. split; [done|].
  rewrite !length_app. apply Forall2_length in HF. lia.
Qed.

(** One entry of a listing: the callback never raises, counts the entry
    exactly when it passes the test, and keeps the registry paired. *)
Lemma findNotebookFiles_each_total folderPath fileName w c :
  ∃ w', findNotebookFiles_each folderPath fileName (w, c) =
          (Ok tt, (w', if is_notebook fileName then S c else c)) ∧
        grows w w' ∧
        notebookFolders (config_of w') = notebookFolders (config_of w) ∧
        (notebookNames (config_of w) = None →
         w' = if is_notebook fileName then printed w [push_failure] else w).
Proof.
  destruct (is_notebook fileName) eqn:Hf.
  2:{ exists w. rewrite findNotebookFiles_each_skip by done.
      repeat split; auto using grows_refl; apply grows_refl. }
  unfold findNotebookFiles_each, try_catch. fold (is_notebook fileName). rewrite Hf.
  unfold bind, locals, assign, lift, notebookNames_push, notebookPaths_push, console_log.
  destruct (notebookNames (extensionConfig (generator w))) as [ns|] eqn:Hn; simpl.
  - destruct (notebookPaths (extensionConfig (generator w))) as [ps|] eqn:Hp; simpl.
    + eexists. split; [done|]. split; [|split; [done|]].
      * split; [done|]. intros ns0 ps0 Hn0 Hp0. unfold config_of in *.
        exists [fileName], [Path.join [folderPath; fileName]]. simpl.
        replace ns0 with ns by congruence. replace ps0 with ps by congruence.
        split; [done|]. split; [done|].
        constructor; [by eexists|constructor].
      * unfold config_of. by rewrite Hn.
    + eexists. split; [done|]. split; [|split; [done|]].
      * split; [done|]. intros ns0 ps0 _ Hp0. unfold config_of in Hp0. congruence.
      * unfold config_of. by rewrite Hn.
  - eexists. split; [done|]. split; [|split; [done|done]].
    by apply grows_same_registry.
Qed.

Lemma forEach_findNotebookFiles_total folderPath files : ∀ w c,
  ∃ w', forEach files (findNotebookFiles_each folderPath) (w, c) =
          (Ok tt, (w', (c + length (notebooks_of files))%nat)) ∧
        grows w w' ∧
        notebookFolders (config_of w') = notebookFolders (config_of w) ∧
        (notebookNames (config_of w) = None →
         w' = printed w (replicate (length (notebooks_of files)) push_failure)).
Proof.
  induction files as [|f files IH]; intros w c.
  - exists w. simpl. rewrite Nat.add_0_r. repeat split; try apply grows_refl.
    intros _. unfold printed. simpl. rewrite app_nil_r. by destruct w.
  - destruct (findNotebookFiles_each_total folderPath f w c) as (w1 & H1 & G1 & F1 & N1).
    destruct (IH w1 (if is_notebook f then S c else c)) as (w2 & H2 & G2 & F2 & N2).
    exists w2. rewrite forEach_cons. erewrite bind_ok by exact H1. rewrite H2.
    rewrite notebooks_of_cons.
    split; [|split; [by eapply grows_trans|split; [congruence|]]].
    + destruct (is_notebook f); simpl; do 3 f_equal; lia.
    + intros Hn. specialize (N1 Hn). rewrite N2.
      * subst w1. destruct (is_notebook f); [|done].
        unfold printed. simpl. by rewrite <- app_assoc.
      * subst w1. by destruct (is_notebook f).
Qed.

(** The single-folder scan with a collector never raises and returns the
    count of the folder, whatever the registry holds. *)
Lemma findNotebookFiles_total folderPath arr w :
  ∃ arr' w', findNotebookFiles folderPath (Some arr) w =
               (Ok (folder_count (w_fs w) folderPath, Some arr'), w') ∧
             grows w w' ∧
             notebookFolders (config_of w') = notebookFolders (config_of w).
Proof.
  unfold findNotebookFiles, folder_count.
  destruct (fs_place (w_fs w) folderPath)
    as [(files & Hr & Hs)|[(e & Hr & Hs)|(e & message & Hr & Hs)]]; rewrite Hr.
  - pose proof (getFolderContent_dir folderPath (Some arr) w files Hr) as H.
    destruct (forEach_findNotebookFiles_total folderPath files w 0) as (w' & Hw & G & F & _).
    exists arr, w'. erewrite bind_ok by exact H.
    unfold bind, with_locals. by rewrite Hw.
  - pose proof (getFolderContent_file folderPath (Some arr) w Hs) as H.
    exists arr, w. erewrite bind_ok by exact H. simpl. split; [done|].
    split; [apply grows_refl|done].
  - pose proof (getFolderContent_missing folderPath arr w message Hs) as H.
    eexists (arr ++ [_]), w.
    erewrite bind_ok by exact H. simpl. split; [done|].
    split; [apply grows_refl|done].
Qed.

(** ** Relations kept by computations *)

Section Keeps.
Context {St : Type} (R : relation St) `{!PreOrder R}.

Lemma keeps_ret {A} (a : A) : keeps R (ret a).
Proof. intros s. simpl. reflexivity. Qed.

Lemma keeps_throw {A} e : keeps R (throw (A := A) e).
Proof. intros s. simpl. reflexivity. Qed.

Lemma keeps_bind {A B} (c : M St A) (k : A → M St B) :
  keeps R c → (∀ a, keeps R (k a)) → keeps R (bind c k).
Proof.
  intros Hc Hk s. unfold bind. specialize (Hc s).
  destruct (c s) as [[a|e] s1]; simpl in *; [|done].
  etrans; [exact Hc|apply Hk].
Qed.

Lemma keeps_try_catch {A} (c : M St A) h :
  keeps R c → (∀ e, keeps R (h e)) → keeps R (try_catch c h).
Proof.
  intros Hc Hh s. unfold try_catch. specialize (Hc s).
  destruct (c s) as [[a|e] s1]; simpl in *; [done|].
  etrans; [exact Hc|apply Hh].
Qed.

Lemma keeps_forEach {A} (arr : list A) f :
  (∀ x, keeps R (f x)) → keeps R (forEach arr f).
Proof.
  intros Hf. induction arr as [|x arr IH]; simpl.
  - apply keeps_ret.
  - by apply keeps_bind.
Qed.
End Keeps.

Global Instance on_world_preorder {L} (R : relation World) `{!PreOrder R} :
  PreOrder (on_world (L := L) R).
Proof.
  split.
  - intros [w l]. unfold on_world. reflexivity.
  - intros [w1 l1] [w2 l2] [w3 l3]. unfold on_world. simpl. by etrans.
Qed.

Lemma keeps_lift {L A} (R : relation World) (c : M World A) :
  keeps R c → keeps (on_world (L := L) R) (lift c).
Proof.
  intros Hc [w l]. unfold on_world, lift. specialize (Hc w).
  by destruct (c w) as [r w'].
Qed.

Lemma keeps_locals {L} (R : relation World) `{!PreOrder R} :
  keeps (on_world (L := L) R) locals.
Proof. intros [w l]. unfold on_world. simpl. reflexivity. Qed.

Lemma keeps_assign {L} (R : relation World) `{!PreOrder R} (l : L) :
  keeps (on_world R) (assign l).
Proof. intros [w l']. unfold on_world. simpl. reflexivity. Qed.

Lemma keeps_with_locals {L A} (R : relation World) (l0 : L) (c : M (World * L) A) :
  keeps (on_world R) c → keeps R (with_locals l0 c).
Proof.
  intros Hc w. unfold with_locals. specialize (Hc (w, l0)). unfold on_world in Hc.
  destruct (c (w, l0)) as [[a|e] [w' l]]; done.
Qed.

Global Instance grows_preorder : PreOrder grows.
Proof. split; [exact grows_refl|exact grows_trans]. Qed.

Lemma grows_same_sequences w w' :
  w_fs w' = w_fs w →
  notebookNames (config_of w') = notebookNames (config_of w) →
  notebookPaths (config_of w') = notebookPaths (config_of w) →
  grows w w'.
Proof.
  intros Hf Hn Hp. split; [done|]. intros ns ps Hns Hps. exists [], [].
  rewrite !app_nil_r, Hn, Hp. split; [done|]. split; [done|]. constructor.
Qed.

Lemma keeps_generator_log line : keeps grows (generator_log line).
Proof. intros w. by apply grows_same_sequences. Qed.

Lemma keeps_console_log line : keeps grows (console_log line).
Proof. intros w. by apply grows_same_sequences. Qed.

Lemma keeps_notebookFolders_push dir : keeps grows (notebookFolders_push dir).
Proof.
  intros w. unfold notebookFolders_push.
  destruct (notebookFolders (extensionConfig (generator w))); simpl;
    [by apply grows_same_sequences|apply grows_refl].
Qed.

Lemma getFolderContent_world folderPath errors w :
  snd (getFolderContent folderPath errors w) = w.
Proof.
  unfold getFolderContent, try_catch, bind, statSync, readdirSync.
  destruct (fs_stat (w_fs w) folderPath) as [[[]]|message]; simpl;
    [by destruct (fs_readdir (w_fs w) folderPath), errors|done|by destruct errors].
Qed.

Lemma keeps_getFolderContent folderPath errors :
  keeps grows (getFolderContent folderPath errors).
Proof. intros w. rewrite getFolderContent_world. apply grows_refl. Qed.

Lemma keeps_findNotebookFiles_each folderPath fileName :
  keeps (on_world grows) (findNotebookFiles_each folderPath fileName).
Proof.
  intros [w c]. unfold on_world.
  destruct (findNotebookFiles_each_total folderPath fileName w c) as (w' & H & G & _).
  by rewrite H.
Qed.

Lemma keeps_findNotebookFiles folderPath errors :
  keeps grows (findNotebookFiles folderPath errors).
Proof.
  unfold findNotebookFiles.
  apply keeps_bind; [apply _|apply keeps_getFolderContent|]. intros [files errors'].
  apply keeps_bind; [apply _| |].
  - apply keeps_with_locals, keeps_forEach; [apply _|].
    intros f. apply keeps_findNotebookFiles_each.
  - intros [_ n]. apply keeps_ret, _.
Qed.

Lemma keeps_processNotebookFolder folderPath :
  keeps grows (processNotebookFolder folderPath).
Proof.
  unfold processNotebookFolder.
  apply keeps_bind; [apply _|apply keeps_findNotebookFiles|]. intros [count errors].
  destruct (Z.of_nat count <=? 0);
    (apply keeps_bind; [apply _|apply keeps_generator_log|intros _; apply keeps_ret, _]).
Qed.

Lemma keeps_discover_each rootFolder dir :
  keeps (on_world grows) (discover_each rootFolder dir).
Proof.
  unfold discover_each.
  apply keeps_bind; [apply _|apply keeps_locals, _|]. intros [total errors].
  apply keeps_bind; [apply _|apply keeps_lift, keeps_findNotebookFiles|]. intros [n errors'].
  apply keeps_bind; [apply _|apply keeps_assign, _|]. intros _.
  apply keeps_lift, keeps_notebookFolders_push.
Qed.

Lemma keeps_discoverFoldersContainingNotebooks rootFolder errors :
  keeps grows (discoverFoldersContainingNotebooks rootFolder errors).
Proof.
  unfold discoverFoldersContainingNotebooks.
  apply keeps_bind; [apply _|apply keeps_getFolderContent|]. intros [subfolders e].
  apply keeps_bind; [apply _| |].
  - apply keeps_with_locals, keeps_forEach; [apply _|].
    intros d. apply keeps_discover_each.
  - intros [_ l]. apply keeps_ret, _.
Qed.

Lemma keeps_processBookFolder folderPath : keeps grows (processBookFolder folderPath).
Proof.
  unfold processBookFolder. apply keeps_try_catch; [apply _| |].
  - apply keeps_bind; [apply _|apply keeps_generator_log|]. intros _.
    apply keeps_bind; [apply _|apply keeps_discoverFoldersContainingNotebooks|].
    intros [count errors].
    apply keeps_bind; [apply _|apply keeps_generator_log|]. intros _. apply keeps_ret, _.
  - intros e. apply keeps_bind; [apply _|apply keeps_generator_log|].
    intros _. apply keeps_ret, _.
Qed.

(** C9. Every operation of the module keeps the registry invariant: from a
    world in which [notebookNames] and [notebookPaths] have the same length,
    the single-folder scan, the book-wide scan and the two exported
    functions end, by value or by exception, in a world in which they have
    the same length again; what was appended corresponds index by index, each
    new path being a folder path joined with the new name at its index. *)
Theorem registry_invariant_preserved folderPath errors w :
  registry_balanced w →
  ∀ w', w' = snd (findNotebookFiles folderPath errors w) ∨
        w' = snd (discoverFoldersContainingNotebooks folderPath errors w) ∨
        w' = snd (processNotebookFolder folderPath w) ∨
        w' = snd (processBookFolder folderPath w) →
        registry_balanced w' ∧ grows w w'.
Proof.
  intros Hb w' Hw'.
  assert (G : grows w w').
  { destruct Hw' as [ -> | [ -> | [ -> | -> ] ] ].
    - apply keeps_findNotebookFiles.
    - apply keeps_discoverFoldersContainingNotebooks.
    - apply keeps_processNotebookFolder.
    - apply keeps_processBookFolder. }
  split; [by eapply grows_balanced|done].
Qed.

(** ** The book-wide scan *)

Lemma discover_each_ok rootFolder dir w total arr folders :
  notebookFolders (config_of w) = Some folders →
  ∃ w' arr',
    discover_each rootFolder dir (w, (total, Some arr)) =
      (Ok tt, (w', ((total + folder_count (w_fs w) (Path.join [rootFolder; dir]))%nat,
                    Some arr'))) ∧
    w_fs w' = w_fs w ∧
    notebookFolders (config_of w') = Some (folders ++ [dir]).
Proof.
  intros Hf. unfold discover_each.
  destruct (findNotebookFiles_total (Path.join [rootFolder; dir]) arr w)
    as (arr' & w1 & H1 & [Hfs _] & F1).
  unfold bind at 1. simpl. unfold bind at 1, lift at 1. rewrite H1.
  unfold bind, assign, lift, notebookFolders_push.
  unfold config_of in *. rewrite F1, Hf.
  eexists _, arr'. split; [done|]. by split.
Qed.

Lemma discover_each_no_folders rootFolder dir w total arr :
  notebookFolders (config_of w) = None →
  ∃ s', discover_each rootFolder dir (w, (total, Some arr)) =
          (Throw (TypeError_undefined "push"), s').
Proof.
  intros Hf. unfold discover_each.
  destruct (findNotebookFiles_total (Path.join [rootFolder; dir]) arr w)
    as (arr' & w1 & H1 & _ & F1).
  unfold bind at 1. simpl. unfold bind at 1, lift at 1. rewrite H1.
  unfold bind, assign, lift, notebookFolders_push.
  unfold config_of in *. rewrite F1, Hf. by eexists.
Qed.

Lemma forEach_discover_ok rootFolder subfolders : ∀ w total arr folders,
  notebookFolders (config_of w) = Some folders →
  ∃ w' arr',
    forEach subfolders (discover_each rootFolder) (w, (total, Some arr)) =
      (Ok tt, (w', ((total + book_count (w_fs w) rootFolder subfolders)%nat, Some arr'))) ∧
    w_fs w' = w_fs w ∧
    notebookFolders (config_of w') = Some (folders ++ subfolders).
Proof.
  induction subfolders as [|d ds IH]; intros w total arr folders Hf.
  - exists w, arr. simpl. unfold book_count. simpl.
    by rewrite Nat.add_0_r, app_nil_r.
  - destruct (discover_each_ok rootFolder d w total arr folders Hf)
      as (w1 & arr1 & H1 & Hfs1 & F1).
    destruct (IH w1 (total + folder_count (w_fs w) (Path.join [rootFolder; d]))%nat
                arr1 _ F1) as (w2 & arr2 & H2 & Hfs2 & F2).
    exists w2, arr2. rewrite forEach_cons. erewrite bind_ok by exact H1.
    rewrite H2. unfold book_count in *. simpl. rewrite Hfs1.
    split; [|split; [congruence|by rewrite F2, <- app_assoc]].
    by rewrite Nat.add_assoc.
Qed.

Lemma discover_result rootFolder arr w :
  match fs_readdir (w_fs w) rootFolder, fs_stat (w_fs w) rootFolder with
  | Ok subfolders, _ =>
      match notebookFolders (config_of w), subfolders with
      | None, _ :: _ =>
          ∃ w', discoverFoldersContainingNotebooks rootFolder (Some arr) w =
                  (Throw (TypeError_undefined "push"), w')
      | _, _ =>
          ∃ w' arr', discoverFoldersContainingNotebooks rootFolder (Some arr) w =
                  (Ok (book_count (w_fs w) rootFolder subfolders, Some arr'), w')
      end
  | Throw _, Ok _ =>
      discoverFoldersContainingNotebooks rootFolder (Some arr) w = (Ok (0%nat, Some arr), w)
  | Throw _, Throw _ =>
      discoverFoldersContainingNotebooks rootFolder (Some arr) w =
        (Throw (TypeError_undefined "push"), w)
  end.
Proof.
  unfold discoverFoldersContainingNotebooks.
  destruct (fs_place (w_fs w) rootFolder)
    as [(subfolders & Hr & Hs)|[(e & Hr & Hs)|(e & message & Hr & Hs)]]; rewrite Hr, ?Hs;
    [|by erewrite bind_ok by (by eapply getFolderContent_file)
     |by erewrite bind_throw by (by eapply getFolderContent_missing_no_collector)].
  - erewrite bind_ok by (by eapply getFolderContent_dir).
    destruct (notebookFolders (config_of w)) as [folders|] eqn:Hf.
    + destruct (forEach_discover_ok rootFolder subfolders w 0%nat arr folders Hf)
        as (w1 & arr1 & H1 & _ & _).
      unfold bind, with_locals. rewrite H1. simpl.
      destruct subfolders; by eexists _, _.
    + destruct subfolders as [|d ds].
      * simpl. by eexists _, _.
      * destruct (discover_each_no_folders rootFolder d w 0%nat arr Hf) as ([w1 l1] & H1).
        unfold bind at 1, with_locals. rewrite forEach_cons.
        erewrite bind_throw by exact H1. by eexists.
Qed.

(** The result of the book-wide scan, by what is at the root path. *)
Lemma processBookFolder_result folderPath w :
  match fs_readdir (w_fs w) folderPath, fs_stat (w_fs w) folderPath with
  | Ok subfolders, _ =>
      match notebookFolders (config_of w), subfolders with
      | None, _ :: _ =>
          ∃ w', processBookFolder folderPath w = (Ok None, w') ∧
                last (logged (generator w')) = Some (unexpected (TypeError_undefined "push"))
      | _, _ =>
          ∃ w', processBookFolder folderPath w =
                  (Ok (Some (book_count (w_fs w) folderPath subfolders)), w')
      end
  | Throw _, Ok _ =>
      processBookFolder folderPath w =
        (Ok (Some 0%nat), told w ["Jupyter Book found!"; "0 notebook(s) found! "])
  | Throw _, Throw _ =>
      processBookFolder folderPath w =
        (Ok None, told w ["Jupyter Book found!"; unexpected (TypeError_undefined "push")])
  end.
Proof.
  pose proof (discover_result folderPath [] (told w ["Jupyter Book found!"])) as H.
  unfold processBookFolder, try_catch.
  erewrite bind_ok by (by instantiate (1 := told w ["Jupyter Book found!"])).
  change (w_fs (told w ["Jupyter Book found!"])) with (w_fs w) in H.
  change (config_of (told w ["Jupyter Book found!"])) with (config_of w) in H.
  destruct (fs_readdir (w_fs w) folderPath) as [subfolders|e];
    [|destruct (fs_stat (w_fs w) folderPath) as [stats|message]]; cycle 1.
  - erewrite bind_ok by exact H.
    unfold bind, generator_log, ret, told. simpl. by rewrite <- app_assoc.
  - erewrite bind_throw by exact H.
    unfold bind, generator_log, ret, told. simpl. by rewrite <- app_assoc.
  - destruct (notebookFolders (config_of w)) as [folders|].
    + assert (∃ w' arr', discoverFoldersContainingNotebooks folderPath (Some [])
                 (told w ["Jupyter Book found!"]) =
                 (Ok (book_count (w_fs w) folderPath subfolders, Some arr'), w'))
        as (w' & arr' & H') by (by destruct subfolders).
      erewrite bind_ok by exact H'. simpl. destruct subfolders; by eexists.
    + destruct subfolders as [|d ds].
      * destruct H as (w' & arr' & H'). erewrite bind_ok by exact H'. simpl. by eexists.
      * destruct H as (w' & H'). erewrite bind_throw by exact H'. simpl.
        eexists. split; [done|]. simpl. by rewrite last_snoc.
Qed.

Lemma findNotebookFiles_push_failures folderPath arr w files :
  fs_readdir (w_fs w) folderPath = Ok files →
  notebookNames (config_of w) = None →
  findNotebookFiles folderPath (Some arr) w =
    (Ok (length (notebooks_of files), Some arr),
     printed w (replicate (length (notebooks_of files)) push_failure)).
Proof.
  intros Hd Hn. unfold findNotebookFiles.
  erewrite bind_ok by (by apply getFolderContent_dir).
  destruct (forEach_findNotebookFiles_total folderPath files w 0) as (w' & Hw & _ & _ & Hp).
  unfold bind, with_locals. rewrite Hw. simpl. by rewrite Hp.
Qed.

(** C7. The book-wide scan never raises: it always ends in a value.  When
    the root cannot be accessed, that is when [statSync] fails on the path as
    the system walks it, or when pushing a subfolder name fails, the failure
    is caught, handed to the log, and the value is [undefined]; in every
    other case the value is the sum, over the entries of the root, of the
    counts of the single-folder scan, which is 0 for a root that is not a
    directory.  Inside the single-folder scan a failure at one entry is
    caught and printed and the remaining entries are still processed: with a
    collector the scan always returns the full count of the folder, and when
    every push fails there is one printed line per matching entry. *)
Theorem processBookFolder_catches_and_counts folderPath w :
  (∃ r w', processBookFolder folderPath w = (Ok r, w')) ∧
  match fs_readdir (w_fs w) folderPath, fs_stat (w_fs w) folderPath with
  | Ok subfolders, _ =>
      match notebookFolders (config_of w), subfolders with
      | None, _ :: _ =>
          ∃ w', processBookFolder folderPath w = (Ok None, w') ∧
                last (logged (generator w')) = Some (unexpected (TypeError_undefined "push"))
      | _, _ =>
          ∃ w', processBookFolder folderPath w =
                  (Ok (Some (book_count (w_fs w) folderPath subfolders)), w')
      end
  | Throw _, Ok _ =>
      processBookFolder folderPath w =
        (Ok (Some 0%nat), told w ["Jupyter Book found!"; "0 notebook(s) found! "])
  | Throw _, Throw _ =>
      processBookFolder folderPath w =
        (Ok None, told w ["Jupyter Book found!"; unexpected (TypeError_undefined "push")])
  end ∧
  (∀ arr, ∃ arr' w', findNotebookFiles folderPath (Some arr) w =
                       (Ok (folder_count (w_fs w) folderPath, Some arr'), w')) ∧
  (∀ arr files,
     fs_readdir (w_fs w) folderPath = Ok files →
     notebookNames (config_of w) = None →
     findNotebookFiles folderPath (Some arr) w =
       (Ok (length (notebooks_of files), Some arr),
        printed w (replicate (length (notebooks_of files)) push_failure))).
Proof.
  pose proof (processBookFolder_result folderPath w) as H.
  split; [|split; [exact H|split]].
  - destruct (fs_readdir (w_fs w) folderPath) as [subfolders|e];
      [|destruct (fs_stat (w_fs w) folderPath); by eexists _, _].
    destruct (notebookFolders (config_of w)) as [folders|];
      [destruct H as (w' & H); by eexists _, _|].
    destruct subfolders as [|d ds];
      [destruct H as (w' & H)|destruct H as (w' & H & _)]; by eexists _, _.
  - intros arr. destruct (findNotebookFiles_total folderPath arr w) as (arr' & w' & Hw & _).
    by eexists _, _.
  - intros arr files. apply findNotebookFiles_push_failures.
Qed.

Lemma processBookFolder_catches_and_counts_witness :
  findNotebookFiles "content/ch1" (Some []) Sample.book_unset =
    (Ok (1%nat, Some []), printed Sample.book_unset [push_failure]).
Proof.
  apply (proj2 (proj2 (proj2
           (processBookFolder_catches_and_counts "content/ch1" Sample.book_unset)))
           [] ["intro.md"]); reflexivity.
Defined.

Lemma registry_invariant_preserved_witness :
  registry_balanced (snd (processBookFolder "content" Sample.book)) ∧
  grows Sample.book (snd (processBookFolder "content" Sample.book)).
Proof.
  apply (registry_invariant_preserved "content" None Sample.book).
  - exists [], []. split; [reflexivity|]. split; reflexivity.
  - right. right. right. reflexivity.
Defined.

(** ** Substrings *)

Lemma starts_with_spec p s : starts_with p s = true ↔ ∃ b, s = p +:+ b.
Proof.
  revert s. induction p as [|c p IH]; intros s; simpl.
  - split; [by exists s|done].
  - destruct s as [|d s].
    + split; [done|]. by intros [b Hb].
    + unfold ascii_eqb. rewrite andb_true_iff, bool_decide_eq_true, IH. split.
      * intros [-> [b ->]]. by exists b.
      * intros [b Hb]. injection Hb as -> ->. split; [done|by exists b].
Qed.

Lemma includes_spec p s : includes p s = true ↔ ∃ a b, s = a +:+ p +:+ b.
Proof.
  split.
  - induction s as [|c s IH].
    + simpl. rewrite orb_false_r. intros [b Hb]%starts_with_spec. by exists "", b.
    + change (includes p (String c s)) with (starts_with p (String c s) || includes p s).
      intros [H|H]%orb_true_iff.
      * apply starts_with_spec in H as [b Hb]. by exists "", b.
      * destruct (IH H) as (a & b & ->). by exists (String c a), b.
  - intros (a & b & ->). apply includes_middle.
Qed.

Lemma append_cons c (a b : string) : String c a +:+ b = String c (a +:+ b).
Proof. done. Qed.

Lemma append_nil (a : string) : "" +:+ a = a.
Proof. done. Qed.

Lemma string_app_assoc (a b c : string) : (a +:+ b) +:+ c = a +:+ b +:+ c.
Proof. induction a as [|x a IH]; [done|]. by rewrite !append_cons, IH. Qed.

Lemma includes_trans p q s :
  includes p q = true → includes q s = true → includes p s = true.
Proof.
  rewrite !includes_spec. intros (a & b & ->) (a' & b' & ->).
  exists (a' +:+ a), (b +:+ b'). by rewrite !string_app_assoc.
Qed.

(** ** [findTitle] *)

Lemma findTitle_read file filePath w data :
  fs_readFile (w_fs w) filePath = Ok data →
  findTitle file filePath w =
    (let lines := split_lines data in
     if bool_decide (lines !! 0%nat = Some EmptyString) ||
        ((7 <=? Z.of_nat (length lines)) &&
         match lines !! 6%nat with
         | Some line => includes "collapsed" line
         | None => false
         end)
     then ret (Some "Untitled")
     else if string_eqb (Path.extname file) ".ipynb" then
       match lines !! 6%nat with
       | Some line => ret (Some (clean_title line))
       | None => throw (TypeError_undefined "replace")
       end
     else if string_eqb (Path.extname file) ".md" then
       match lines !! 0%nat with
       | Some line => ret (Some (clean_title line))
       | None => throw (TypeError_undefined "replace")
       end
     else ret None) w.
Proof. intros H. unfold findTitle, bind, readFileSync. by rewrite H. Qed.

Lemma split_lines_first s : ∃ l ls, split_lines s = l :: ls.
Proof.
  induction s as [|c s IH]; [by eexists _, _|].
  simpl. destruct (ascii_eqb c LF); [by eexists _, _|].
  destruct s as [|d s]; [by eexists _, _|].
  destruct (ascii_eqb c CR && ascii_eqb d LF); [by eexists _, _|].
  destruct IH as (l & ls & ->). by eexists _, _.
Qed.

Lemma untitled_test lines :
  bool_decide (lines !! 0%nat = Some EmptyString) ||
  ((7 <=? Z.of_nat (length lines)) &&
   match lines !! 6%nat with
   | Some line => includes "collapsed" line
   | None => false
   end) = true ↔ untitled lines.
Proof.
  unfold untitled. rewrite orb_true_iff, andb_true_iff, bool_decide_eq_true. split.
  - intros [H|[_ H]]; [by left|right].
    destruct (lines !! 6%nat) as [line|]; [by exists line|done].
  - intros [H|(line & Hl & Hc)]; [by left|right]. rewrite Hl. split; [|done].
    apply lookup_lt_Some in Hl. apply Z.leb_le. lia.
Qed.

(** C3. Whenever the first line of the file is empty, or there is a line
    at index 6 and it contains [collapsed], the title is [Untitled], for
    every file name and whatever else the file holds; a line that contains
    the quoted key [collapsed] followed by [: true] is such a line. *)
Theorem findTitle_untitled file filePath w data :
  fs_readFile (w_fs w) filePath = Ok data →
  (split_lines data !! 0%nat = Some EmptyString ∨
   ∃ line, split_lines data !! 6%nat = Some line ∧
           (includes "collapsed" line = true ∨
            includes (Sample.quoted "collapsed" +:+ ": true") line = true)) →
  findTitle file filePath w = (Ok (Some "Untitled"), w).
Proof.
  intros Hr Hu. rewrite (findTitle_read _ _ _ _ Hr). simpl.
  assert (U : untitled (split_lines data)).
  { destruct Hu as [H|(line & Hl & [Hc|Hc])]; [by left|right; by exists line|right].
    exists line. split; [done|]. eapply includes_trans; [|exact Hc]. done. }
  apply untitled_test in U. by rewrite U.
Qed.

Lemma findTitle_untitled_witness :
  findTitle "collapsed.ipynb" "collapsed.ipynb" Sample.docs =
    (Ok (Some "Untitled"), Sample.docs).
Proof.
  apply (findTitle_untitled "collapsed.ipynb" "collapsed.ipynb" Sample.docs
           Sample.collapsed_notebook).
  - reflexivity.
  - right. exists ("    " +:+ Sample.quoted "collapsed" +:+ ": true").
    split; [reflexivity|]. right. reflexivity.
Defined.

(** *** Lines *)

(** A text without a line feed is one line. *)
Lemma split_lines_one s : has_char LF s = false → split_lines s = [s].
Proof.
  induction s as [|c s IH]; [done|]. simpl has_char.
  intros [Hc Hs]%orb_false_iff. simpl split_lines. rewrite Hc.
  destruct s as [|d s]; [done|].
  assert (Hd : ascii_eqb d LF = false) by (simpl in Hs; by apply orb_false_iff in Hs as [? _]).
  rewrite Hd, andb_false_r. by rewrite IH.
Qed.

(** A carriage return and a line feed end a line. *)
Lemma split_lines_crlf l rest :
  has_char LF l = false →
  split_lines (l +:+ chr CR +:+ chr LF +:+ rest) = l :: split_lines rest.
Proof.
  induction l as [|c l IH]; [done|]. simpl has_char.
  intros [Hc Hl]%orb_false_iff. rewrite append_cons. simpl split_lines. rewrite Hc.
  rewrite (IH Hl).
  destruct l as [|d l].
  - rewrite append_nil. unfold chr at 1. rewrite append_cons.
    replace (ascii_eqb CR LF) with false by done. by rewrite andb_false_r.
  - rewrite append_cons.
    assert (Hd : ascii_eqb d LF = false) by (simpl in Hl; by apply orb_false_iff in Hl as [? _]).
    by rewrite Hd, andb_false_r.
Qed.

(** A line feed alone ends a line; a carriage return right before it
    belongs to the separator, so the line must not end with one. *)
Lemma split_lines_lf l rest :
  has_char LF l = false → last_char l ≠ Some CR →
  split_lines (l +:+ chr LF +:+ rest) = l :: split_lines rest.
Proof.
  induction l as [|c l IH].
  - intros _ _. rewrite append_nil. unfold chr. rewrite append_cons, append_nil.
    simpl. replace (ascii_eqb LF LF) with true by done. done.
  - simpl has_char. intros [Hc Hl]%orb_false_iff Hlast.
    rewrite append_cons. simpl split_lines. rewrite Hc.
    destruct l as [|d l].
    + rewrite append_nil. unfold chr at 1. rewrite append_cons, append_nil.
      replace (ascii_eqb LF LF) with true by done. rewrite andb_true_r.
      replace (ascii_eqb c CR) with false.
      * rewrite <- (append_nil (chr LF +:+ rest)). by rewrite (IH Hl).
      * symmetry. unfold ascii_eqb. apply bool_decide_eq_false_2.
        intros ->. by apply Hlast.
    + rewrite IH by done. rewrite append_cons.
      assert (Hd : ascii_eqb d LF = false)
        by (simpl in Hl; by apply orb_false_iff in Hl as [? _]).
      by rewrite Hd, andb_false_r.
Qed.

(** *** Trimming *)

Lemma trim_start_spec s :
  ∃ l, s = l +:+ trim_start s ∧ all_spaces l = true ∧ tight (first_char (trim_start s)).
Proof.
  induction s as [|c s (l & Hs & Hl & Ht)]; [by exists ""|].
  simpl trim_start. destruct (is_space c) eqn:Hc.
  - exists (String c l). rewrite append_cons, <- Hs. simpl. by rewrite Hc, Hl.
  - by exists "".
Qed.

Lemma trim_end_spec s :
  ∃ r, s = trim_end s +:+ r ∧ all_spaces r = true ∧ tight (last_char (trim_end s)) ∧
       (tight (first_char s) → first_char (trim_end s) = first_char s).
Proof.
  induction s as [|c s (r & Hs & Hr & Ht & Hf)]; [by exists ""|].
  simpl trim_end. destruct (trim_end s) as [|d t] eqn:Et.
  - destruct (is_space c) eqn:Hc.
    + exists (String c r). rewrite append_nil in *. subst s.
      split; [done|]. split; [simpl; by rewrite Hc, Hr|]. split; [done|].
      simpl. congruence.
    + exists r. unfold chr. rewrite append_cons, <- Hs. by repeat split.
  - exists r. rewrite append_cons, <- Hs. split; [done|]. split; [done|].
    split; [|done]. simpl in *. by destruct t.
Qed.

(** Trimming removes white space at both ends and nothing else. *)
Lemma trim_spec s :
  ∃ l r, s = l +:+ trim s +:+ r ∧ all_spaces l = true ∧ all_spaces r = true ∧
         tight (first_char (trim s)) ∧ tight (last_char (trim s)).
Proof.
  unfold trim. destruct (trim_start_spec s) as (l & Hs & Hl & Ht).
  destruct (trim_end_spec (trim_start s)) as (r & Hs' & Hr & Ht' & Hf).
  exists l, r. rewrite <- Hs', <- Hs. repeat split; try done.
  by rewrite Hf.
Qed.

Lemma findTitle_titled file filePath w data :
  fs_readFile (w_fs w) filePath = Ok data →
  ¬ untitled (split_lines data) →
  findTitle file filePath w =
    (if string_eqb (Path.extname file) ".ipynb" then
       match split_lines data !! 6%nat with
       | Some line => ret (Some (clean_title line))
       | None => throw (TypeError_undefined "replace")
       end
     else if string_eqb (Path.extname file) ".md" then
       match split_lines data !! 0%nat with
       | Some line => ret (Some (clean_title line))
       | None => throw (TypeError_undefined "replace")
       end
     else ret None) w.
Proof.
  intros Hr Hu. rewrite (findTitle_read _ _ _ _ Hr). simpl.
  rewrite <- untitled_test in Hu. apply not_true_is_false in Hu. by rewrite Hu.
Qed.

(** *** What the three text operations do *)

(** The punctuation strip keeps exactly the characters outside the class,
    in their order. *)
Lemma strip_punct_filter s :
  String.list_ascii_of_string (strip_punct s) =
    filter (fun c => c ∉ [":"; "#"; DQUOTE; SQUOTE; ","]%char)
      (String.list_ascii_of_string s).
Proof.
  induction s as [|c s IH]; [done|]. simpl. rewrite filter_cons.
  assert (H : is_title_punct c = true ↔ c ∈ [":"; "#"; DQUOTE; SQUOTE; ","]%char).
  { unfold is_title_punct, ascii_eqb. rewrite !orb_true_iff, !bool_decide_eq_true.
    rewrite !elem_of_cons, elem_of_nil. tauto. }
  destruct (is_title_punct c).
  - rewrite decide_False; [done|]. intros Hn. apply Hn, H. done.
  - rewrite decide_True; [simpl; by f_equal|]. intros Hc. apply H in Hc. done.
Qed.

Lemma ascii_eqb_sym a b : ascii_eqb a b = ascii_eqb b a.
Proof. unfold ascii_eqb. apply bool_decide_ext. by split. Qed.

Lemma includes_cons p c s :
  includes p (String c s) = starts_with p (String c s) || includes p s.
Proof. done. Qed.

Lemma strip_backslash_n_cons c d r :
  strip_backslash_n (String c (String d r)) =
    if ascii_eqb c BACKSLASH && ascii_eqb d "n" then strip_backslash_n r
    else String c (strip_backslash_n (String d r)).
Proof. done. Qed.

(** A text without a backslash followed by [n] is left as it is. *)
Lemma strip_backslash_n_none s :
  includes "\n" s = false → strip_backslash_n s = s.
Proof.
  induction s as [|c s IH]; [done|].
  rewrite includes_cons. intros [Hs Hi]%orb_false_iff. specialize (IH Hi).
  destruct s as [|d s]; [done|].
  rewrite strip_backslash_n_cons.
  simpl in Hs. rewrite andb_true_r in Hs.
  rewrite (ascii_eqb_sym "\" c), (ascii_eqb_sym "n" d) in Hs.
  unfold BACKSLASH. by rewrite Hs, IH.
Qed.

(** Every backslash followed by [n] goes: the strip of a text around one
    such pair is the strip of what is before it followed by the strip of
    what is after it. *)
Lemma strip_backslash_n_app a b :
  strip_backslash_n (a +:+ "\n" +:+ b) = strip_backslash_n a +:+ strip_backslash_n b.
Proof.
  assert (H : ∀ n a, (String.length a < n)%nat →
            strip_backslash_n (a +:+ "\n" +:+ b) =
              strip_backslash_n a +:+ strip_backslash_n b);
    [|by apply (H (S (String.length a)) a), Nat.lt_succ_diag_r].
  clear a. induction n as [|n IH]; intros a Hn; [lia|].
  destruct a as [|c [|d a]].
  - rewrite append_nil. change ("\n" +:+ b) with (String "\" (String "n" b)).
    by rewrite strip_backslash_n_cons.
  - rewrite append_cons, append_nil.
    change ("\n" +:+ b) with (String "\" (String "n" b)).
    rewrite strip_backslash_n_cons.
    replace (ascii_eqb c BACKSLASH && ascii_eqb "\" "n") with false
      by (by rewrite andb_false_r).
    by rewrite strip_backslash_n_cons.
  - rewrite !append_cons, !strip_backslash_n_cons.
    destruct (ascii_eqb c BACKSLASH && ascii_eqb d "n").
    + apply IH. simpl in *. lia.
    + rewrite append_cons. f_equal. rewrite <- append_cons. apply IH. simpl in *. lia.
Qed.

(** C4, amended.  For a file the [Untitled] test lets through, the title of
    a [.ipynb] file that has a line at index 6 is that line, and the title of
    a [.md] file is its line at index 0, with every colon, hash, double quote,
    single quote and comma removed, then every backslash followed by [n]
    removed, then trimmed.  The line the title is taken from is ASCII text,
    on which trimming is the removal of the ASCII white space at both ends.
    A markdown file whose first line is [# Hello World] has the title
    [Hello World]. *)
Theorem findTitle_cleans_fixed_line file filePath w data :
  fs_readFile (w_fs w) filePath = Ok data →
  ¬ untitled (split_lines data) →
  (Path.extname file = ".ipynb" →
   ∀ line, split_lines data !! 6%nat = Some line →
           ascii_text line = true →
           findTitle file filePath w = (Ok (Some (clean_title line)), w)) ∧
  (Path.extname file = ".md" →
   ∃ line, split_lines data !! 0%nat = Some line ∧
           (ascii_text line = true →
            findTitle file filePath w = (Ok (Some (clean_title line)), w))) ∧
  (Path.extname file = ".md" →
   split_lines data !! 0%nat = Some "# Hello World" →
   findTitle file filePath w = (Ok (Some "Hello World"), w)).
Proof.
  intros Hr Hu. rewrite (findTitle_titled _ _ _ _ Hr Hu).
  split; [|split].
  - intros -> line -> _. done.
  - intros ->. destruct (split_lines_first data) as (l & ls & ->). by exists l.
  - intros -> ->. done.
Qed.

Lemma findTitle_cleans_fixed_line_witness :
  findTitle "hello.md" "hello.md" Sample.docs = (Ok (Some "Hello World"), Sample.docs) ∧
  findTitle "titled.ipynb" "/docs/titled.ipynb" Sample.docs =
    (Ok (Some "Getting Started"), Sample.docs).
Proof.
  split.
  - apply (findTitle_cleans_fixed_line "hello.md" "hello.md" Sample.docs
             ("# Hello World" +:+ chr CR +:+ chr LF +:+ "Text.")); [reflexivity| |reflexivity..].
    intros [H|(line & Hl & Hc)]; [discriminate H|discriminate Hl].
  - assert (Hu : ¬ untitled (split_lines Sample.titled_notebook)).
    { intros [H|(line & Hl & Hc)]; [discriminate H|].
      injection Hl as <-. discriminate Hc. }
    exact (proj1 (findTitle_cleans_fixed_line "titled.ipynb" "/docs/titled.ipynb"
                    Sample.docs Sample.titled_notebook eq_refl Hu) eq_refl _ eq_refl
             eq_refl).
Defined.

(** C4 as stated fails on a notebook of three lines with a non-empty first
    line: there is no line at index 6 and no title is returned. *)
Lemma findTitle_short_notebook_has_no_line :
  Path.extname "short.ipynb" = ".ipynb" ∧
  length (split_lines Sample.short_notebook) = 3%nat ∧
  findTitle "short.ipynb" "short.ipynb" Sample.docs =
    (Throw (TypeError_undefined "replace"), Sample.docs) ∧
  ¬ title_from_fixed_line "short.ipynb" "short.ipynb" Sample.docs.
Proof.
  split; [reflexivity|split; [reflexivity|split; [reflexivity|]]].
  intros H. destruct (H Sample.short_notebook) as [Hi _]; [reflexivity| |].
  - intros [Hu|(line & Hl & _)]; [discriminate Hu|discriminate Hl].
  - destruct (Hi eq_refl) as (line & Hl & _). discriminate Hl.
Qed.

(** C10. On a [.ipynb] file whose first line is not empty, title extraction
    reads the line at index 6 without a check.  With fewer than 7 lines the
    lookup gives no line and the call raises a [TypeError]; with 7 lines or
    more it returns a title.  So, on such files, a title is returned exactly
    when the file has at least 7 lines. *)
Theorem findTitle_notebook_needs_seven_lines file filePath w data :
  Path.extname file = ".ipynb" →
  fs_readFile (w_fs w) filePath = Ok data →
  split_lines data !! 0%nat ≠ Some EmptyString →
  ((length (split_lines data) < 7)%nat →
   split_lines data !! 6%nat = None ∧
   findTitle file filePath w = (Throw (TypeError_undefined "replace"), w)) ∧
  ((7 ≤ length (split_lines data))%nat →
   ∃ title, findTitle file filePath w = (Ok (Some title), w)) ∧
  ((∃ title, findTitle file filePath w = (Ok title, w)) ↔
   (7 ≤ length (split_lines data))%nat).
Proof.
  intros He Hr H0.
  assert (Hshort : (length (split_lines data) < 7)%nat →
            split_lines data !! 6%nat = None ∧
            findTitle file filePath w = (Throw (TypeError_undefined "replace"), w)).
  { intros Hl. assert (Hn : split_lines data !! 6%nat = None)
      by (apply lookup_ge_None; lia).
    split; [done|]. rewrite findTitle_titled with (data := data); [|done|].
    - by rewrite He, Hn.
    - intros [H|(line & Hl' & _)]; congruence. }
  assert (Hlong : (7 ≤ length (split_lines data))%nat →
            ∃ title, findTitle file filePath w = (Ok (Some title), w)).
  { intros Hl. destruct (lookup_lt_is_Some_2 (split_lines data) 6) as [line Hline]; [lia|].
    destruct (includes "collapsed" line) eqn:Hc.
    - exists "Untitled". rewrite (findTitle_read _ _ _ _ Hr). cbv zeta.
      assert (U : untitled (split_lines data)) by (right; by exists line).
      apply untitled_test in U. by rewrite U.
    - exists (clean_title line).
      assert (Hu : ¬ untitled (split_lines data))
        by (intros [Hu|(l & Hl6 & Hc')]; congruence).
      rewrite (findTitle_titled _ _ _ _ Hr Hu). by rewrite He, Hline. }
  split; [done|split; [done|split]].
  - intros [title Ht]. destruct (decide (7 ≤ length (split_lines data))%nat); [done|].
    destruct Hshort as [_ Hs]; [lia|]. congruence.
  - intros Hl. destruct (Hlong Hl) as [title Ht]. by exists (Some title).
Qed.

Lemma findTitle_notebook_needs_seven_lines_witness :
  split_lines Sample.short_notebook !! 6%nat = None ∧
  findTitle "short.ipynb" "short.ipynb" Sample.docs =
    (Throw (TypeError_undefined "replace"), Sample.docs).
Proof.
  apply (findTitle_notebook_needs_seven_lines "short.ipynb" "short.ipynb" Sample.docs
           Sample.short_notebook).
  - reflexivity.
  - reflexivity.
  - discriminate.
  - vm_compute. lia.
Defined.

(** ** Slices, [extname] and [basename] *)

Lemma substring_length_le s : ∀ n m, (String.length (String.substring n m s) ≤ String.length s)%nat.
Proof.
  induction s as [|c s IH]; intros [|n] [|m]; simpl; try lia.
  - specialize (IH 0%nat m). lia.
  - specialize (IH n 0%nat). lia.
  - specialize (IH n (S m)). lia.
Qed.

Lemma substring_split s : ∀ n, (n ≤ String.length s)%nat →
  s = String.substring 0 n s +:+ String.substring n (String.length s - n) s.
Proof.
  induction s as [|c s IH]; intros [|n] Hn; simpl in *; try lia.
  - done.
  - rewrite append_nil. f_equal. clear. induction s as [|d s IH]; simpl; [done|by f_equal].
  - rewrite append_cons. f_equal. apply IH. lia.
Qed.

Lemma substring_0_length s : ∀ n, (n ≤ String.length s)%nat →
  String.length (String.substring 0 n s) = n.
Proof.
  induction s as [|c s IH]; intros [|n] Hn; simpl in *; try lia.
  rewrite IH; lia.
Qed.

Lemma append_length (a b : string) :
  String.length (a +:+ b) = (String.length a + String.length b)%nat.
Proof. induction a as [|c a IH]; [done|]. rewrite append_cons. simpl. by rewrite IH. Qed.

(** Dropping [k] characters at the end of a name that has them. *)
Lemma slice_drop_end_split s (k : nat) :
  (k ≤ String.length s)%nat →
  ∃ suffix, s = slice_drop_end s (Z.of_nat k) +:+ suffix ∧ String.length suffix = k.
Proof.
  intros Hk. unfold slice_drop_end, slice, len.
  replace (Z.to_nat 0) with 0%nat by done.
  replace (Z.to_nat (Z.max (Z.of_nat (String.length s) - Z.of_nat k) 0 - 0))
    with (String.length s - k)%nat by lia.
  exists (String.substring (String.length s - k) (String.length s - (String.length s - k)) s).
  split; [apply substring_split; lia|].
  pose proof (substring_split s (String.length s - k) ltac:(lia)) as H.
  apply (f_equal String.length) in H. rewrite append_length, substring_0_length in H by lia.
  lia.
Qed.

Lemma extname_length p : (String.length (Path.extname p) ≤ String.length p)%nat.
Proof.
  unfold Path.extname, slice.
  match goal with |- context [if ?b then _ else _] => destruct b end;
    [simpl; lia|apply substring_length_le].
Qed.

Lemma append_inj_length (a b a' b' : string) :
  a +:+ b = a' +:+ b' → String.length b = String.length b' → a = a' ∧ b = b'.
Proof.
  revert a'. induction a as [|c a IH]; intros [|c' a'] H Hl.
  - done.
  - apply (f_equal String.length) in H. rewrite append_nil, append_cons in H.
    simpl in H. rewrite append_length in H. lia.
  - apply (f_equal String.length) in H. rewrite append_nil, append_cons in H.
    simpl in H. rewrite append_length in H. lia.
  - rewrite !append_cons in H. injection H as -> H.
    destruct (IH _ H Hl) as [-> ->]. done.
Qed.

Lemma has_slash_chars s :
  has_slash s = false → SLASH ∉ reverse (String.list_ascii_of_string s).
Proof.
  intros H Hin. rewrite elem_of_reverse in Hin. revert H Hin.
  induction s as [|c s IH]; simpl.
  - intros _ Hin. by apply elem_of_nil in Hin.
  - intros [Hc Hs]%orb_false_iff [Heq|Hin]%elem_of_cons; [|by apply IH].
    unfold ascii_eqb in Hc. by rewrite bool_decide_eq_true_2 in Hc.
Qed.

Lemma list_ascii_length s :
  length (String.list_ascii_of_string s) = String.length s.
Proof. induction s as [|c s IH]; simpl; [done|by rewrite IH]. Qed.

(** The scan of [extname] over characters without a slash: the end of the
    extension is the end of the name, and the dot is inside the name. *)
Lemma ext_loop_no_slash (L : Z) chars : ∀ i st,
  SLASH ∉ chars →
  i + 1 = Z.of_nat (length chars) →
  i + 1 ≤ L →
  (Path.ext_end st = -1 ∧ i + 1 = L) ∨ Path.ext_end st = L →
  Path.startDot st = -1 ∨ 0 ≤ Path.startDot st < L →
  (Path.ext_end (Path.ext_loop chars i st) = -1 ∨
   Path.ext_end (Path.ext_loop chars i st) = L) ∧
  (Path.startDot (Path.ext_loop chars i st) = -1 ∨
   0 ≤ Path.startDot (Path.ext_loop chars i st) < L).
Proof.
  induction chars as [|code before IH]; intros i st Hs Hi HL He Hd.
  - simpl. split; [|done]. destruct He as [[He _]|He]; [by left|by right].
  - apply not_elem_of_cons in Hs as [Hc Hs]. simpl Path.ext_loop.
    replace (ascii_eqb code SLASH) with false
      by (symmetry; unfold ascii_eqb; by apply bool_decide_eq_false_2).
    simpl in Hi. apply IH; [done|lia|lia| |].
    + right. destruct (Path.ext_end st =? -1) eqn:E.
      * destruct He as [[_ He]|He]; [|lia].
        destruct (ascii_eqb code DOT); simpl;
          repeat (match goal with |- context [if ?b then _ else _] => destruct b end;
                  simpl); lia.
      * destruct He as [[He _]|He]; [lia|].
        destruct (ascii_eqb code DOT); simpl;
          repeat (match goal with |- context [if ?b then _ else _] => destruct b end;
                  simpl); done.
    + destruct (Path.ext_end st =? -1); destruct (ascii_eqb code DOT); simpl;
        repeat (match goal with |- context [if ?b then _ else _] => destruct b end;
                simpl); try done; right; lia.
Qed.

(** For a name without a slash, a non-empty extension is the end of the
    name. *)
Lemma extname_suffix p :
  has_slash p = false → Path.extname p ≠ "" → ∃ stem, p = stem +:+ Path.extname p.
Proof.
  intros Hs He. unfold Path.extname in *.
  set (st0 := {| Path.startDot := -1; Path.startPart := 0; Path.ext_end := -1;
                 Path.ext_matchedSlash := true; Path.preDotState := 0 |}) in *.
  destruct (ext_loop_no_slash (len p) (reverse (String.list_ascii_of_string p)) (len p - 1) st0)
    as [Hend Hdot].
  - by apply has_slash_chars.
  - rewrite length_reverse, list_ascii_length. unfold len. lia.
  - lia.
  - left. split; [done|lia].
  - by left.
  - set (st := Path.ext_loop _ _ _) in *.
    destruct (Path.startDot st =? -1) eqn:E1; [done|].
    destruct (Path.ext_end st =? -1) eqn:E2; [done|].
    simpl in He |- *.
    match goal with |- context [if ?b then _ else _] => destruct b end; [done|].
    destruct Hend as [?|Hend]; [lia|]. destruct Hdot as [?|Hdot]; [lia|].
    unfold slice. rewrite Hend. unfold len in *.
    exists (String.substring 0 (Z.to_nat (Path.startDot st)) p).
    replace (Z.to_nat (Z.of_nat (String.length p) - Path.startDot st))
      with (String.length p - Z.to_nat (Path.startDot st))%nat by lia.
    apply substring_split. lia.
Qed.

Lemma substring_full s : String.substring 0 (String.length s) s = s.
Proof. induction s as [|c s IH]; simpl; [done|by f_equal]. Qed.

Lemma base_loop_no_slash (L : Z) chars : ∀ i start end_ matched,
  SLASH ∉ chars →
  i + 1 = Z.of_nat (length chars) →
  0 ≤ L →
  (end_ = -1 ∧ i + 1 = L) ∨ end_ = L →
  ∃ matched', Path.base_loop chars i (start, end_, matched) =
    (start, if bool_decide (chars = []) then end_ else L, matched').
Proof.
  induction chars as [|code before IH]; intros i start end_ matched Hs Hi HL He.
  - by exists matched.
  - apply not_elem_of_cons in Hs as [Hc Hs]. simpl Path.base_loop.
    replace (ascii_eqb code SLASH) with false
      by (symmetry; unfold ascii_eqb; by apply bool_decide_eq_false_2).
    simpl in Hi. rewrite bool_decide_eq_false_2 by done.
    destruct (end_ =? -1) eqn:E.
    + destruct He as [[_ He]|He]; [|lia].
      destruct (IH (i - 1) start (i + 1) false) as [m Hm]; [done|lia|done|right; lia|].
      exists m. rewrite Hm. rewrite He. by case_bool_decide.
    + destruct He as [[He _]|He]; [lia|].
      destruct (IH (i - 1) start end_ matched) as [m Hm]; [done|lia|done|by right|].
      exists m. rewrite Hm, He. by case_bool_decide.
Qed.

(** The base name of a name without a slash is the name. *)
Lemma basename_no_slash p : has_slash p = false → Path.basename p = p.
Proof.
  intros Hs. unfold Path.basename.
  destruct (base_loop_no_slash (len p) (reverse (String.list_ascii_of_string p)) (len p - 1)
              0 (-1) true) as [m Hm].
  - by apply has_slash_chars.
  - rewrite length_reverse, list_ascii_length. unfold len. lia.
  - unfold len. lia.
  - left. split; [done|lia].
  - rewrite Hm. destruct p as [|c p]; [done|].
    rewrite bool_decide_eq_false_2.
    + replace (len (String c p) =? -1) with false
        by (symmetry; apply Z.eqb_neq; unfold len; lia).
      unfold slice, len. replace (Z.to_nat 0) with 0%nat by done.
      rewrite Z.sub_0_r, Nat2Z.id. apply substring_full.
    + intros H. apply (f_equal length) in H.
      rewrite length_reverse in H. done.
Qed.

(** C6. The name that goes into a TOC url is cut by a fixed number of
    characters: [getSlicedFilename] drops the last 6 characters of a name
    whose extension is [.ipynb] and the last 3 characters of a name whose
    extension is [.md].  For a directory entry, which has no slash, the base
    name is the entry itself and what is dropped is the extension.  The cut
    is by length and not by extension: every name whose extension is not
    [.ipynb] loses 3 characters, as [notes.txt] and [A.IPYNB] show. *)
Theorem getSlicedFilename_fixed_length fileName :
  (Path.extname fileName = ".ipynb" →
   ∃ suffix, fileName = getSlicedFilename fileName +:+ suffix ∧
             String.length suffix = 6%nat) ∧
  (Path.extname fileName = ".md" →
   ∃ suffix, fileName = getSlicedFilename fileName +:+ suffix ∧
             String.length suffix = 3%nat) ∧
  (has_slash fileName = false →
   Path.basename fileName = fileName ∧
   (Path.extname fileName = ".ipynb" →
    fileName = getSlicedFilename fileName +:+ ".ipynb") ∧
   (Path.extname fileName = ".md" →
    fileName = getSlicedFilename fileName +:+ ".md")) ∧
  (Path.extname fileName ≠ ".ipynb" →
   getSlicedFilename fileName = slice_drop_end fileName 3) ∧
  getSlicedFilename "notes.txt" = "notes." ∧
  getSlicedFilename "A.IPYNB" = "A.IP".
Proof.
  pose proof (extname_length fileName) as Hlen.
  assert (H6 : Path.extname fileName = ".ipynb" →
            ∃ suffix, fileName = getSlicedFilename fileName +:+ suffix ∧
                      String.length suffix = 6%nat).
  { intros He. unfold getSlicedFilename. rewrite He in *. simpl in Hlen.
    apply (slice_drop_end_split fileName 6). lia. }
  assert (H3 : Path.extname fileName = ".md" →
            ∃ suffix, fileName = getSlicedFilename fileName +:+ suffix ∧
                      String.length suffix = 3%nat).
  { intros He. unfold getSlicedFilename. rewrite He in *. simpl in Hlen.
    apply (slice_drop_end_split fileName 3). lia. }
  split; [done|split; [done|split; [|split; [|done]]]].
  - intros Hs. split; [by apply basename_no_slash|].
    split; intros He.
    + destruct (H6 He) as (suffix & Hf & Hl).
      destruct (extname_suffix fileName Hs) as [stem Hstem]; [by rewrite He|].
      rewrite He in Hstem. rewrite Hf in Hstem at 1.
      apply append_inj_length in Hstem as [_ ->]; done.
    + destruct (H3 He) as (suffix & Hf & Hl).
      destruct (extname_suffix fileName Hs) as [stem Hstem]; [by rewrite He|].
      rewrite He in Hstem. rewrite Hf in Hstem at 1.
      apply append_inj_length in Hstem as [_ ->]; done.
  - intros He. unfold getSlicedFilename, string_eqb.
    by rewrite bool_decide_eq_false_2.
Qed.

Lemma getSlicedFilename_fixed_length_witness :
  "Intro.ipynb" = getSlicedFilename "Intro.ipynb" +:+ ".ipynb" ∧
  "intro.md" = getSlicedFilename "intro.md" +:+ ".md".
Proof.
  split.
  - apply (proj1 (proj2 (proj1 (proj2 (proj2
             (getSlicedFilename_fixed_length "Intro.ipynb"))) eq_refl)) eq_refl).
  - apply (proj2 (proj2 (proj1 (proj2 (proj2
             (getSlicedFilename_fixed_length "intro.md"))) eq_refl)) eq_refl).
Defined.

(** ** Paths made of plain names *)

Lemma append_empty_r (s : string) : s +:+ "" = s.
Proof. induction s as [|c s IH]; [done|]. by rewrite append_cons, IH. Qed.

Lemma plain_name_spec s :
  plain_name s = true ↔ s ≠ "" ∧ s ≠ "." ∧ s ≠ ".." ∧ has_slash s = false.
Proof.
  unfold plain_name, string_eqb.
  rewrite !andb_true_iff, !negb_true_iff, !bool_decide_eq_false. tauto.
Qed.

Lemma segments_nonempty s : ∃ h t, Path.segments s = h :: t.
Proof.
  induction s as [|c s (h & t & IH)]; [by eexists _, _|].
  simpl. destruct (ascii_eqb c SLASH); [by eexists _, _|]. rewrite IH. by eexists _, _.
Qed.

Lemma segments_no_slash s : has_slash s = false → Path.segments s = [s].
Proof.
  induction s as [|c s IH]; [done|]. simpl.
  intros [-> Hs]%orb_false_iff. by rewrite IH.
Qed.

Lemma segments_app a b :
  Path.segments (a +:+ "/" +:+ b) = Path.segments a ++ Path.segments b.
Proof.
  induction a as [|c a IH]; [done|].
  rewrite append_cons. simpl. rewrite IH.
  destruct (ascii_eqb c SLASH); [done|].
  by destruct (segments_nonempty a) as (h & t & ->).
Qed.

Lemma path_of_cons x y l : path_of (x :: y :: l) = x +:+ "/" +:+ path_of (y :: l).
Proof. done. Qed.

Lemma segments_path_of l :
  l ≠ [] → Forall (fun s => has_slash s = false) l → Path.segments (path_of l) = l.
Proof.
  induction l as [|x [|y l] IH]; intros Hne Hl; [done| |].
  - apply Forall_cons in Hl as [Hx _]. by apply segments_no_slash.
  - apply Forall_cons in Hl as [Hx Hl].
    rewrite path_of_cons, segments_app, IH, segments_no_slash by done. done.
Qed.

Lemma ends_with_slash_cons c s :
  Path.ends_with_slash (String c s) =
    if string_eqb s "" then ascii_eqb c SLASH else Path.ends_with_slash s.
Proof.
  unfold Path.ends_with_slash, charAt, len.
  replace (Z.of_nat (String.length (String c s)) - 1 <? 0) with false
    by (symmetry; apply Z.ltb_ge; simpl; lia).
  replace (Z.to_nat (Z.of_nat (String.length (String c s)) - 1))
    with (String.length s) by (simpl; lia).
  destruct s as [|d s]; [done|].
  replace (Z.of_nat (String.length (String d s)) - 1 <? 0) with false
    by (symmetry; apply Z.ltb_ge; simpl; lia).
  replace (Z.to_nat (Z.of_nat (String.length (String d s)) - 1))
    with (String.length s) by (simpl; lia).
  done.
Qed.

Lemma ends_with_slash_has_slash s : has_slash s = false → Path.ends_with_slash s = false.
Proof.
  induction s as [|c s IH]; [done|]. simpl has_slash.
  intros [Hc Hs]%orb_false_iff. rewrite ends_with_slash_cons.
  destruct (string_eqb s ""); [done|by apply IH].
Qed.

Lemma ends_with_slash_app a s :
  s ≠ "" → Path.ends_with_slash (a +:+ s) = Path.ends_with_slash s.
Proof.
  intros Hs. induction a as [|c a IH]; [done|].
  rewrite append_cons, ends_with_slash_cons, IH.
  unfold string_eqb. rewrite bool_decide_eq_false_2; [done|].
  destruct a, s; done.
Qed.

Lemma path_of_nonempty l : l ≠ [] → Forall (fun s => s ≠ "") l → path_of l ≠ "".
Proof.
  destruct l as [|x [|y l]]; intros Hne Hl; [done| |];
    apply Forall_cons in Hl as [Hx _]; [done|].
  rewrite path_of_cons. by destruct x.
Qed.

Lemma normalize_segments_plain allow l : ∀ stack,
  Forall (fun s => plain_name s = true) l →
  Path.normalize_segments allow stack l = reverse l ++ stack.
Proof.
  induction l as [|x l IH]; intros stack Hl; [done|].
  apply Forall_cons in Hl as [Hx Hl]. apply plain_name_spec in Hx as (H1 & H2 & H3 & _).
  simpl. unfold string_eqb. rewrite !bool_decide_eq_false_2 by done. simpl.
  rewrite IH by done. by rewrite reverse_cons, <- app_assoc.
Qed.

Lemma path_of_relative l :
  l ≠ [] → Forall (fun s => plain_name s = true) l → Path.isAbsolute (path_of l) = false.
Proof.
  intros Hne Hl. destruct l as [|x l]; [done|]. apply Forall_cons in Hl as [Hx _].
  apply plain_name_spec in Hx as (H1 & _ & _ & H4).
  destruct x as [|c x]; [done|]. simpl in H4. apply orb_false_iff in H4 as [Hc _].
  unfold Path.isAbsolute, SLASH in *.
  destruct l; [|rewrite path_of_cons, append_cons]; simpl;
    rewrite (ascii_eqb_sym "/" c); by rewrite Hc.
Qed.

Lemma plain_no_slash l :
  Forall (fun s => plain_name s = true) l → Forall (fun s => has_slash s = false) l.
Proof.
  intros Hl. eapply Forall_impl; [exact Hl|]. intros s Hs.
  by apply plain_name_spec in Hs as (_ & _ & _ & Hs).
Qed.

(** A name is entered. *)
Lemma step_plain cur x : plain_name x = true → step cur x = cur ++ [x].
Proof.
  intros (H1 & H2 & H3 & _)%plain_name_spec. unfold step, string_eqb.
  by rewrite !bool_decide_eq_false_2.
Qed.

Lemma foldl_step_plain l : ∀ cur,
  Forall (fun s => plain_name s = true) l → foldl step cur l = cur ++ l.
Proof.
  induction l as [|x l IH]; intros cur Hl; [by rewrite app_nil_r|].
  apply Forall_cons in Hl as [Hx Hl]. simpl.
  by rewrite step_plain, IH, <- app_assoc.
Qed.

(** A path written from plain names leads to the working directory
    followed by those names. *)
Lemma resolve_path_of fs l :
  l ≠ [] → Forall (fun s => plain_name s = true) l → resolve fs (path_of l) = cwd fs ++ l.
Proof.
  intros Hne Hl. unfold resolve, start.
  rewrite segments_path_of, path_of_relative by (done || by apply plain_no_slash).
  by apply foldl_step_plain.
Qed.

(** The walk ends where the path leads. *)
Lemma walk_resolve m segs : ∀ cur key, walk m cur segs = Ok key → key = foldl step cur segs.
Proof.
  induction segs as [|seg rest IH]; intros cur key; simpl; [by intros [= <-]|].
  destruct (m !! cur) as [[d|l]|]; simpl; [done|apply IH|done].
Qed.

Lemma locate_resolve fs p key : locate fs p = Ok key → key = resolve fs p.
Proof.
  unfold locate, resolve. destruct (string_eqb p ""); [done|].
  destruct (Path.segments p) as [|first rest]; [done|]. simpl foldl. apply walk_resolve.
Qed.

(** The walk of a path written from plain names: the names before the last
    one have to be directories. *)
Lemma locate_path_of fs x l :
  Forall (fun s => plain_name s = true) (x :: l) →
  locate fs (path_of (x :: l)) = walk (nodes fs) (cwd fs ++ [x]) l.
Proof.
  intros Hl. unfold locate, start.
  rewrite segments_path_of, path_of_relative by (done || by apply plain_no_slash).
  unfold string_eqb. rewrite bool_decide_eq_false_2.
  - apply Forall_cons in Hl as [Hx _]. by rewrite step_plain.
  - apply path_of_nonempty; [done|].
    eapply Forall_impl; [exact Hl|]. intros s Hs.
    by apply plain_name_spec in Hs as (Hs & _).
Qed.

Lemma walk_plain m cur x rest :
  plain_name x = true →
  walk m cur (x :: rest) = through (m !! cur) (walk m (cur ++ [x]) rest).
Proof. intros Hx. simpl. by rewrite step_plain. Qed.

(** A walk that arrives still arrives when the directories stay. *)
Lemma walk_ext m m' segs : ∀ cur key,
  (∀ k l, m !! k = Some (Dir l) → is_dir (m' !! k) = true) →
  walk m cur segs = Ok key → walk m' cur segs = Ok key.
Proof.
  induction segs as [|seg rest IH]; intros cur key Hm; simpl; [done|].
  destruct (m !! cur) as [[d|l]|] eqn:Hc; simpl; [done| |done].
  pose proof (Hm _ _ Hc) as Hd. destruct (m' !! cur) as [[d'|l']|]; [done| |done].
  simpl. by apply IH.
Qed.

Lemma locate_ext fs fs' p key :
  cwd fs' = cwd fs →
  (∀ k l, nodes fs !! k = Some (Dir l) → is_dir (nodes fs' !! k) = true) →
  locate fs p = Ok key → locate fs' p = Ok key.
Proof.
  intros Hc Hm. unfold locate, start. rewrite Hc. destruct (string_eqb p ""); [done|].
  destruct (Path.segments p) as [|first rest]; [done|]. by apply walk_ext.
Qed.

Lemma normalize_relative p l :
  Path.isAbsolute p = false →
  Path.ends_with_slash p = false →
  Path.normalize_segments true [] (Path.segments p) = reverse l →
  l ≠ [] → Forall (fun s => s ≠ "") l →
  Path.normalize p = path_of l.
Proof.
  intros Ha He Hn Hl Hne. unfold Path.normalize. cbv zeta.
  rewrite Ha, He. cbn [negb]. rewrite Hn, reverse_involutive. fold (path_of l).
  unfold string_eqb at 2. rewrite bool_decide_eq_false_2 by by apply path_of_nonempty.
  rewrite append_empty_r, append_nil.
  destruct p; [|done]. simpl in Hn. apply (f_equal length) in Hn.
  rewrite length_reverse in Hn. by destruct l.
Qed.

Lemma plain_name_nonempty s : plain_name s = true → s ≠ "".
Proof. by intros (H & _)%plain_name_spec. Qed.

Lemma plain_name_no_slash s : plain_name s = true → has_slash s = false.
Proof. by intros (_ & _ & _ & H)%plain_name_spec. Qed.

Lemma filter_nonempty_args (args : list string) :
  Forall (fun s => s ≠ "") args → filter (fun a => a ≠ EmptyString) args = args.
Proof.
  induction 1 as [|x l Hx Hl IH]; [done|].
  by rewrite filter_cons, decide_True, IH.
Qed.

(** [path.join('content', f)] *)
Lemma join_content_entry f :
  plain_name f = true → Path.join ["content"; f] = path_of ["content"; f].
Proof.
  intros Hf. pose proof (plain_name_nonempty f Hf) as Hne.
  pose proof (plain_name_no_slash f Hf) as Hs.
  unfold Path.join. rewrite filter_nonempty_args by (repeat constructor; done).
  change (Js.join "/" ["content"; f]) with ("content" +:+ "/" +:+ f).
  apply normalize_relative; [done| | |done|repeat constructor; done].
  - rewrite <- string_app_assoc, ends_with_slash_app by done.
    by apply ends_with_slash_has_slash.
  - rewrite segments_app, (segments_no_slash f) by done.
    change (Path.segments "content" ++ [f]) with (["content"] ++ [f]).
    apply (normalize_segments_plain true ["content"; f] []). repeat constructor; done.
Qed.

(** [path.join('.', 'content', f)] *)
Lemma join_dot_content_entry f :
  plain_name f = true → Path.join ["."; "content"; f] = path_of ["content"; f].
Proof.
  intros Hf. pose proof (plain_name_nonempty f Hf) as Hne.
  pose proof (plain_name_no_slash f Hf) as Hs.
  unfold Path.join. rewrite filter_nonempty_args by (repeat constructor; done).
  change (Js.join "/" ["."; "content"; f]) with ("." +:+ "/" +:+ "content" +:+ "/" +:+ f).
  apply normalize_relative; [done| | |done|repeat constructor; done].
  - change ("." +:+ "/" +:+ "content" +:+ "/" +:+ f) with ("./content/" +:+ f).
    rewrite ends_with_slash_app by done. by apply ends_with_slash_has_slash.
  - rewrite !segments_app, (segments_no_slash f) by done.
    change (Path.normalize_segments true [] ("." :: "content" :: [f]))
      with (Path.normalize_segments true [] ["content"; f]).
    apply (normalize_segments_plain true ["content"; f] []). repeat constructor; done.
Qed.

(** [path.join(chapterFilePath, g)] *)
Lemma join_chapter_entry f g :
  plain_name f = true → plain_name g = true →
  Path.join [path_of ["content"; f]; g] = path_of ["content"; f; g].
Proof.
  intros Hf Hg. pose proof (plain_name_nonempty f Hf) as Hnf.
  pose proof (plain_name_no_slash f Hf) as Hsf.
  pose proof (plain_name_nonempty g Hg) as Hng.
  pose proof (plain_name_no_slash g Hg) as Hsg.
  unfold Path.join. rewrite filter_nonempty_args.
  2:{ repeat constructor; [|done]. apply path_of_nonempty; [done|repeat constructor; done]. }
  change (Js.join "/" [path_of ["content"; f]; g])
    with (("content" +:+ "/" +:+ f) +:+ "/" +:+ g).
  apply normalize_relative; [done| | |done|repeat constructor; done].
  - rewrite <- string_app_assoc, ends_with_slash_app by done.
    by apply ends_with_slash_has_slash.
  - rewrite !segments_app, (segments_no_slash f), (segments_no_slash g) by done.
    change ((Path.segments "content" ++ [f]) ++ [g]) with (["content"; f; g]).
    apply (normalize_segments_plain true ["content"; f; g] []). repeat constructor; done.
Qed.

(** [path.join('.', 'content', f, 'readme.md')] *)
Lemma join_readme f :
  plain_name f = true →
  Path.join ["."; "content"; f; "readme.md"] = path_of ["content"; f; "readme.md"].
Proof.
  intros Hf. pose proof (plain_name_nonempty f Hf) as Hne.
  pose proof (plain_name_no_slash f Hf) as Hs.
  unfold Path.join. rewrite filter_nonempty_args by (repeat constructor; done).
  change (Js.join "/" ["."; "content"; f; "readme.md"])
    with ("." +:+ "/" +:+ "content" +:+ "/" +:+ f +:+ "/" +:+ "readme.md").
  apply normalize_relative; [done| | |done|repeat constructor; done].
  - rewrite <- !string_app_assoc, ends_with_slash_app by done. done.
  - rewrite !segments_app, (segments_no_slash f) by done.
    change (Path.normalize_segments true [] ("." :: "content" :: [f] ++ ["readme.md"]))
      with (Path.normalize_segments true [] ["content"; f; "readme.md"]).
    apply (normalize_segments_plain true ["content"; f; "readme.md"] []).
    repeat constructor; done.
Qed.

(** ** The TOC functions and their functional forms *)

Lemma findTitle_title_of file filePath w :
  findTitle file filePath w = (title_of file (fs_readFile (w_fs w) filePath), w).
Proof.
  unfold title_of. destruct (fs_readFile (w_fs w) filePath) as [data|e] eqn:Hr.
  - rewrite (findTitle_read _ _ _ _ Hr). cbv zeta.
    repeat (match goal with |- context [if ?b then _ else _] => destruct b end; try done);
      by destruct (split_lines data !! _).
  - unfold findTitle, bind, readFileSync. by rewrite Hr.
Qed.

Lemma writeForEachNotebook_each_run chapter notebookDir file w content :
  writeForEachNotebook_each chapter notebookDir file (w, content) =
    if no_readme file then
      match title_of file (fs_readFile (w_fs w) (Path.join [notebookDir; file])) with
      | Ok title => (Ok tt, (w, content +:+ nested_stanza chapter file title))
      | Throw e => (Throw e, (w, content))
      end
    else (Ok tt, (w, content)).
Proof.
  unfold writeForEachNotebook_each. fold (no_readme file).
  destruct (no_readme file); [|done].
  unfold bind, lift, locals, assign. rewrite findTitle_title_of.
  by destruct (title_of file _).
Qed.

Lemma forEach_nested chapter notebookDir files : ∀ w content,
  match listed (w_fs w) (nested_stanza chapter) notebookDir files content with
  | Ok content' =>
      forEach files (writeForEachNotebook_each chapter notebookDir) (w, content) =
        (Ok tt, (w, content'))
  | Throw e =>
      ∃ content', forEach files (writeForEachNotebook_each chapter notebookDir) (w, content) =
        (Throw e, (w, content'))
  end.
Proof.
  induction files as [|file rest IH]; intros w content; [by simpl|].
  rewrite forEach_cons. simpl listed. unfold bind.
  rewrite writeForEachNotebook_each_run.
  destruct (no_readme file); [|apply IH].
  destruct (title_of file _) as [title|e]; [apply IH|by eexists].
Qed.

Lemma writeForEachNotebook_section chapter notebookDir w :
  writeForEachNotebook chapter notebookDir w =
    (chapter_section (w_fs w) chapter notebookDir, w).
Proof.
  unfold writeForEachNotebook, chapter_section, bind at 1, readdirSync.
  destruct (fs_readdir (w_fs w) notebookDir) as [notebooks|e]; [|done].
  pose proof (forEach_nested chapter notebookDir notebooks w "") as H.
  unfold bind, with_locals.
  destruct (listed _ _ _ _ _) as [c|e]; [by rewrite H|].
  destruct H as [c' ->]. done.
Qed.

Lemma writeToReadme_each_run contentFilePath file w content :
  writeToReadme_each contentFilePath file (w, content) =
    if no_readme file then
      match title_of file (fs_readFile (w_fs w) (Path.join [contentFilePath; file])) with
      | Ok title => (Ok tt, (w, content +:+ readme_line file title))
      | Throw e => (Throw e, (w, content))
      end
    else (Ok tt, (w, content)).
Proof.
  unfold writeToReadme_each. fold (no_readme file).
  destruct (no_readme file); [|done].
  unfold bind, lift, locals, assign. rewrite findTitle_title_of.
  by destruct (title_of file _).
Qed.

Lemma forEach_readme contentFilePath files : ∀ w content,
  match listed (w_fs w) readme_line contentFilePath files content with
  | Ok content' =>
      forEach files (writeToReadme_each contentFilePath) (w, content) =
        (Ok tt, (w, content'))
  | Throw e =>
      ∃ content', forEach files (writeToReadme_each contentFilePath) (w, content) =
        (Throw e, (w, content'))
  end.
Proof.
  induction files as [|file rest IH]; intros w content; [by simpl|].
  rewrite forEach_cons. simpl listed. unfold bind.
  rewrite writeToReadme_each_run.
  destruct (no_readme file); [|apply IH].
  destruct (title_of file _) as [title|e]; [apply IH|by eexists].
Qed.

Lemma writeToReadme_text contentFilePath file w :
  writeToReadme contentFilePath file w =
    match readme_text (w_fs w) contentFilePath with
    | Ok text => writeFileSync (Path.join ["."; "content"; file; "readme.md"]) text w
    | Throw e => (Throw e, w)
    end.
Proof.
  unfold writeToReadme, readme_text, bind at 1, readdirSync.
  destruct (fs_readdir (w_fs w) contentFilePath) as [files|e]; [|done].
  pose proof (forEach_readme contentFilePath files w
                ("## Notebooks in this Chapter" +:+ chr LF)) as H.
  unfold bind, with_locals.
  destruct (listed _ _ _ _ _) as [c|e]; [by rewrite H|].
  destruct H as [c' ->]. done.
Qed.

Lemma writeSingleNotebook_entry notebookDir file w :
  writeSingleNotebook notebookDir file w = (single_entry (w_fs w) notebookDir file, w).
Proof.
  unfold writeSingleNotebook, single_entry, bind. rewrite findTitle_title_of.
  by destruct (title_of file _).
Qed.

Lemma customizeJupyterBook_each_step context file w s :
  customizeJupyterBook_each context "content" file (world_at w s, (b_toc s, b_idx s)) =
    (Ok tt, (world_at w (book_step context s file),
             (b_toc (book_step context s file), b_idx (book_step context s file)))).
Proof.
  unfold customizeJupyterBook_each, book_step, try_catch.
  unfold bind at 1. unfold lift at 1, statSync. simpl w_fs.
  destruct (fs_stat (b_fs s) (Path.join ["content"; file])) as [stats|e]; [|done].
  destruct (isDirectory stats).
  - destruct (chapterNames context) as [names|]; [|by destruct s].
    unfold bind at 1, locals at 1. unfold bind at 1, assign at 1.
    unfold bind at 1, locals at 1. unfold bind at 1, lift at 1.
    rewrite writeForEachNotebook_section. simpl w_fs.
    destruct (chapter_section _ _ _) as [section|e]; [|done].
    unfold bind at 1, assign at 1. unfold bind at 1, lift at 1.
    rewrite writeToReadme_text. simpl w_fs.
    destruct (readme_text _ _) as [text|e]; [|done].
    unfold writeFileSync. simpl w_fs.
    destruct (fs_writeFile _ _ _) as [[[]|e] fs']; [|done].
    unfold bind, locals, assign. simpl. do 4 f_equal. lia.
  - unfold bind at 1, locals at 1. unfold bind at 1, lift at 1.
    rewrite writeSingleNotebook_entry. simpl w_fs.
    by destruct (single_entry _ _ _).
Qed.

Lemma forEach_book_steps context files : ∀ w s,
  forEach files (customizeJupyterBook_each context "content")
    (world_at w s, (b_toc s, b_idx s)) =
    (Ok tt, (world_at w (foldl (book_step context) s files),
             (b_toc (foldl (book_step context) s files),
              b_idx (foldl (book_step context) s files)))).
Proof.
  induction files as [|file rest IH]; intros w s; [done|].
  rewrite forEach_cons. erewrite bind_ok by apply customizeJupyterBook_each_step.
  apply IH.
Qed.

(** The TOC build is [book_run]. *)
Lemma customizeJupyterBook_run context w : customizeJupyterBook context w = book_run context w.
Proof.
  unfold customizeJupyterBook, book_run.
  change (Path.join ["."; "content"]) with "content".
  change (Path.join ["."; "_data"; "toc.yml"]) with "_data/toc.yml".
  unfold bind at 1, readdirSync.
  destruct (fs_readdir (w_fs w) "content") as [bookContents|e]; [|done].
  unfold bind, with_locals.
  replace w with (world_at w (book_start w)) at 1 by (by destruct w).
  change "" with (b_toc (book_start w)) at 1.
  change 0%nat with (b_idx (book_start w)) at 1.
  rewrite forEach_book_steps. simpl. unfold writeFileSync. simpl.
  by destruct (fs_writeFile _ _ _).
Qed.

(** ** Writes *)

Lemma set_nodes_same fs : set_nodes fs (nodes fs) = fs.
Proof. by destruct fs. Qed.

(** The three ways a write can go. *)
Lemma fs_writeFile_cases fs p data :
  let key := resolve fs p in
  (∃ e, fs_writeFile fs p data = (Throw e, fs) ∧
        ((∃ code, locate fs p = Throw code) ∨
         is_dir (nodes fs !! key) = true ∨
         (nodes fs !! key = None ∧ is_dir (nodes fs !! removelast key) = false) ∨
         (nodes fs !! key = None ∧ last key = None))) ∨
  (∃ old, nodes fs !! key = Some (File old) ∧
          fs_writeFile fs p data = (Ok tt, set_nodes fs (<[key := File data]> (nodes fs)))) ∨
  (∃ name entries,
     nodes fs !! key = None ∧ last key = Some name ∧
     nodes fs !! removelast key = Some (Dir entries) ∧
     fs_writeFile fs p data =
       (Ok tt, set_nodes fs (<[key := File data]>
                 (<[removelast key := Dir (add_entry fs entries name)]> (nodes fs))))).
Proof.
  intros key. unfold fs_writeFile.
  destruct (locate fs p) as [k|code] eqn:Hloc.
  - apply locate_resolve in Hloc. subst k. fold key.
    destruct (nodes fs !! key) as [[old|entries]|] eqn:Hk.
    + right. left. by exists old.
    + left. eexists. split; [done|]. right. by left.
    + destruct (last key) as [name|] eqn:Hl.
      * destruct (nodes fs !! removelast key) as [[old|entries]|] eqn:Hp.
        -- left. eexists. split; [done|]. right. right. left. split; done.
        -- right. right. by exists name, entries.
        -- left. eexists. split; [done|]. right. right. left. split; done.
      * left. eexists. split; [done|]. by right; right; right.
  - left. eexists. split; [done|]. left. by exists code.
Qed.

(** A write that goes through has walked the path. *)
Lemma fs_writeFile_ok_locate fs p data fs' :
  fs_writeFile fs p data = (Ok tt, fs') → locate fs p = Ok (resolve fs p).
Proof.
  unfold fs_writeFile. destruct (locate fs p) as [k|code] eqn:Hloc; [|done].
  intros _. f_equal. by apply locate_resolve.
Qed.

Lemma fs_writeFile_cwd fs p data : cwd (snd (fs_writeFile fs p data)) = cwd fs.
Proof.
  destruct (fs_writeFile_cases fs p data) as [(e & -> & _)|[(old & _ & ->)|(n & l & _ & _ & _ & ->)]];
    done.
Qed.

Lemma fs_writeFile_slot fs p data : slot (snd (fs_writeFile fs p data)) = slot fs.
Proof.
  destruct (fs_writeFile_cases fs p data) as [(e & -> & _)|[(old & _ & ->)|(n & l & _ & _ & _ & ->)]];
    done.
Qed.

(** A write leaves every path alone but the one written and its parent. *)
Lemma fs_writeFile_frame fs p data k :
  k ≠ resolve fs p → k ≠ removelast (resolve fs p) →
  nodes (snd (fs_writeFile fs p data)) !! k = nodes fs !! k.
Proof.
  intros Hk Hp.
  destruct (fs_writeFile_cases fs p data) as [(e & -> & _)|[(old & _ & ->)|(n & l & _ & _ & _ & ->)]];
    simpl; [done| |].
  - by rewrite lookup_insert_ne.
  - by rewrite !lookup_insert_ne.
Qed.

Lemma filter_add_entry (P : string → Prop) `{!∀ x, Decision (P x)} fs entries name :
  ¬ P name → filter P (add_entry fs entries name) = filter P entries.
Proof.
  intros Hn. unfold add_entry. rewrite filter_app, filter_cons, decide_False by done.
  by rewrite <- filter_app, take_drop.
Qed.

(** The parent of the path written keeps its entries, but for the name
    written. *)
Lemma fs_writeFile_parent (P : string → Prop) `{!∀ x, Decision (P x)} fs p data name :
  last (resolve fs p) = Some name → ¬ P name →
  match nodes fs !! removelast (resolve fs p) with
  | Some (Dir entries) =>
      ∃ entries', nodes (snd (fs_writeFile fs p data)) !! removelast (resolve fs p) =
                    Some (Dir entries') ∧
                  filter P entries' = filter P entries
  | other => nodes (snd (fs_writeFile fs p data)) !! removelast (resolve fs p) = other
  end.
Proof.
  intros Hl Hn.
  assert (Hne : resolve fs p ≠ removelast (resolve fs p)).
  { intros Heq. apply (f_equal length) in Heq.
    rewrite removelast_firstn_len, length_take in Heq.
    destruct (resolve fs p); [done|simpl in Heq; lia]. }
  destruct (fs_writeFile_cases fs p data)
    as [(e & -> & _)|[(old & _ & ->)|(n & l & _ & Hl' & Hp & ->)]]; simpl.
  - destruct (nodes fs !! removelast (resolve fs p)) as [[?|entries]|]; [done| |done].
    by exists entries.
  - rewrite lookup_insert_ne by done.
    destruct (nodes fs !! removelast (resolve fs p)) as [[?|entries]|]; [done| |done].
    by exists entries.
  - rewrite Hp, lookup_insert_ne, lookup_insert_eq by done.
    eexists. split; [done|]. apply filter_add_entry. congruence.
Qed.

(** After a write that went through, the file is there with the data. *)
Lemma fs_writeFile_written fs p data fs' :
  fs_writeFile fs p data = (Ok tt, fs') →
  nodes fs' !! resolve fs p = Some (File data).
Proof.
  intros H.
  destruct (fs_writeFile_cases fs p data)
    as [(e & He & _)|[(old & _ & He)|(n & l & _ & _ & _ & He)]];
    rewrite He in H; [done| |]; injection H as <-; simpl; by rewrite lookup_insert_eq.
Qed.

(** A write keeps the directories, so a walk that arrived still arrives. *)
Lemma fs_writeFile_dirs fs p data k l :
  nodes fs !! k = Some (Dir l) → is_dir (nodes (snd (fs_writeFile fs p data)) !! k) = true.
Proof.
  intros Hkl.
  destruct (fs_writeFile_cases fs p data)
    as [(e & -> & _)|[(old & Ho & ->)|(n & l0 & Hn & _ & Hp & ->)]]; simpl.
  - by rewrite Hkl.
  - rewrite lookup_insert_ne by congruence. by rewrite Hkl.
  - rewrite lookup_insert_ne by congruence.
    destruct (decide (k = removelast (resolve fs p))) as [->|Hne].
    + by rewrite lookup_insert_eq.
    + rewrite lookup_insert_ne by done. by rewrite Hkl.
Qed.

Lemma fs_writeFile_locate fs p data q key :
  locate fs q = Ok key → locate (snd (fs_writeFile fs p data)) q = Ok key.
Proof.
  apply locate_ext; [apply fs_writeFile_cwd|]. intros k l. apply fs_writeFile_dirs.
Qed.

(** Writing the same data again changes nothing. *)
Lemma fs_writeFile_again fs p data :
  fs_writeFile (snd (fs_writeFile fs p data)) p data =
    (fst (fs_writeFile fs p data), snd (fs_writeFile fs p data)).
Proof.
  destruct (fs_writeFile_cases fs p data)
    as [(e & He & _)|[(old & Hk & He)|(n & l & Hk & Hl & Hp & He)]].
  - rewrite He. simpl. by rewrite He.
  - pose proof (fs_writeFile_locate fs p data p _ (fs_writeFile_ok_locate _ _ _ _ He)) as Hloc.
    rewrite He in *. simpl in *. unfold fs_writeFile. rewrite Hloc. simpl.
    rewrite lookup_insert_eq, insert_insert_eq. done.
  - pose proof (fs_writeFile_locate fs p data p _ (fs_writeFile_ok_locate _ _ _ _ He)) as Hloc.
    rewrite He in *. simpl in *. unfold fs_writeFile. rewrite Hloc. simpl.
    rewrite lookup_insert_eq, insert_insert_eq. done.
Qed.

(** ** Where the build looks *)

Lemma through_dir {A} n (x : outcome A) : is_dir n = true → through n x = x.
Proof. by destruct n as [[]|]. Qed.

Lemma through_similar {A} a b (x : outcome A) : similar_node a b → through b x = through a x.
Proof. by destruct a as [[]|], b as [[]|]. Qed.

Lemma locate_content fs : locate fs "content" = Ok (content_key fs).
Proof.
  change "content" with (path_of ["content"]).
  by rewrite locate_path_of by repeat constructor.
Qed.

Lemma locate_toc fs :
  locate fs "_data/toc.yml" = through (nodes fs !! data_key fs) (Ok (toc_key fs)).
Proof.
  change "_data/toc.yml" with (path_of ["_data"; "toc.yml"]).
  rewrite locate_path_of by repeat constructor. rewrite walk_plain by done.
  simpl walk. unfold data_key, toc_key. by rewrite <- app_assoc.
Qed.

Lemma locate_entry_path fs f :
  plain_name f = true →
  locate fs (path_of ["content"; f]) =
    through (nodes fs !! content_key fs) (Ok (entry_key fs f)).
Proof.
  intros Hf. rewrite locate_path_of by (by repeat constructor).
  rewrite walk_plain by done.
  simpl walk. unfold content_key, entry_key. by rewrite <- app_assoc.
Qed.

Lemma locate_nested_path fs f g :
  plain_name f = true → plain_name g = true →
  locate fs (path_of ["content"; f; g]) =
    through (nodes fs !! content_key fs)
      (through (nodes fs !! entry_key fs f) (Ok (nested_key fs f g))).
Proof.
  intros Hf Hg. rewrite locate_path_of by (by repeat constructor).
  rewrite !walk_plain by done.
  simpl walk. unfold content_key, entry_key, nested_key. by rewrite <- !app_assoc.
Qed.

Lemma locate_entry fs f :
  plain_name f = true →
  locate fs (Path.join ["content"; f]) =
    through (nodes fs !! content_key fs) (Ok (entry_key fs f)).
Proof. intros Hf. rewrite join_content_entry by done. by apply locate_entry_path. Qed.

Lemma locate_chapter fs f :
  plain_name f = true →
  locate fs (Path.join ["."; "content"; f]) =
    through (nodes fs !! content_key fs) (Ok (entry_key fs f)).
Proof. intros Hf. rewrite join_dot_content_entry by done. by apply locate_entry_path. Qed.

Lemma locate_nested fs f g :
  plain_name f = true → plain_name g = true →
  locate fs (Path.join [Path.join ["."; "content"; f]; g]) =
    through (nodes fs !! content_key fs)
      (through (nodes fs !! entry_key fs f) (Ok (nested_key fs f g))).
Proof.
  intros Hf Hg. rewrite join_dot_content_entry, join_chapter_entry by done.
  by apply locate_nested_path.
Qed.

Lemma locate_readme fs f :
  plain_name f = true →
  locate fs (Path.join ["."; "content"; f; "readme.md"]) =
    through (nodes fs !! content_key fs)
      (through (nodes fs !! entry_key fs f) (Ok (nested_key fs f "readme.md"))).
Proof. intros Hf. rewrite join_readme by done. by apply locate_nested_path. Qed.

Lemma resolve_toc fs : resolve fs "_data/toc.yml" = toc_key fs.
Proof. by apply (resolve_path_of fs ["_data"; "toc.yml"]); [|repeat constructor]. Qed.

Lemma resolve_entry fs f :
  plain_name f = true → resolve fs (Path.join ["content"; f]) = entry_key fs f.
Proof.
  intros Hf. rewrite join_content_entry by done.
  by apply resolve_path_of; [|repeat constructor].
Qed.

Lemma resolve_chapter fs f :
  plain_name f = true → resolve fs (Path.join ["."; "content"; f]) = entry_key fs f.
Proof.
  intros Hf. rewrite join_dot_content_entry by done.
  by apply resolve_path_of; [|repeat constructor].
Qed.

Lemma resolve_nested fs f g :
  plain_name f = true → plain_name g = true →
  resolve fs (Path.join [Path.join ["."; "content"; f]; g]) = nested_key fs f g.
Proof.
  intros Hf Hg. rewrite join_dot_content_entry, join_chapter_entry by done.
  by apply resolve_path_of; [|repeat constructor].
Qed.

Lemma resolve_readme fs f :
  plain_name f = true →
  resolve fs (Path.join ["."; "content"; f; "readme.md"]) = nested_key fs f "readme.md".
Proof.
  intros Hf. rewrite join_readme by done.
  by apply resolve_path_of; [|repeat constructor].
Qed.

Lemma resolve_same_cwd fs fs' p : cwd fs' = cwd fs → resolve fs' p = resolve fs p.
Proof. intros H. unfold resolve, start. by rewrite H. Qed.

Lemma nested_key_parent fs f g : removelast (nested_key fs f g) = entry_key fs f.
Proof.
  unfold nested_key, entry_key. rewrite removelast_app by done. done.
Qed.

Lemma nested_key_last fs f g : last (nested_key fs f g) = Some g.
Proof.
  unfold nested_key. change ["content"; f; g] with (["content"; f] ++ [g]).
  by rewrite app_assoc, last_snoc.
Qed.

Lemma toc_key_parent fs : removelast (toc_key fs) = data_key fs.
Proof. unfold toc_key, data_key. by rewrite removelast_app. Qed.

Lemma toc_key_last fs : last (toc_key fs) = Some "toc.yml".
Proof.
  unfold toc_key. change ["_data"; "toc.yml"] with (["_data"] ++ ["toc.yml"]).
  by rewrite app_assoc, last_snoc.
Qed.

(** Reads see the walk and the node at its end. *)

Lemma fs_readFile_node fs fs' p :
  locate fs' p = locate fs p →
  nodes fs' !! resolve fs p = nodes fs !! resolve fs p → fs_readFile fs' p = fs_readFile fs p.
Proof.
  intros Hl H. unfold fs_readFile. rewrite Hl.
  destruct (locate fs p) as [key|code] eqn:E; [|done].
  apply locate_resolve in E as ->. by rewrite H.
Qed.

Lemma listed_kept fs line dir files : ∀ content,
  listed fs line dir files content = listed fs line dir (kept files) content.
Proof.
  induction files as [|g files IH]; intros content; [done|].
  unfold kept. rewrite filter_cons. fold (kept files). simpl.
  destruct (no_readme g) eqn:Hg.
  - rewrite decide_True by done. simpl. rewrite Hg.
    destruct (title_of g _); [apply IH|done].
  - rewrite decide_False by congruence. apply IH.
Qed.

Lemma listed_ext fs fs' line dir files : ∀ content,
  (∀ g, g ∈ files → no_readme g = true →
        fs_readFile fs' (Path.join [dir; g]) = fs_readFile fs (Path.join [dir; g])) →
  listed fs' line dir files content = listed fs line dir files content.
Proof.
  induction files as [|g files IH]; intros content H; [done|].
  simpl. destruct (no_readme g) eqn:Hg.
  - rewrite H by (done || apply elem_of_cons; by left).
    destruct (title_of g _); [|done]. apply IH.
    intros g' Hin. apply H. apply elem_of_cons. by right.
  - apply IH. intros g' Hin. apply H. apply elem_of_cons. by right.
Qed.

(** ** File systems the build cannot tell apart *)

Lemma similar_node_refl n : similar_node n n.
Proof. by destruct n as [[]|]. Qed.

Lemma similar_node_sym a b : similar_node a b → similar_node b a.
Proof. by destruct a as [[]|], b as [[]|]. Qed.

Lemma similar_node_trans a b c : similar_node a b → similar_node b c → similar_node a c.
Proof. destruct a as [[]|], b as [[]|], c as [[]|]; simpl; try done; congruence. Qed.

Lemma same_book_keys fs fs' :
  cwd fs' = cwd fs →
  content_key fs' = content_key fs ∧
  (∀ f, entry_key fs' f = entry_key fs f) ∧
  (∀ f g, nested_key fs' f g = nested_key fs f g) ∧
  toc_key fs' = toc_key fs ∧ data_key fs' = data_key fs.
Proof.
  intros H. unfold content_key, entry_key, nested_key, toc_key, data_key.
  by rewrite H.
Qed.

Lemma same_book_refl fs : same_book fs fs.
Proof. split; auto using similar_node_refl. Qed.

Lemma same_book_sym fs fs' : same_book fs fs' → same_book fs' fs.
Proof.
  intros [Hc H1 H2 H3 H4].
  destruct (same_book_keys fs fs' Hc) as (K1 & K2 & K3 & _).
  split.
  - done.
  - by rewrite K1.
  - intros f Hf. rewrite K2. by apply similar_node_sym, H2.
  - intros f g Hf Hg Hr. rewrite K3. symmetry. by apply H3.
  - intros f Hf. rewrite K3. symmetry. by apply H4.
Qed.

Lemma same_book_trans fs1 fs2 fs3 :
  same_book fs1 fs2 → same_book fs2 fs3 → same_book fs1 fs3.
Proof.
  intros [Hc H1 H2 H3 H4] [Hc' H1' H2' H3' H4'].
  destruct (same_book_keys fs1 fs2 Hc) as (K1 & K2 & K3 & _).
  split.
  - congruence.
  - rewrite <- H1, <- K1. apply H1'.
  - intros f Hf. eapply similar_node_trans; [by apply H2|].
    rewrite <- K2. by apply H2'.
  - intros f g Hf Hg Hr. rewrite <- H3, <- K3 by done. by apply H3'.
  - intros f Hf. rewrite <- H4, <- K3 by done. by apply H4'.
Qed.

Global Instance same_book_equivalence : Equivalence same_book.
Proof. split; [exact same_book_refl|exact same_book_sym|exact same_book_trans]. Qed.

Lemma book_names_plain_same fs fs' :
  same_book fs fs' → book_names_plain fs → book_names_plain fs'.
Proof.
  intros [Hc H1 H2 H3 H4] [P1 P2].
  destruct (same_book_keys fs fs' Hc) as (K1 & K2 & K3 & _).
  split.
  - intros l Hl. apply P1. by rewrite <- H1, <- K1.
  - intros f l Hf Hl. rewrite K2 in Hl. specialize (H2 f Hf). rewrite Hl in H2.
    destruct (nodes fs !! entry_key fs f) as [[d|l0]|] eqn:E; try done.
    simpl in H2. rewrite <- H2. by eapply P2.
Qed.

Lemma names_plain_book fs : names_plain fs = true → book_names_plain fs.
Proof.
  intros H. unfold names_plain in H. rewrite forallb_forall in H.
  assert (A : ∀ k l, nodes fs !! k = Some (Dir l) → Forall (fun f => plain_name f = true) l).
  { intros k l Hk. apply elem_of_map_to_list, list_elem_of_In in Hk.
    specialize (H _ Hk). simpl in H. rewrite forallb_forall in H.
    apply Forall_forall. intros x Hx. by apply H, list_elem_of_In. }
  split; [by eauto|].
  intros f l _ Hl. unfold kept. apply Forall_forall. intros g [_ Hg]%list_elem_of_filter.
  specialize (A _ _ Hl). rewrite Forall_forall in A. by apply A.
Qed.

Section SameBook.
Context (fs fs' : FS) (Hsame : same_book fs fs') (Hplain : book_names_plain fs).
Context (f : string) (Hf : plain_name f = true).

Lemma same_book_locate_entry :
  locate fs' (Path.join ["content"; f]) = locate fs (Path.join ["content"; f]).
Proof.
  pose proof Hsame as [Hc H1 _ _ _].
  destruct (same_book_keys fs fs' Hc) as (K1 & K2 & _).
  rewrite !locate_entry by done. by rewrite K1, K2, H1.
Qed.

Lemma same_book_locate_chapter :
  locate fs' (Path.join ["."; "content"; f]) = locate fs (Path.join ["."; "content"; f]).
Proof.
  pose proof Hsame as [Hc H1 _ _ _].
  destruct (same_book_keys fs fs' Hc) as (K1 & K2 & _).
  rewrite !locate_chapter by done. by rewrite K1, K2, H1.
Qed.

Lemma same_book_locate_nested g :
  plain_name g = true →
  locate fs' (Path.join [Path.join ["."; "content"; f]; g]) =
    locate fs (Path.join [Path.join ["."; "content"; f]; g]).
Proof.
  intros Hg. pose proof Hsame as [Hc H1 H2 _ _].
  destruct (same_book_keys fs fs' Hc) as (K1 & K2 & K3 & _).
  rewrite !locate_nested by done. rewrite K1, K2, K3, H1.
  f_equal. by apply through_similar, H2.
Qed.

Lemma same_book_locate_readme :
  locate fs' (Path.join ["."; "content"; f; "readme.md"]) =
    locate fs (Path.join ["."; "content"; f; "readme.md"]).
Proof.
  pose proof Hsame as [Hc H1 H2 _ _].
  destruct (same_book_keys fs fs' Hc) as (K1 & K2 & K3 & _).
  rewrite !locate_readme by done. rewrite K1, K2, K3, H1.
  f_equal. by apply through_similar, H2.
Qed.

Lemma same_book_stat :
  fs_stat fs' (Path.join ["content"; f]) = fs_stat fs (Path.join ["content"; f]).
Proof.
  pose proof Hsame as [Hc _ H2 _ _]. unfold fs_stat. rewrite same_book_locate_entry.
  destruct (locate fs _) as [key|code] eqn:Hl; [|done].
  apply locate_resolve in Hl as ->. rewrite resolve_entry by done.
  specialize (H2 f Hf).
  by destruct (nodes fs !! entry_key fs f) as [[]|],
              (nodes fs' !! entry_key fs f) as [[]|].
Qed.

Lemma same_book_single :
  is_dir (nodes fs !! entry_key fs f) = false →
  single_entry fs' "content" f = single_entry fs "content" f.
Proof.
  intros Hd. pose proof Hsame as [Hc _ H2 _ _]. unfold single_entry.
  rewrite (fs_readFile_node fs fs'); [done|apply same_book_locate_entry|].
  rewrite resolve_entry by done.
  specialize (H2 f Hf).
  destruct (nodes fs !! entry_key fs f) as [[]|],
           (nodes fs' !! entry_key fs f) as [[]|]; simpl in *; try done; congruence.
Qed.

Lemma same_book_listed line content l l' :
  nodes fs !! entry_key fs f = Some (Dir l) →
  nodes fs' !! entry_key fs f = Some (Dir l') →
  listed fs' line (Path.join ["."; "content"; f]) l' content =
    listed fs line (Path.join ["."; "content"; f]) l content.
Proof.
  intros Hl Hl'. pose proof Hsame as [Hc _ H2 H3 _].
  specialize (H2 f Hf). rewrite Hl, Hl' in H2. simpl in H2.
  rewrite (listed_kept fs'), (listed_kept fs), <- H2.
  apply listed_ext. intros g Hg Hr.
  destruct Hplain as [_ P2]. specialize (P2 f l Hf Hl).
  rewrite Forall_forall in P2. specialize (P2 g Hg).
  apply fs_readFile_node; [by apply same_book_locate_nested|].
  rewrite resolve_nested by done.
  by apply H3.
Qed.

Lemma same_book_section :
  is_dir (nodes fs !! entry_key fs f) = true →
  chapter_section fs' f (Path.join ["."; "content"; f]) =
    chapter_section fs f (Path.join ["."; "content"; f]).
Proof.
  intros Hd. unfold chapter_section, fs_readdir.
  pose proof (sb_entry _ _ Hsame f Hf) as H2.
  rewrite same_book_locate_chapter.
  destruct (locate fs _) as [key|code] eqn:Hloc; [|done].
  apply locate_resolve in Hloc as ->. rewrite resolve_chapter by done.
  destruct (nodes fs !! entry_key fs f) as [[|l]|] eqn:El; try done.
  destruct (nodes fs' !! entry_key fs f) as [[|l']|] eqn:El'; try done.
  by apply same_book_listed.
Qed.

Lemma same_book_readme_text :
  is_dir (nodes fs !! entry_key fs f) = true →
  readme_text fs' (Path.join ["."; "content"; f]) =
    readme_text fs (Path.join ["."; "content"; f]).
Proof.
  intros Hd. unfold readme_text, fs_readdir.
  pose proof (sb_entry _ _ Hsame f Hf) as H2.
  rewrite same_book_locate_chapter.
  destruct (locate fs _) as [key|code] eqn:Hloc; [|done].
  apply locate_resolve in Hloc as ->. rewrite resolve_chapter by done.
  destruct (nodes fs !! entry_key fs f) as [[|l]|] eqn:El; try done.
  destruct (nodes fs' !! entry_key fs f) as [[|l']|] eqn:El'; try done.
  by apply same_book_listed.
Qed.

(** Whether the readme can be written, and the failure when it cannot,
    are the same on both. *)
Lemma same_book_write_outcome text :
  is_dir (nodes fs !! entry_key fs f) = true →
  fst (fs_writeFile fs' (Path.join ["."; "content"; f; "readme.md"]) text) =
  fst (fs_writeFile fs (Path.join ["."; "content"; f; "readme.md"]) text).
Proof.
  intros Hd. pose proof Hsame as [Hc _ H2 _ H4].
  specialize (H2 f Hf). specialize (H4 f Hf).
  unfold fs_writeFile. rewrite same_book_locate_readme.
  destruct (locate fs _) as [key|code] eqn:Hloc; [|done].
  apply locate_resolve in Hloc as ->. rewrite resolve_readme by done.
  rewrite nested_key_parent, nested_key_last.
  destruct (nodes fs !! entry_key fs f) as [[|l]|] eqn:El; try done.
  destruct (nodes fs' !! entry_key fs f) as [[|l']|] eqn:El'; try done.
  destruct (nodes fs !! nested_key fs f "readme.md") as [[]|],
           (nodes fs' !! nested_key fs f "readme.md") as [[]|]; done.
Qed.

Lemma same_book_stat_dir stats :
  fs_stat fs (Path.join ["content"; f]) = Ok stats →
  is_dir (nodes fs !! entry_key fs f) = isDirectory stats.
Proof.
  unfold fs_stat. destruct (locate fs _) as [key|code] eqn:Hloc; [|done].
  apply locate_resolve in Hloc as ->. rewrite resolve_entry by done.
  destruct (nodes fs !! entry_key fs f) as [[]|]; by intros [= <-].
Qed.

Lemma same_book_readme_plan context :
  readme_plan context fs' f = readme_plan context fs f.
Proof.
  unfold readme_plan. rewrite same_book_stat.
  destruct (fs_stat fs (Path.join ["content"; f])) as [stats|e] eqn:Hs; [|done].
  pose proof (same_book_stat_dir stats Hs) as Hd.
  destruct (isDirectory stats); [|done].
  destruct (chapterNames context); [|done].
  by rewrite same_book_section, same_book_readme_text.
Qed.

(** One round gives the same text and index on both. *)
Lemma same_book_step context s s' :
  b_fs s = fs → b_fs s' = fs' →
  b_toc s' = b_toc s → b_idx s' = b_idx s →
  b_toc (book_step context s' f) = b_toc (book_step context s f) ∧
  b_idx (book_step context s' f) = b_idx (book_step context s f).
Proof.
  intros Hs Hs' Ht Hi. unfold book_step. rewrite Hs, Hs', Ht, Hi.
  rewrite same_book_stat.
  destruct (fs_stat fs (Path.join ["content"; f])) as [stats|e] eqn:Hst; [|done].
  pose proof (same_book_stat_dir stats Hst) as Hd.
  destruct (isDirectory stats).
  - destruct (chapterNames context); [|done].
    rewrite same_book_section by done.
    destruct (chapter_section fs f _); [|done].
    rewrite same_book_readme_text by done.
    destruct (readme_text fs _) as [text|]; [|done].
    pose proof (same_book_write_outcome text Hd) as Hw.
    destruct (fs_writeFile fs' _ _) as [[[]|e'] fs1'],
             (fs_writeFile fs _ _) as [[[]|e] fs1]; simpl in Hw; done.
  - rewrite same_book_single by done.
    by destruct (single_entry fs "content" f).
Qed.
End SameBook.

(** ** What the writes of the build preserve *)

Ltac key_neq :=
  unfold content_key, entry_key, nested_key, toc_key, data_key;
  let H := fresh in
  intros H; apply app_inv_head in H; try discriminate H.

Lemma no_readme_readme : no_readme "readme.md" = false.
Proof. done. Qed.

Lemma write_readme_same_book fs f text :
  plain_name f = true →
  same_book fs (snd (fs_writeFile fs (Path.join ["."; "content"; f; "readme.md"]) text)).
Proof.
  intros Hf. set (p := Path.join ["."; "content"; f; "readme.md"]).
  assert (Hk : resolve fs p = nested_key fs f "readme.md") by by apply resolve_readme.
  assert (Hp : removelast (resolve fs p) = entry_key fs f)
    by by rewrite Hk, nested_key_parent.
  split.
  - apply fs_writeFile_cwd.
  - apply fs_writeFile_frame; rewrite ?Hp, ?Hk; key_neq.
  - intros f' Hf'. destruct (decide (f' = f)) as [->|Hne].
    + pose proof (fs_writeFile_parent (fun g => no_readme g = true) fs p text "readme.md") as H.
      rewrite Hk, nested_key_last, nested_key_parent in H.
      specialize (H eq_refl ltac:(by rewrite no_readme_readme)).
      destruct (nodes fs !! entry_key fs f) as [[d|l]|].
      * by rewrite H.
      * destruct H as (l' & -> & Hl). simpl. done.
      * by rewrite H.
    + rewrite fs_writeFile_frame; [apply similar_node_refl| |]; rewrite ?Hp, ?Hk; key_neq.
      congruence.
  - intros f' g Hf' Hg Hr. apply fs_writeFile_frame; rewrite ?Hp, ?Hk; key_neq.
    injection H as -> ->. by rewrite no_readme_readme in Hr.
  - intros f' Hf'. destruct (decide (f' = f)) as [->|Hne].
    + destruct (fs_writeFile_cases fs p text)
        as [(e & -> & _)|[(old & Ho & ->)|(n & l & Hn & _ & _ & ->)]]; simpl; [done| |];
        rewrite Hk in *; rewrite lookup_insert_eq; [by rewrite Ho|by rewrite Hn].
    + rewrite fs_writeFile_frame; [done| |]; rewrite ?Hp, ?Hk; key_neq. congruence.
Qed.

Lemma write_toc_same_book fs toc :
  same_book fs (snd (fs_writeFile fs "_data/toc.yml" toc)).
Proof.
  assert (Hk : resolve fs "_data/toc.yml" = toc_key fs) by apply resolve_toc.
  assert (Hp : removelast (resolve fs "_data/toc.yml") = data_key fs)
    by by rewrite Hk, toc_key_parent.
  split.
  - apply fs_writeFile_cwd.
  - apply fs_writeFile_frame; rewrite ?Hp, ?Hk; key_neq.
  - intros f Hf. rewrite fs_writeFile_frame; [apply similar_node_refl| |];
      rewrite ?Hp, ?Hk; key_neq.
  - intros f g Hf Hg Hr. apply fs_writeFile_frame; rewrite ?Hp, ?Hk; key_neq.
  - intros f Hf. rewrite fs_writeFile_frame; [done| |]; rewrite ?Hp, ?Hk; key_neq.
Qed.

Lemma book_step_fs context s f :
  b_fs (book_step context s f) = step_fs context (b_fs s) f.
Proof.
  unfold book_step, step_fs, readme_plan.
  destruct (fs_stat (b_fs s) _) as [stats|e]; [|done].
  destruct (isDirectory stats); [|by destruct (single_entry _ _ _)].
  destruct (chapterNames context); [|done].
  destruct (chapter_section _ _ _); [|done].
  destruct (readme_text _ _); [|done].
  by destruct (fs_writeFile _ _ _) as [[[]|e] fs'].
Qed.

Lemma step_fs_same_book context fs f :
  plain_name f = true → same_book fs (step_fs context fs f).
Proof.
  intros Hf. unfold step_fs. destruct (readme_plan context fs f); [|reflexivity].
  by apply write_readme_same_book.
Qed.

(** ** Rounds that change nothing *)

(** A write that changes nothing on one file system changes nothing on
    another on which the walk of the path goes the same way and which has
    the same nodes at the path and at its parent. *)
Lemma fs_writeFile_noop_transfer fs fs1 p data :
  locate fs1 p = locate fs p →
  nodes fs1 !! resolve fs p = nodes fs !! resolve fs p →
  nodes fs1 !! removelast (resolve fs p) = nodes fs !! removelast (resolve fs p) →
  snd (fs_writeFile fs p data) = fs →
  snd (fs_writeFile fs1 p data) = fs1.
Proof.
  intros Hloc Hk Hp Hn.
  destruct (fs_writeFile_cases fs p data)
    as [(e & He & Hcase)|[(old & Ho & He)|(n & l & Hnone & _ & _ & He)]].
  - unfold fs_writeFile. rewrite Hloc.
    destruct Hcase as [[code Hl]|Hcase]; [by rewrite Hl|].
    destruct (locate fs p) as [key|code] eqn:E; [|done].
    apply locate_resolve in E as ->. rewrite Hk, Hp.
    destruct Hcase as [Hd|[[-> Hd]| [-> ->]]]; [| |done].
    + by destruct (nodes fs !! resolve fs p) as [[]|].
    + destruct (last (resolve fs p)); [|done].
      by destruct (nodes fs !! removelast (resolve fs p)) as [[]|].
  - pose proof (fs_writeFile_ok_locate _ _ _ _ He) as E.
    rewrite He in Hn. simpl in Hn. apply (f_equal nodes) in Hn. simpl in Hn.
    apply (f_equal (lookup (resolve fs p))) in Hn. rewrite lookup_insert_eq in Hn.
    unfold fs_writeFile. rewrite Hloc, E. rewrite Hk, <- Hn.
    simpl. rewrite insert_id by by rewrite Hk. apply set_nodes_same.
  - rewrite He in Hn. simpl in Hn. apply (f_equal nodes) in Hn. simpl in Hn.
    apply (f_equal (lookup (resolve fs p))) in Hn. rewrite lookup_insert_eq in Hn.
    congruence.
Qed.

Lemma step_fs_again context fs f :
  plain_name f = true → book_names_plain fs →
  step_fs context (step_fs context fs f) f = step_fs context fs f.
Proof.
  intros Hf Hp. unfold step_fs at 1.
  rewrite (same_book_readme_plan fs (step_fs context fs f)) by
    (done || by apply step_fs_same_book).
  unfold step_fs. destruct (readme_plan context fs f) as [text|]; [|done].
  by rewrite fs_writeFile_again.
Qed.

Lemma step_fs_settled_other context fs f f' :
  plain_name f = true → plain_name f' = true → book_names_plain fs →
  step_fs context fs f = fs →
  step_fs context (step_fs context fs f') f = step_fs context fs f'.
Proof.
  intros Hf Hf' Hp Hs.
  destruct (decide (f' = f)) as [->|Hne]; [by apply step_fs_again|].
  unfold step_fs at 1.
  rewrite (same_book_readme_plan fs (step_fs context fs f')) by
    (done || by apply step_fs_same_book).
  unfold step_fs in Hs. destruct (readme_plan context fs f) as [text|]; [|done].
  set (fs1 := step_fs context fs f').
  assert (Hc : cwd fs1 = cwd fs) by apply (step_fs_same_book context fs f' Hf').
  assert (Hfr : ∀ k, k ≠ nested_key fs f' "readme.md" → k ≠ entry_key fs f' →
                     nodes fs1 !! k = nodes fs !! k).
  { intros k Hk1 Hk2. unfold fs1, step_fs.
    destruct (readme_plan context fs f'); [|done].
    apply fs_writeFile_frame; by rewrite resolve_readme, ?nested_key_parent. }
  apply fs_writeFile_noop_transfer with (fs := fs);
    [by apply same_book_locate_readme; [apply step_fs_same_book|]| | |done].
  - rewrite resolve_readme by done. apply Hfr; key_neq. congruence.
  - rewrite resolve_readme, nested_key_parent by done. apply Hfr; key_neq. congruence.
Qed.

Lemma step_fs_settled_toc context fs f toc :
  plain_name f = true → book_names_plain fs →
  step_fs context fs f = fs →
  step_fs context (snd (fs_writeFile fs "_data/toc.yml" toc)) f =
    snd (fs_writeFile fs "_data/toc.yml" toc).
Proof.
  intros Hf Hp Hs. unfold step_fs at 1.
  rewrite (same_book_readme_plan fs (snd (fs_writeFile fs "_data/toc.yml" toc))) by
    (done || by apply write_toc_same_book).
  unfold step_fs in Hs. destruct (readme_plan context fs f) as [text|]; [|done].
  set (fs1 := snd (fs_writeFile fs "_data/toc.yml" toc)).
  assert (Hc : cwd fs1 = cwd fs) by apply fs_writeFile_cwd.
  assert (Hfr : ∀ k, k ≠ toc_key fs → k ≠ data_key fs → nodes fs1 !! k = nodes fs !! k).
  { intros k Hk1 Hk2. apply fs_writeFile_frame; by rewrite resolve_toc, ?toc_key_parent. }
  apply fs_writeFile_noop_transfer with (fs := fs);
    [by apply same_book_locate_readme; [apply write_toc_same_book|]| | |done].
  - rewrite resolve_readme by done. apply Hfr; key_neq.
  - rewrite resolve_readme, nested_key_parent by done. apply Hfr; key_neq.
Qed.

(** ** The loop *)

Lemma foldl_same_book context files : ∀ s,
  Forall (fun f => plain_name f = true) files →
  same_book (b_fs s) (b_fs (foldl (book_step context) s files)).
Proof.
  induction files as [|f files IH]; intros s Hfs; [reflexivity|].
  apply Forall_cons in Hfs as [Hf Hfs]. simpl.
  etrans; [|by apply IH]. rewrite book_step_fs. by apply step_fs_same_book.
Qed.

Lemma foldl_keeps_settled context files f : ∀ s,
  plain_name f = true →
  Forall (fun f => plain_name f = true) files →
  book_names_plain (b_fs s) →
  step_fs context (b_fs s) f = b_fs s →
  step_fs context (b_fs (foldl (book_step context) s files)) f =
    b_fs (foldl (book_step context) s files).
Proof.
  induction files as [|f' files IH]; intros s Hf Hfs Hp Hs; [done|].
  apply Forall_cons in Hfs as [Hf' Hfs]. simpl. apply IH; [done..| |].
  - rewrite book_step_fs. eapply book_names_plain_same; [|exact Hp].
    by apply step_fs_same_book.
  - rewrite book_step_fs. by apply step_fs_settled_other.
Qed.

Lemma foldl_settles context files : ∀ s,
  Forall (fun f => plain_name f = true) files →
  book_names_plain (b_fs s) →
  ∀ f, f ∈ files →
       step_fs context (b_fs (foldl (book_step context) s files)) f =
         b_fs (foldl (book_step context) s files).
Proof.
  induction files as [|f' files IH]; intros s Hfs Hp f Hin.
  - by apply elem_of_nil in Hin.
  - apply Forall_cons in Hfs as [Hf' Hfs]. simpl.
    assert (Hp' : book_names_plain (b_fs (book_step context s f'))).
    { rewrite book_step_fs. eapply book_names_plain_same; [|exact Hp].
      by apply step_fs_same_book. }
    destruct (decide (f ∈ files)) as [Hin'|Hout]; [by apply IH|].
    apply elem_of_cons in Hin as [->|Hin]; [|done].
    apply foldl_keeps_settled; [done..|].
    rewrite book_step_fs. by apply step_fs_again.
Qed.

Lemma foldl_settled_noop context files : ∀ s,
  (∀ f, f ∈ files → step_fs context (b_fs s) f = b_fs s) →
  b_fs (foldl (book_step context) s files) = b_fs s.
Proof.
  induction files as [|f files IH]; intros s Hs; [done|]. simpl.
  assert (H1 : b_fs (book_step context s f) = b_fs s).
  { rewrite book_step_fs. apply Hs, elem_of_cons. by left. }
  rewrite IH; [done|]. intros f' Hin. rewrite H1. apply Hs, elem_of_cons. by right.
Qed.

Lemma foldl_same_text context files : ∀ s s',
  Forall (fun f => plain_name f = true) files →
  book_names_plain (b_fs s) →
  same_book (b_fs s) (b_fs s') →
  b_toc s' = b_toc s → b_idx s' = b_idx s →
  b_toc (foldl (book_step context) s' files) = b_toc (foldl (book_step context) s files).
Proof.
  induction files as [|f files IH]; intros s s' Hfs Hp Hsame Ht Hi; [done|].
  apply Forall_cons in Hfs as [Hf Hfs]. simpl.
  destruct (same_book_step (b_fs s) (b_fs s') Hsame Hp f Hf context s s') as [Ht' Hi'];
    [done..|].
  apply IH; [done| | |done..].
  - rewrite book_step_fs. eapply book_names_plain_same; [|exact Hp].
    by apply step_fs_same_book.
  - rewrite !book_step_fs.
    etrans; [symmetry; by apply step_fs_same_book|].
    etrans; [exact Hsame|]. by apply step_fs_same_book.
Qed.

Lemma book_run_listing context w bookContents :
  nodes (w_fs w) !! content_key (w_fs w) = Some (Dir bookContents) →
  book_run context w =
    (let s := foldl (book_step context) (book_start w) bookContents in
     (fst (fs_writeFile (b_fs s) "_data/toc.yml" (b_toc s)),
      {| w_fs := snd (fs_writeFile (b_fs s) "_data/toc.yml" (b_toc s));
         generator := generator w; console := b_printed s |})).
Proof.
  intros H. unfold book_run, fs_readdir. rewrite locate_content, H. cbv zeta.
  by destruct (fs_writeFile _ _ _).
Qed.

Lemma book_run_no_listing context w :
  is_dir (nodes (w_fs w) !! content_key (w_fs w)) = false →
  snd (book_run context w) = w ∧ ∃ e, fst (book_run context w) = Throw e.
Proof.
  intros H. unfold book_run, fs_readdir. rewrite locate_content.
  destruct (nodes (w_fs w) !! content_key (w_fs w)) as [[]|]; by eauto.
Qed.

(** C8. Running the TOC build a second time changes nothing: on a file
    system whose directories list plain names, the file system after the
    second run is the file system after the first, so [_data/toc.yml] and
    every [readme.md] hold the same bytes, and the second run ends the way
    the first did.  The first run's [readme.md] files are listed in their
    chapters during the second run. *)
Theorem customizeJupyterBook_idempotent context w :
  names_plain (w_fs w) = true →
  let w1 := snd (customizeJupyterBook context w) in
  let w2 := snd (customizeJupyterBook context w1) in
  w_fs w2 = w_fs w1 ∧
  fst (customizeJupyterBook context w1) = fst (customizeJupyterBook context w) ∧
  (∀ p, fs_readFile (w_fs w2) p = fs_readFile (w_fs w1) p).
Proof.
  intros Hnames. cbv zeta. rewrite !customizeJupyterBook_run.
  apply names_plain_book in Hnames.
  assert (Hgoal : w_fs (snd (book_run context (snd (book_run context w)))) =
                    w_fs (snd (book_run context w)) ∧
                  fst (book_run context (snd (book_run context w))) =
                    fst (book_run context w));
    [|destruct Hgoal as [-> ->]; done].
  destruct (nodes (w_fs w) !! content_key (w_fs w)) as [[d|files]|] eqn:Hc.
  - destruct (book_run_no_listing context w) as [H _]; [by rewrite Hc|].
    by rewrite !H.
  - rewrite (book_run_listing context w files Hc). cbv zeta.
    set (s := foldl (book_step context) (book_start w) files).
    set (fs1 := snd (fs_writeFile (b_fs s) "_data/toc.yml" (b_toc s))).
    set (w1 := {| w_fs := fs1; generator := generator w; console := b_printed s |}).
    cbn [fst snd].
    assert (Hfiles : Forall (fun f => plain_name f = true) files)
      by (by apply Hnames).
    assert (Hs : same_book (w_fs w) (b_fs s))
      by (by apply (foldl_same_book context files (book_start w))).
    assert (Hs1 : same_book (w_fs w) fs1)
      by (etrans; [exact Hs|apply write_toc_same_book]).
    assert (Hc1 : nodes (w_fs w1) !! content_key (w_fs w1) = Some (Dir files)).
    { destruct Hs1 as [Hcwd Hcon _ _ _]. simpl.
      unfold content_key in *. by rewrite Hcwd, Hcon. }
    rewrite (book_run_listing context w1 files Hc1). cbv zeta. cbn [fst snd w_fs].
    set (s' := foldl (book_step context) (book_start w1) files).
    assert (Hfs' : b_fs s' = fs1).
    { unfold s'. rewrite foldl_settled_noop; [done|].
      intros f Hin. simpl. unfold fs1.
      assert (Hf : plain_name f = true) by (rewrite Forall_forall in Hfiles; by apply Hfiles).
      apply step_fs_settled_toc; [done| |].
      - by eapply book_names_plain_same.
      - by apply (foldl_settles context files (book_start w)). }
    assert (Htoc : b_toc s' = b_toc s).
    { unfold s', s.
      by apply (foldl_same_text context files (book_start w) (book_start w1)). }
    rewrite Hfs', Htoc. unfold fs1. rewrite fs_writeFile_again. done.
  - destruct (book_run_no_listing context w) as [H _]; [by rewrite Hc|].
    by rewrite !H.
Qed.

(** ** The book with one chapter and one page *)

Lemma title_of_md file data line :
  Path.extname file = ".md" → first_line data line →
  title_of file (Ok data) = Ok (Some (clean_title line)).
Proof.
  intros He [Hl Hu]. unfold title_of. cbv zeta.
  rewrite <- untitled_test in Hu. apply not_true_is_false in Hu.
  rewrite Hu, He, Hl. done.
Qed.

Section IntroBook.
Context (context : Context) (names : list string).
Context (Hnames : chapterNames context = Some names).
Context (intro standalone : string).
Context (Hintro : first_line intro "# Intro").
Context (Hstandalone : first_line standalone "# Standalone").

Lemma intro_book_listed fs line files content :
  is_dir (nodes fs !! content_key fs) = true →
  intro_book fs files intro standalone →
  listed fs line (Path.join ["."; "content"; "ch1"]) files content =
    Ok (content +:+ line "intro.md" (Some "Intro")).
Proof.
  intros Hcon Hb. rewrite listed_kept, (ib_kept _ _ _ _ Hb). simpl.
  unfold fs_readFile. rewrite (locate_nested fs "ch1" "intro.md") by done.
  rewrite !through_dir by (done || by rewrite (ib_chapter _ _ _ _ Hb)).
  rewrite (ib_intro _ _ _ _ Hb).
  by rewrite (title_of_md "intro.md" intro "# Intro").
Qed.

(** The round for the chapter. *)
Lemma intro_book_step_chapter s files :
  is_dir (nodes (b_fs s) !! content_key (b_fs s)) = true →
  intro_book (b_fs s) files intro standalone →
  ∃ files',
    intro_book (b_fs (book_step context s "ch1")) files' intro standalone ∧
    nodes (b_fs (book_step context s "ch1")) !! nested_key (b_fs s) "ch1" "readme.md" =
      Some (File intro_readme) ∧
    cwd (b_fs (book_step context s "ch1")) = cwd (b_fs s) ∧
    b_toc (book_step context s "ch1") =
      (b_toc s +:+ chapter_stanza "ch1" (names !! b_idx s)) +:+ intro_section ∧
    nodes (b_fs (book_step context s "ch1")) !! content_key (b_fs s) =
      nodes (b_fs s) !! content_key (b_fs s).
Proof.
  intros Hcon Hb.
  set (p := Path.join ["."; "content"; "ch1"; "readme.md"]).
  assert (Hw : ∃ fs', fs_writeFile (b_fs s) p intro_readme = (Ok tt, fs')).
  { pose proof (ib_readme _ _ _ _ Hb) as Hr. pose proof (ib_chapter _ _ _ _ Hb) as Hc.
    destruct (fs_writeFile_cases (b_fs s) p intro_readme)
      as [(e & He & Hcase)|[(old & Ho & He)|(n & l & Hnone & _ & _ & He)]];
      [|by eexists..].
    unfold p in Hcase. rewrite (resolve_readme (b_fs s) "ch1") in Hcase by done.
    rewrite (locate_readme (b_fs s) "ch1") in Hcase by done.
    rewrite !through_dir in Hcase by (done || by rewrite Hc).
    rewrite nested_key_parent, nested_key_last, Hc in Hcase.
    destruct Hcase as [[code Hd]|[Hd|[[_ Hd]|[_ Hd]]]]; [done|congruence|done|done]. }
  destruct Hw as [fs' Hw].
  assert (Hstep : book_step context s "ch1" =
            {| b_fs := fs';
               b_toc := (b_toc s +:+ chapter_stanza "ch1" (names !! b_idx s)) +:+
                        intro_section;
               b_idx := S (b_idx s); b_printed := b_printed s |}).
  { unfold book_step, fs_stat.
    rewrite (locate_entry (b_fs s) "ch1"), through_dir by done.
    rewrite (ib_chapter _ _ _ _ Hb).
    simpl isDirectory. cbv iota. rewrite Hnames.
    unfold chapter_section, readme_text, fs_readdir.
    rewrite (locate_chapter (b_fs s) "ch1"), through_dir by done.
    rewrite (ib_chapter _ _ _ _ Hb).
    rewrite !(intro_book_listed (b_fs s) _ files) by done.
    fold p. change (fs_writeFile (b_fs s) p _) with (fs_writeFile (b_fs s) p intro_readme).
    by rewrite Hw. }
  rewrite Hstep. simpl.
  pose proof (write_readme_same_book (b_fs s) "ch1" intro_readme eq_refl) as Hsame.
  fold p in Hsame. rewrite Hw in Hsame. simpl in Hsame.
  destruct Hsame as [Hcwd H1 H2 H3 H4].
  destruct (same_book_keys (b_fs s) fs' Hcwd) as (_ & K2 & K3 & K4 & K5).
  assert (Hfr : ∀ k, k ≠ nested_key (b_fs s) "ch1" "readme.md" → k ≠ entry_key (b_fs s) "ch1" →
                     nodes fs' !! k = nodes (b_fs s) !! k).
  { intros k Hk1 Hk2. replace fs' with (snd (fs_writeFile (b_fs s) p intro_readme))
      by by rewrite Hw.
    apply fs_writeFile_frame; unfold p;
      by rewrite (resolve_readme (b_fs s) "ch1"), ?nested_key_parent. }
  specialize (H2 "ch1" eq_refl) as H2c. rewrite (ib_chapter _ _ _ _ Hb) in H2c.
  destruct (nodes fs' !! entry_key (b_fs s) "ch1") as [[|files']|] eqn:Ec; try done.
  simpl in H2c.
  exists files'. split; [split|split; [|done]].
  - by rewrite K2.
  - by rewrite <- H2c, (ib_kept _ _ _ _ Hb).
  - rewrite K3, H3 by done. apply Hb.
  - rewrite K2. specialize (H2 "standalone.md" eq_refl).
    rewrite (ib_standalone _ _ _ _ Hb) in H2.
    destruct (nodes fs' !! entry_key (b_fs s) "standalone.md") as [[]|]; try done.
    simpl in H2. by subst.
  - rewrite K3, H4 by done. apply Hb.
  - rewrite K5, Hfr by key_neq. apply Hb.
  - rewrite K4, Hfr by key_neq. apply Hb.
  - rewrite <- (resolve_readme (b_fs s) "ch1") by done. by eapply fs_writeFile_written.
Qed.

(** The round for the page. *)
Lemma intro_book_step_page s files :
  is_dir (nodes (b_fs s) !! content_key (b_fs s)) = true →
  intro_book (b_fs s) files intro standalone →
  b_fs (book_step context s "standalone.md") = b_fs s ∧
  b_idx (book_step context s "standalone.md") = b_idx s ∧
  b_toc (book_step context s "standalone.md") = b_toc s +:+ standalone_stanza.
Proof.
  intros Hcon Hb. unfold book_step, fs_stat, single_entry, fs_readFile.
  rewrite (locate_entry (b_fs s) "standalone.md"), through_dir by done.
  rewrite (ib_standalone _ _ _ _ Hb). simpl isDirectory. cbv iota.
  by rewrite (title_of_md "standalone.md" standalone "# Standalone").
Qed.
End IntroBook.

Lemma intro_book_finish fs files intro standalone toc :
  is_dir (nodes fs !! content_key fs) = true →
  intro_book fs files intro standalone →
  nodes fs !! nested_key fs "ch1" "readme.md" = Some (File intro_readme) →
  ∃ fs', fs_writeFile fs "_data/toc.yml" toc = (Ok tt, fs') ∧
         fs_readFile fs' "_data/toc.yml" = Ok toc ∧
         fs_readFile fs' "content/ch1/readme.md" = Ok intro_readme.
Proof.
  intros Hcon Hb Hr.
  pose proof (ib_toc _ _ _ _ Hb) as Ht. pose proof (ib_data _ _ _ _ Hb) as Hd.
  assert (Hw : ∃ fs', fs_writeFile fs "_data/toc.yml" toc = (Ok tt, fs')).
  { destruct (fs_writeFile_cases fs "_data/toc.yml" toc)
      as [(e & He & Hcase)|[(old & Ho & He)|(n & l & Hnone & _ & _ & He)]];
      [|by eexists..].
    rewrite locate_toc, through_dir in Hcase by done.
    rewrite resolve_toc, toc_key_parent, toc_key_last in Hcase.
    destruct Hcase as [[code H]|[H|[[_ H]|[_ H]]]]; [done|congruence|congruence|done]. }
  destruct Hw as [fs' Hw]. exists fs'. split; [done|].
  assert (Hcwd : cwd fs' = cwd fs).
  { replace fs' with (snd (fs_writeFile fs "_data/toc.yml" toc)) by by rewrite Hw.
    apply fs_writeFile_cwd. }
  assert (Hfr : ∀ k, k ≠ toc_key fs → k ≠ data_key fs → nodes fs' !! k = nodes fs !! k).
  { intros k Hk1 Hk2.
    replace fs' with (snd (fs_writeFile fs "_data/toc.yml" toc)) by by rewrite Hw.
    apply fs_writeFile_frame; by rewrite resolve_toc, ?toc_key_parent. }
  destruct (same_book_keys fs fs' Hcwd) as (K1 & K2 & K3 & K4 & K5).
  split.
  - pose proof (fs_writeFile_locate fs "_data/toc.yml" toc _ _
                  (fs_writeFile_ok_locate _ _ _ _ Hw)) as Hloc.
    rewrite Hw in Hloc. simpl in Hloc. unfold fs_readFile. rewrite Hloc.
    by rewrite (fs_writeFile_written fs "_data/toc.yml" toc fs' Hw).
  - unfold fs_readFile.
    change "content/ch1/readme.md" with (path_of ["content"; "ch1"; "readme.md"]).
    rewrite locate_nested_path by done. rewrite K1, K2, K3.
    rewrite !Hfr by key_neq.
    rewrite !through_dir by (done || by rewrite (ib_chapter _ _ _ _ Hb)).
    rewrite Hfr by key_neq. by rewrite Hr.
Qed.

Lemma chapter_stanza_url title :
  includes ("  url: ch1/readme" +:+ chr LF) (chapter_stanza "ch1" (Some title)) = true.
Proof.
  apply includes_spec.
  exists ("- title: " +:+ title +:+ chr LF),
         ("  not_numbered: true" +:+ chr LF +:+
          "  expand_sections: true" +:+ chr LF +:+ "  sections: " +:+ chr LF).
  unfold chapter_stanza, show. by rewrite !string_app_assoc.
Qed.

(** C5. Take a content directory that lists the subdirectory [ch1] and the
    file [standalone.md], in either order; [ch1] holds [intro.md] and besides
    it only files with [readme] in their name; the first line of [intro.md]
    is [# Intro] and that of [standalone.md] is [# Standalone]; the context
    supplies a chapter name.  Then the build ends normally; the TOC text it
    writes contains the stanza of the chapter with url [ch1/readme], followed
    by the nested entry titled [Intro] with url [ch1/intro], and the flat
    entry titled [Standalone] with url [standalone]; and it writes
    [ch1/readme.md] holding the link [[Intro](intro.md)].  The files with
    [readme] in their name appear in neither listing. *)
Theorem customizeJupyterBook_intro_book
    context w names title files intro standalone bookContents :
  chapterNames context = Some names →
  names !! 0%nat = Some title →
  nodes (w_fs w) !! content_key (w_fs w) = Some (Dir bookContents) →
  bookContents = ["ch1"; "standalone.md"] ∨ bookContents = ["standalone.md"; "ch1"] →
  intro_book (w_fs w) files intro standalone →
  first_line intro "# Intro" →
  first_line standalone "# Standalone" →
  ∃ w' toc,
    customizeJupyterBook context w = (Ok tt, w') ∧
    fs_readFile (w_fs w') "_data/toc.yml" = Ok toc ∧
    (toc = chapter_stanza "ch1" (Some title) +:+ intro_section +:+ standalone_stanza ∨
     toc = standalone_stanza +:+ chapter_stanza "ch1" (Some title) +:+ intro_section) ∧
    includes (chapter_stanza "ch1" (Some title) +:+ intro_section) toc = true ∧
    includes ("  url: ch1/readme" +:+ chr LF) (chapter_stanza "ch1" (Some title)) = true ∧
    includes standalone_stanza toc = true ∧
    fs_readFile (w_fs w') "content/ch1/readme.md" = Ok intro_readme ∧
    includes "[Intro](intro.md)" intro_readme = true.
Proof.
  intros Hnames Htitle Hc Horder Hb Hintro Hstandalone.
  rewrite customizeJupyterBook_run, (book_run_listing context w bookContents Hc). cbv zeta.
  set (s0 := book_start w).
  assert (Hcon0 : is_dir (nodes (b_fs s0) !! content_key (b_fs s0)) = true)
    by (simpl; by rewrite Hc).
  assert (Hs : ∃ s files',
            foldl (book_step context) s0 bookContents = s ∧
            is_dir (nodes (b_fs s) !! content_key (b_fs s)) = true ∧
            intro_book (b_fs s) files' intro standalone ∧
            nodes (b_fs s) !! nested_key (b_fs s) "ch1" "readme.md" = Some (File intro_readme) ∧
            (b_toc s = chapter_stanza "ch1" (Some title) +:+ intro_section +:+
                       standalone_stanza ∨
             b_toc s = standalone_stanza +:+ chapter_stanza "ch1" (Some title) +:+
                       intro_section)).
  { destruct Horder as [-> | ->]; simpl foldl.
    - destruct (intro_book_step_chapter context names Hnames intro standalone Hintro
                  Hstandalone s0 files Hcon0 Hb) as (files' & Hb1 & Hr1 & Hc1 & Ht1 & Hn1).
      assert (Hcon1 : is_dir (nodes (b_fs (book_step context s0 "ch1")) !!
                                content_key (b_fs (book_step context s0 "ch1"))) = true).
      { unfold content_key in *. by rewrite Hc1, Hn1. }
      destruct (intro_book_step_page context intro standalone Hstandalone
                  (book_step context s0 "ch1") files' Hcon1 Hb1) as (Hf2 & _ & Ht2).
      eexists _, files'. split; [done|]. rewrite Hf2, Ht2, Ht1.
      split; [done|]. split; [done|]. split.
      + unfold nested_key in *. by rewrite Hc1.
      + left. simpl b_toc. simpl b_idx. rewrite Htitle.
        by rewrite append_nil, !string_app_assoc.
    - destruct (intro_book_step_page context intro standalone Hstandalone
                  s0 files Hcon0 Hb) as (Hf1 & Hi1 & Ht1).
      assert (Hb1 : intro_book (b_fs (book_step context s0 "standalone.md"))
                      files intro standalone) by by rewrite Hf1.
      assert (Hcon1 : is_dir (nodes (b_fs (book_step context s0 "standalone.md")) !!
                         content_key (b_fs (book_step context s0 "standalone.md"))) = true)
        by by rewrite Hf1.
      destruct (intro_book_step_chapter context names Hnames intro standalone Hintro
                  Hstandalone (book_step context s0 "standalone.md") files Hcon1 Hb1)
        as (files' & Hb2 & Hr2 & Hc2 & Ht2 & Hn2).
      eexists _, files'. split; [reflexivity|].
      split; [unfold content_key in *; by rewrite Hc2, Hn2|].
      split; [exact Hb2|]. split.
      + unfold nested_key in *. by rewrite Hc2.
      + right. rewrite Ht2, Ht1, Hi1. simpl b_toc. simpl b_idx. rewrite Htitle.
        by rewrite append_nil, !string_app_assoc. }
  destruct Hs as (s & files' & -> & Hcons & Hbs & Hrs & Htoc).
  destruct (intro_book_finish (b_fs s) files' intro standalone (b_toc s) Hcons Hbs Hrs)
    as (fs' & Hw & Hr1 & Hr2).
  rewrite Hw.
  eexists _, (b_toc s). split; [done|]. cbn [w_fs].
  split; [done|]. split; [done|].
  split; [|split; [|split; [|split; [done|done]]]].
  - destruct Htoc as [-> | ->].
    + rewrite <- string_app_assoc. apply includes_here, starts_with_app.
    + apply includes_app_l. rewrite <- (append_empty_r (_ +:+ intro_section)) at 2.
      apply includes_here, starts_with_app.
  - apply chapter_stanza_url.
  - destruct Htoc as [-> | ->].
    + rewrite <- string_app_assoc. apply includes_app_l.
      rewrite <- (append_empty_r standalone_stanza) at 2.
      apply includes_here, starts_with_app.
    + apply includes_here, starts_with_app.
Qed.

Lemma customizeJupyterBook_intro_book_witness :
  ∃ w' toc,
    customizeJupyterBook Sample.one_chapter Sample.book = (Ok tt, w') ∧
    fs_readFile (w_fs w') "_data/toc.yml" = Ok toc ∧
    (toc = chapter_stanza "ch1" (Some "Chapter One") +:+ intro_section +:+ standalone_stanza ∨
     toc = standalone_stanza +:+ chapter_stanza "ch1" (Some "Chapter One") +:+ intro_section) ∧
    includes (chapter_stanza "ch1" (Some "Chapter One") +:+ intro_section) toc = true ∧
    includes ("  url: ch1/readme" +:+ chr LF) (chapter_stanza "ch1" (Some "Chapter One")) = true ∧
    includes standalone_stanza toc = true ∧
    fs_readFile (w_fs w') "content/ch1/readme.md" = Ok intro_readme ∧
    includes "[Intro](intro.md)" intro_readme = true.
Proof.
  apply (customizeJupyterBook_intro_book Sample.one_chapter Sample.book
           ["Chapter One"] "Chapter One" ["intro.md"]
           ("# Intro" +:+ chr LF +:+ "Some text.") "# Standalone"
           ["ch1"; "standalone.md"]).
  - reflexivity.
  - reflexivity.
  - reflexivity.
  - left. reflexivity.
  - split; reflexivity.
  - split; [reflexivity|].
    intros [H|(line & Hl & _)]; [discriminate H|discriminate Hl].
  - split; [reflexivity|].
    intros [H|(line & Hl & _)]; [discriminate H|discriminate Hl].
Defined.

Lemma customizeJupyterBook_idempotent_witness :
  w_fs (snd (customizeJupyterBook Sample.one_chapter
               (snd (customizeJupyterBook Sample.one_chapter Sample.book)))) =
    w_fs (snd (customizeJupyterBook Sample.one_chapter Sample.book)) ∧
  fs_readdir (w_fs (snd (customizeJupyterBook Sample.one_chapter Sample.book)))
    "content/ch1" = Ok ["intro.md"; "readme.md"].
Proof.
  split.
  - apply (customizeJupyterBook_idempotent Sample.one_chapter Sample.book).
    reflexivity.
  - reflexivity.
Defined.

(** ** Further properties: the scans *)

Global Instance quiet_preorder : PreOrder quiet.
Proof.
  split.
  - by intros w.
  - intros w1 w2 w3 [H1 H2] [H3 H4]. split; congruence.
Qed.

Lemma keeps_quiet_names_push x : keeps quiet (notebookNames_push x).
Proof.
  intros w. unfold notebookNames_push.
  by destruct (notebookNames (extensionConfig (generator w))).
Qed.

Lemma keeps_quiet_paths_push x : keeps quiet (notebookPaths_push x).
Proof.
  intros w. unfold notebookPaths_push.
  by destruct (notebookPaths (extensionConfig (generator w))).
Qed.

Lemma keeps_quiet_folders_push x : keeps quiet (notebookFolders_push x).
Proof.
  intros w. unfold notebookFolders_push.
  by destruct (notebookFolders (extensionConfig (generator w))).
Qed.

Lemma keeps_quiet_console_log line : keeps quiet (console_log line).
Proof. by intros w. Qed.

Lemma keeps_quiet_findNotebookFiles_each folderPath fileName :
  keeps (on_world quiet) (findNotebookFiles_each folderPath fileName).
Proof.
  unfold findNotebookFiles_each. apply keeps_try_catch; [apply _| |].
  - destruct (is_notebook_extension _); [|apply keeps_ret, _].
    apply keeps_bind; [apply _|apply keeps_locals, _|]. intros c.
    apply keeps_bind; [apply _|apply keeps_assign, _|]. intros _.
    apply keeps_bind; [apply _|apply keeps_lift, keeps_quiet_names_push|]. intros _.
    apply keeps_lift, keeps_quiet_paths_push.
  - intros e. apply keeps_lift, keeps_quiet_console_log.
Qed.

Lemma forEach_findNotebookFiles_quiet folderPath files w c :
  ∃ w', forEach files (findNotebookFiles_each folderPath) (w, c) =
          (Ok tt, (w', (c + length (notebooks_of files))%nat)) ∧
        quiet w w'.
Proof.
  destruct (forEach_findNotebookFiles_total folderPath files w c) as (w' & H & _).
  exists w'. split; [done|].
  pose proof (keeps_forEach (on_world quiet) files (findNotebookFiles_each folderPath)
                (keeps_quiet_findNotebookFiles_each folderPath) (w, c)) as Hq.
  by rewrite H in Hq.
Qed.

Lemma count_zero (n : nat) : bool_decide (n = 0%nat) = (Z.of_nat n <=? 0).
Proof. by destruct n. Qed.

(** X1. [processNotebookFolder] never raises, whatever the path and
    whatever the registry holds.  It returns the number of entries of the
    folder whose lower-cased extension is [.ipynb] or [.md] (0 when the path
    does not lead to a directory), leaves the file system alone and hands
    exactly one line to the log.  A positive count is reported by its number
    alone: problems are collected only when the folder cannot be accessed,
    and then the count is 0, so the list of problems, which is the one
    message of the system for the path, only ever follows the line that says
    that no notebook was found. *)
Theorem processNotebookFolder_reports folderPath w :
  ∃ w1,
    processNotebookFolder folderPath w =
      (Ok (folder_count (w_fs w) folderPath),
       told w1 [folder_report (w_fs w) folderPath]) ∧
    quiet w w1.
Proof.
  unfold processNotebookFolder, findNotebookFiles, folder_report, folder_count.
  destruct (fs_place (w_fs w) folderPath)
    as [(files & Hr & Hs)|[(e & Hr & Hs)|(e & message & Hr & Hs)]]; rewrite Hr, Hs.
  - pose proof (getFolderContent_dir folderPath (Some []) w files Hr) as H.
    destruct (forEach_findNotebookFiles_quiet folderPath files w 0) as (w1 & Hw & Hq).
    exists w1.
    erewrite bind_ok; cycle 1.
    { erewrite bind_ok by exact H. unfold bind, with_locals. rewrite Hw. reflexivity. }
    simpl. rewrite count_zero.
    split; [|done].
    destruct (Z.of_nat (length (notebooks_of files)) <=? 0);
      unfold told, config_of; by rewrite append_empty_r.
  - pose proof (getFolderContent_file folderPath (Some []) w Hs) as H.
    exists w. erewrite bind_ok by (erewrite bind_ok by exact H; reflexivity).
    split; [|done]. unfold told, config_of. by rewrite append_empty_r.
  - pose proof (getFolderContent_missing folderPath [] w message Hs) as H. exists w.
    erewrite bind_ok by (erewrite bind_ok by exact H; reflexivity).
    split; [|done]. simpl. unfold told, config_of. unfold problems, EOL. simpl.
    by rewrite !string_app_assoc.
Qed.

Lemma discover_dir_folders rootFolder arr w subfolders folders :
  fs_readdir (w_fs w) rootFolder = Ok subfolders →
  notebookFolders (config_of w) = Some folders →
  ∃ w' arr',
    discoverFoldersContainingNotebooks rootFolder (Some arr) w =
      (Ok (book_count (w_fs w) rootFolder subfolders, Some arr'), w') ∧
    w_fs w' = w_fs w ∧
    notebookFolders (config_of w') = Some (folders ++ subfolders).
Proof.
  intros Hd Hf. unfold discoverFoldersContainingNotebooks.
  erewrite bind_ok by (by eapply getFolderContent_dir).
  destruct (forEach_discover_ok rootFolder subfolders w 0%nat arr folders Hf)
    as (w1 & arr1 & H1 & Hfs & Hfo).
  unfold bind, with_locals. rewrite H1. simpl. by exists w1, arr1.
Qed.

(** X2. The book-wide scan records every entry of the root folder, in
    listing order, in [notebookFolders], whether the entry is a folder or
    not: an entry is not examined before it is pushed.  With a root path
    that leads to a directory, as the system walks it, and [notebookFolders]
    there, the scan returns the sum of the counts and leaves the file system
    alone. *)
Theorem processBookFolder_records_entries folderPath w subfolders folders :
  fs_readdir (w_fs w) folderPath = Ok subfolders →
  notebookFolders (config_of w) = Some folders →
  ∃ w',
    processBookFolder folderPath w =
      (Ok (Some (book_count (w_fs w) folderPath subfolders)), w') ∧
    notebookFolders (config_of w') = Some (folders ++ subfolders) ∧
    w_fs w' = w_fs w.
Proof.
  intros Hd Hf. unfold processBookFolder, try_catch.
  erewrite bind_ok by (by instantiate (1 := told w ["Jupyter Book found!"])).
  destruct (discover_dir_folders folderPath [] (told w ["Jupyter Book found!"])
              subfolders folders Hd Hf) as (w1 & arr1 & H1 & Hfs & Hfo).
  erewrite bind_ok by exact H1. simpl.
  eexists. split; [done|]. simpl. by split.
Qed.

Lemma processBookFolder_records_entries_witness :
  ∃ w',
    processBookFolder "content" Sample.book =
      (Ok (Some (book_count (w_fs Sample.book) "content" ["ch1"; "standalone.md"])), w') ∧
    notebookFolders (config_of w') = Some ([] ++ ["ch1"; "standalone.md"]) ∧
    w_fs w' = w_fs Sample.book.
Proof.
  apply (processBookFolder_records_entries "content" Sample.book
           ["ch1"; "standalone.md"] []); reflexivity.
Defined.

(** X3. When [notebookPaths] is missing and [notebookNames] is there, every
    matching entry of a folder that can be listed is still counted and its
    name is still pushed: the push of the path fails after the push of the
    name, the failure is printed, and the scan goes on.  The names grow by
    the matches while no path is recorded. *)
Theorem findNotebookFiles_names_without_paths folderPath arr w files names :
  fs_readdir (w_fs w) folderPath = Ok files →
  notebookNames (config_of w) = Some names →
  notebookPaths (config_of w) = None →
  ∃ w',
    findNotebookFiles folderPath (Some arr) w =
      (Ok (length (notebooks_of files), Some arr), w') ∧
    notebookNames (config_of w') = Some (names ++ notebooks_of files) ∧
    notebookPaths (config_of w') = None ∧
    console w' = console w ++ replicate (length (notebooks_of files)) push_failure.
Proof.
  intros Hd Hn Hp. unfold findNotebookFiles.
  erewrite bind_ok by (by apply getFolderContent_dir).
  assert (H : ∀ w c names,
            notebookNames (config_of w) = Some names →
            notebookPaths (config_of w) = None →
            ∃ w', forEach files (findNotebookFiles_each folderPath) (w, c) =
                    (Ok tt, (w', (c + length (notebooks_of files))%nat)) ∧
                  notebookNames (config_of w') = Some (names ++ notebooks_of files) ∧
                  notebookPaths (config_of w') = None ∧
                  console w' = console w ++
                    replicate (length (notebooks_of files)) push_failure).
  { clear. induction files as [|f files IH]; intros w c names Hn Hp.
    - exists w. simpl. by rewrite Nat.add_0_r, !app_nil_r.
    - rewrite forEach_cons, notebooks_of_cons. destruct (is_notebook f) eqn:Hf.
      + unfold bind. unfold findNotebookFiles_each at 1, try_catch.
        fold (is_notebook f). rewrite Hf.
        unfold bind, locals, assign, lift, notebookNames_push, notebookPaths_push,
          console_log.
        unfold config_of in Hn, Hp. rewrite Hn. simpl. rewrite Hp.
        match goal with |- context [forEach files _ (?w1, _)] =>
          destruct (IH w1 (S c) (names ++ [f])) as (w' & H & Hn' & Hp' & Hc'); [done..|]
        end.
        exists w'. rewrite H. simpl. rewrite Hn', Hc'. simpl.
        rewrite <- !app_assoc. repeat split; try done. do 3 f_equal. lia.
      + erewrite bind_ok by (by apply findNotebookFiles_each_skip). by apply IH. }
  destruct (H w 0%nat names Hn Hp) as (w' & Hw & Hn' & Hp' & Hc').
  unfold bind, with_locals. rewrite Hw. simpl. by exists w'.
Qed.

Lemma findNotebookFiles_names_without_paths_witness :
  ∃ w',
    findNotebookFiles "content/ch1" (Some []) book_no_paths =
      (Ok (length (notebooks_of ["intro.md"]), Some []), w') ∧
    notebookNames (config_of w') = Some ([] ++ notebooks_of ["intro.md"]) ∧
    notebookPaths (config_of w') = None ∧
    console w' = console book_no_paths ++
                 replicate (length (notebooks_of ["intro.md"])) push_failure.
Proof.
  apply (findNotebookFiles_names_without_paths "content/ch1" [] book_no_paths
           ["intro.md"] []); reflexivity.
Defined.

(** ** Further properties: the build *)

(** X4. [buildCustomBook] never raises.  When [./content] is not a
    directory that can be listed, nothing is written and one line is printed
    that carries the failure of the listing. *)
Theorem buildCustomBook_never_raises context w :
  match nodes (w_fs w) !! content_key (w_fs w) with
  | Some (Dir _) => ∃ w', buildCustomBook context w = (Ok tt, w')
  | Some (File _) =>
      buildCustomBook context w =
        (Ok tt, printed w [unexpected (sys_error ENOTDIR "scandir" "content")])
  | None =>
      buildCustomBook context w =
        (Ok tt, printed w [unexpected (sys_error ENOENT "scandir" "content")])
  end.
Proof.
  unfold buildCustomBook, try_catch. rewrite customizeJupyterBook_run.
  destruct (nodes (w_fs w) !! content_key (w_fs w)) as [[d|files]|] eqn:Hc.
  - unfold book_run, fs_readdir. by rewrite locate_content, Hc.
  - rewrite (book_run_listing context w files Hc). cbv zeta.
    destruct (fst (fs_writeFile _ _ _)) as [[]|e]; by eexists.
  - unfold book_run, fs_readdir. by rewrite locate_content, Hc.
Qed.

Lemma book_step_no_names context s file :
  chapterNames context = None →
  b_fs (book_step context s file) = b_fs s ∧
  b_idx (book_step context s file) = b_idx s ∧
  b_toc (book_step context s file) = b_toc s +:+ flat_part (b_fs s) file.
Proof.
  intros Hn. unfold book_step, flat_part. rewrite Hn.
  destruct (fs_stat (b_fs s) _) as [stats|e]; [|by rewrite append_empty_r].
  destruct (isDirectory stats); [by rewrite append_empty_r|].
  destruct (single_entry _ _ _); [done|by rewrite append_empty_r].
Qed.

Lemma foldl_no_names context files : ∀ s,
  chapterNames context = None →
  b_fs (foldl (book_step context) s files) = b_fs s ∧
  b_toc (foldl (book_step context) s files) =
    b_toc s +:+ glue (map (flat_part (b_fs s)) files).
Proof.
  induction files as [|f files IH]; intros s Hn.
  - simpl. by rewrite append_empty_r.
  - simpl foldl. destruct (book_step_no_names context s f Hn) as (Hf & _ & Ht).
    destruct (IH (book_step context s f) Hn) as (Hf' & Ht').
    rewrite Hf', Ht', Hf, Ht. split; [done|]. simpl. by rewrite string_app_assoc.
Qed.

(** X5. When the context carries no chapter names, the directories under
    [content] are passed over: no chapter stanza is written and no readme.
    The TOC text is made of the flat stanzas of the entries that are not
    directories, in listing order, and the only write is that of the TOC
    file.  The names and the texts of the file system are taken to be ASCII,
    as the stanzas hold lower-cased names and trimmed titles. *)
Theorem customizeJupyterBook_without_chapter_names context w bookContents :
  ascii_fs (w_fs w) = true →
  chapterNames context = None →
  fs_readdir (w_fs w) "content" = Ok bookContents →
  ∃ printed_lines,
    customizeJupyterBook context w =
      (fst (fs_writeFile (w_fs w) "_data/toc.yml"
              (glue (map (flat_part (w_fs w)) bookContents))),
       {| w_fs := snd (fs_writeFile (w_fs w) "_data/toc.yml"
                         (glue (map (flat_part (w_fs w)) bookContents)));
          generator := generator w;
          console := printed_lines |}).
Proof.
  intros _ Hn Hr. rewrite customizeJupyterBook_run. unfold book_run. rewrite Hr. cbv zeta.
  destruct (foldl_no_names context bookContents (book_start w) Hn) as [Hf Ht].
  rewrite Hf, Ht. simpl. rewrite append_nil.
  eexists. by destruct (fs_writeFile _ _ _).
Qed.

Lemma customizeJupyterBook_without_chapter_names_witness :
  ∃ printed_lines,
    customizeJupyterBook {| chapterNames := None |} Sample.book =
      (fst (fs_writeFile (w_fs Sample.book) "_data/toc.yml"
              (glue (map (flat_part (w_fs Sample.book)) ["ch1"; "standalone.md"]))),
       {| w_fs := snd (fs_writeFile (w_fs Sample.book) "_data/toc.yml"
                         (glue (map (flat_part (w_fs Sample.book)) ["ch1"; "standalone.md"])));
          generator := generator Sample.book;
          console := printed_lines |}).
Proof.
  apply (customizeJupyterBook_without_chapter_names {| chapterNames := None |} Sample.book
           ["ch1"; "standalone.md"]); reflexivity.
Defined.

(** *** What the build leaves alone *)

Lemma node_kept_refl n : node_kept n n.
Proof. destruct n as [[d|l]|]; simpl; [done| |done]. by exists l. Qed.

Lemma node_kept_trans a b c : node_kept a b → node_kept b c → node_kept a c.
Proof.
  destruct a as [[d|l]|]; simpl.
  - by intros ->.
  - intros (l' & -> & Hl) (l'' & -> & Hl'). exists l''. split; [done|]. auto.
  - by intros ->.
Qed.

Lemma elem_of_add_entry fs entries name x : x ∈ entries → x ∈ add_entry fs entries name.
Proof.
  intros Hx. unfold add_entry.
  rewrite <- (take_drop (slot fs entries name) entries) in Hx.
  apply elem_of_app in Hx as [Hx|Hx]; apply elem_of_app; [by left|right].
  apply elem_of_cons. by right.
Qed.

(** A write leaves alone every node but the one at the path. *)
Lemma fs_writeFile_kept fs p data k :
  k ≠ resolve fs p →
  node_kept (nodes fs !! k) (nodes (snd (fs_writeFile fs p data)) !! k).
Proof.
  intros Hk.
  destruct (fs_writeFile_cases fs p data)
    as [(e & -> & _)|[(old & _ & ->)|(n & l & _ & _ & Hp & ->)]]; simpl.
  - apply node_kept_refl.
  - rewrite lookup_insert_ne by done. apply node_kept_refl.
  - rewrite lookup_insert_ne by done.
    destruct (decide (k = removelast (resolve fs p))) as [->|Hne].
    + rewrite Hp, lookup_insert_eq. simpl. eexists. split; [done|].
      intros x. apply elem_of_add_entry.
    + rewrite lookup_insert_ne by done. apply node_kept_refl.
Qed.

Lemma step_fs_cwd context fs file : cwd (step_fs context fs file) = cwd fs.
Proof.
  unfold step_fs. destruct (readme_plan context fs file); [|done].
  apply fs_writeFile_cwd.
Qed.

Lemma foldl_cwd context files : ∀ s,
  cwd (b_fs (foldl (book_step context) s files)) = cwd (b_fs s).
Proof.
  induction files as [|f files IH]; intros s; [done|]. simpl.
  by rewrite IH, book_step_fs, step_fs_cwd.
Qed.

Lemma step_fs_kept context fs file k :
  k ≠ resolve fs (readme_path file) →
  node_kept (nodes fs !! k) (nodes (step_fs context fs file) !! k).
Proof.
  intros Hk. unfold step_fs. destruct (readme_plan context fs file);
    [by apply fs_writeFile_kept|apply node_kept_refl].
Qed.

Lemma foldl_kept context files k : ∀ s,
  (∀ f, f ∈ files → k ≠ resolve (b_fs s) (readme_path f)) →
  node_kept (nodes (b_fs s) !! k)
            (nodes (b_fs (foldl (book_step context) s files)) !! k).
Proof.
  induction files as [|f files IH]; intros s Hk; [apply node_kept_refl|]. simpl.
  eapply node_kept_trans.
  - apply (step_fs_kept context (b_fs s) f k). apply Hk, elem_of_cons. by left.
  - rewrite <- book_step_fs. apply IH. intros f' Hf'.
    rewrite (resolve_same_cwd (b_fs s)) by (by rewrite book_step_fs, step_fs_cwd).
    apply Hk, elem_of_cons. by right.
Qed.

Lemma book_run_kept context w bookContents k :
  fs_readdir (w_fs w) "content" = Ok bookContents →
  k ≠ resolve (w_fs w) "_data/toc.yml" →
  (∀ f, f ∈ bookContents → k ≠ resolve (w_fs w) (readme_path f)) →
  node_kept (nodes (w_fs w) !! k) (nodes (w_fs (snd (book_run context w))) !! k).
Proof.
  intros Hr Ht Hk. unfold book_run. rewrite Hr. cbv zeta.
  set (s := foldl (book_step context) (book_start w) bookContents).
  eapply node_kept_trans; [by apply (foldl_kept context bookContents k (book_start w))|].
  fold s.
  pose proof (fs_writeFile_kept (b_fs s) "_data/toc.yml" (b_toc s) k) as H.
  rewrite (resolve_same_cwd (w_fs w) (b_fs s)) in H
    by apply (foldl_cwd context bookContents (book_start w)).
  specialize (H Ht). by destruct (fs_writeFile _ _ _).
Qed.

(** X6. The build writes the TOC file and the readme of each entry of
    [content], and nothing else: at every other path a file holds the data
    it held before, a directory lists at least what it listed before, and
    what was not there is still not there.  Nothing is deleted or
    truncated. *)
Theorem customizeJupyterBook_leaves_others context w bookContents k :
  fs_readdir (w_fs w) "content" = Ok bookContents →
  k ≠ resolve (w_fs w) "_data/toc.yml" →
  (∀ f, f ∈ bookContents → k ≠ resolve (w_fs w) (readme_path f)) →
  node_kept (nodes (w_fs w) !! k)
            (nodes (w_fs (snd (customizeJupyterBook context w))) !! k).
Proof.
  intros Hr Ht Hk. rewrite customizeJupyterBook_run.
  by apply (book_run_kept context w bookContents k).
Qed.

Lemma customizeJupyterBook_leaves_others_witness :
  node_kept
    (nodes (w_fs Sample.book) !! (Sample.base ++ ["content"; "ch1"; "intro.md"]))
    (nodes (w_fs (snd (customizeJupyterBook Sample.one_chapter Sample.book)))
       !! (Sample.base ++ ["content"; "ch1"; "intro.md"])).
Proof.
  apply (customizeJupyterBook_leaves_others Sample.one_chapter Sample.book
           ["ch1"; "standalone.md"]).
  - reflexivity.
  - discriminate.
  - intros f Hf. apply elem_of_cons in Hf as [->|Hf].
    + discriminate.
    + apply elem_of_cons in Hf as [->|Hf]; [discriminate|].
      apply elem_of_nil in Hf. destruct Hf.
Defined.

(** X7. Without a [_data] directory the chapters are processed all the
    same, and then the write of the TOC file fails: [customizeJupyterBook]
    raises, no TOC file exists afterwards, the readme files written on the
    way stay, and [buildCustomBook] turns the failure into one printed
    line. *)
Theorem customizeJupyterBook_without_data_directory context w bookContents :
  names_plain (w_fs w) = true →
  fs_readdir (w_fs w) "content" = Ok bookContents →
  nodes (w_fs w) !! data_key (w_fs w) = None →
  nodes (w_fs w) !! toc_key (w_fs w) = None →
  let s := foldl (book_step context) (book_start w) bookContents in
  let w' := {| w_fs := b_fs s; generator := generator w; console := b_printed s |} in
  customizeJupyterBook context w = (Throw (sys_error ENOENT "open" "_data/toc.yml"), w') ∧
  nodes (w_fs w') !! toc_key (w_fs w) = None ∧
  buildCustomBook context w =
    (Ok tt, printed w' [unexpected (sys_error ENOENT "open" "_data/toc.yml")]).
Proof.
  intros Hplain Hr Hd Ht. cbv zeta.
  set (s := foldl (book_step context) (book_start w) bookContents).
  assert (Hfiles : Forall (fun f => plain_name f = true) bookContents).
  { apply names_plain_book in Hplain as [P1 _]. apply P1.
    unfold fs_readdir in Hr. rewrite locate_content in Hr.
    by destruct (nodes (w_fs w) !! content_key (w_fs w)) as [[]|]; simplify_eq. }
  assert (Hk : ∀ k, k = data_key (w_fs w) ∨ k = toc_key (w_fs w) →
                    nodes (b_fs s) !! k = nodes (w_fs w) !! k).
  { intros k Hcase.
    pose proof (foldl_kept context bookContents k (book_start w)) as H.
    assert (Hne : ∀ f, f ∈ bookContents → k ≠ resolve (w_fs w) (readme_path f)).
    { intros f Hf. rewrite Forall_forall in Hfiles. unfold readme_path.
      rewrite resolve_readme by by apply Hfiles.
      destruct Hcase as [-> | ->]; key_neq. }
    specialize (H Hne). fold s in H. simpl in H.
    destruct Hcase as [-> | ->]; [by rewrite Hd in *|by rewrite Ht in *]. }
  assert (Hc : cwd (b_fs s) = cwd (w_fs w))
    by apply (foldl_cwd context bookContents (book_start w)).
  assert (Hw : fs_writeFile (b_fs s) "_data/toc.yml" (b_toc s) =
               (Throw (sys_error ENOENT "open" "_data/toc.yml"), b_fs s)).
  { unfold fs_writeFile. rewrite locate_toc.
    destruct (same_book_keys (w_fs w) (b_fs s) Hc) as (_ & _ & _ & K4 & K5).
    rewrite K5. rewrite (Hk (data_key (w_fs w))) by by left. by rewrite Hd. }
  assert (Hrun : customizeJupyterBook context w =
            (Throw (sys_error ENOENT "open" "_data/toc.yml"),
             {| w_fs := b_fs s; generator := generator w; console := b_printed s |})).
  { rewrite customizeJupyterBook_run. unfold book_run. rewrite Hr. cbv zeta.
    fold s. by rewrite Hw. }
  split; [done|]. split.
  - simpl. rewrite Hk by by right. done.
  - unfold buildCustomBook, try_catch. by rewrite Hrun.
Qed.

Lemma customizeJupyterBook_without_data_directory_witness :
  fst (customizeJupyterBook Sample.one_chapter book_no_data) =
    Throw (sys_error ENOENT "open" "_data/toc.yml") ∧
  nodes (w_fs (snd (customizeJupyterBook Sample.one_chapter book_no_data)))
    !! (Sample.base ++ ["content"; "ch1"; "readme.md"]) =
    Some (File ("## Notebooks in this Chapter" +:+ Js.chr Js.LF +:+
                "- [Intro](intro.md)" +:+ Js.chr Js.LF)).
Proof.
  pose proof (customizeJupyterBook_without_data_directory Sample.one_chapter
                book_no_data ["ch1"; "standalone.md"]
                eq_refl eq_refl eq_refl eq_refl) as H.
  cbv zeta in H. destruct H as (H & _ & _). rewrite H. split; [done|].
  vm_compute. reflexivity.
Defined.

(** ** Further properties: titles *)

Lemma has_char_app c a b : has_char c (a +:+ b) = has_char c a || has_char c b.
Proof.
  induction a as [|x a IH]; [done|].
  rewrite append_cons. simpl. by rewrite IH, orb_assoc.
Qed.

(** No line of a text holds a line feed. *)
Lemma split_lines_no_lf s l : l ∈ split_lines s → has_char LF l = false.
Proof.
  assert (H : ∀ n s, (String.length s < n)%nat →
                ∀ l, l ∈ split_lines s → has_char LF l = false);
    [|by apply (H (S (String.length s))), Nat.lt_succ_diag_r].
  clear s l. induction n as [|n IH]; intros s Hn l; [lia|].
  destruct s as [|c r].
  - simpl. intros ->%list_elem_of_singleton. done.
  - simpl split_lines. destruct (ascii_eqb c LF) eqn:Hc.
    + intros [->|Hl]%elem_of_cons; [done|]. apply (IH r); [simpl in Hn; lia|done].
    + destruct r as [|d r'].
      * intros ->%list_elem_of_singleton. simpl. by rewrite Hc.
      * destruct (ascii_eqb c CR && ascii_eqb d LF).
        -- intros [->|Hl]%elem_of_cons; [done|].
           apply (IH r'); [simpl in Hn; lia|done].
        -- assert (IHr : ∀ l, l ∈ split_lines (String d r') → has_char LF l = false)
             by (apply IH; change (String.length (String c (String d r'))) with
                   (S (String.length (String d r'))) in Hn; lia).
           destruct (split_lines (String d r')) as [|l0 ls].
           ++ intros ->%list_elem_of_singleton. simpl. by rewrite Hc.
           ++ intros [->|Hl]%elem_of_cons.
              ** simpl. rewrite Hc. apply IHr, elem_of_cons. by left.
              ** apply IHr, elem_of_cons. by right.
Qed.

Lemma strip_punct_has_char c s :
  has_char c (strip_punct s) = has_char c s && negb (is_title_punct c).
Proof.
  induction s as [|a s IH]; [done|]. simpl.
  destruct (is_title_punct a) eqn:Ha; simpl; rewrite IH.
  - unfold ascii_eqb. case_bool_decide as Hac; [|done]. subst a. rewrite Ha.
    simpl. by rewrite andb_false_r.
  - by rewrite andb_orb_distrib_l, <- IH, IH;
      unfold ascii_eqb; case_bool_decide as Hac; [subst a; rewrite Ha|].
Qed.

Lemma strip_backslash_n_has_char c s :
  has_char c (strip_backslash_n s) = true → has_char c s = true.
Proof.
  assert (H : ∀ n s, (String.length s < n)%nat →
                has_char c (strip_backslash_n s) = true → has_char c s = true);
    [|by apply (H (S (String.length s))), Nat.lt_succ_diag_r].
  clear s. induction n as [|n IH]; intros s Hn; [lia|].
  destruct s as [|a [|d r]]; [done..|].
  rewrite strip_backslash_n_cons.
  destruct (ascii_eqb a BACKSLASH && ascii_eqb d "n").
  - intros H%IH; [|simpl in Hn; lia]. simpl. rewrite H. by rewrite !orb_true_r.
  - change (has_char c (String a ?t)) with (ascii_eqb a c || has_char c t).
    intros [H|H]%orb_true_iff; [by rewrite H|].
    apply IH in H; [|simpl in Hn; simpl; lia].
    rewrite H. by rewrite orb_true_r.
Qed.

Lemma trim_has_char c s : has_char c (trim s) = true → has_char c s = true.
Proof.
  intros H. destruct (trim_spec s) as (l & r & Hs & _).
  rewrite Hs, !has_char_app, H. by rewrite orb_true_r.
Qed.

(** What cleaning a line guarantees. *)
Lemma clean_title_chars line c :
  is_title_punct c = true ∨ has_char c line = false →
  has_char c (clean_title line) = false.
Proof.
  intros Hc. apply not_true_is_false. intros H.
  apply trim_has_char, strip_backslash_n_has_char in H.
  rewrite strip_punct_has_char in H. apply andb_true_iff in H as [H1 H2].
  destruct Hc as [Hc|Hc]; [by rewrite Hc in H2|congruence].
Qed.

Lemma clean_title_tight line :
  tight (first_char (clean_title line)) ∧ tight (last_char (clean_title line)).
Proof.
  unfold clean_title.
  by destruct (trim_spec (strip_backslash_n (strip_punct line))) as (_ & _ & _ & _ & _ & ? & ?).
Qed.

Lemma title_punct_cases c :
  is_title_punct c = true → c ∈ [":"; "#"; DQUOTE; SQUOTE; ","]%char.
Proof.
  unfold is_title_punct, ascii_eqb. rewrite !orb_true_iff, !bool_decide_eq_true.
  intros [[[[->| ->]| ->]| ->]| ->]; set_solver.
Qed.

(** X8. Whatever the file holds, a title that [findTitle] returns is fit
    for one line of the TOC: it holds no colon, hash, double quote, single
    quote or comma, no line feed, and no white space at its start or at its
    end.  Reading a title changes nothing. *)
Theorem findTitle_title_is_clean file filePath w t w' :
  findTitle file filePath w = (Ok (Some t), w') →
  w' = w ∧
  (∀ c, is_title_punct c = true ∨ c = LF → has_char c t = false) ∧
  tight (first_char t) ∧ tight (last_char t).
Proof.
  rewrite findTitle_title_of. intros [= Ht <-]. split; [done|].
  unfold title_of in Ht.
  destruct (fs_readFile (w_fs w) filePath) as [data|e]; [|done]. cbv zeta in Ht.
  assert (Hu : (∀ c, is_title_punct c = true ∨ c = LF → has_char c "Untitled" = false) ∧
               tight (first_char "Untitled") ∧ tight (last_char "Untitled")).
  { split; [|done]. intros c [Hc%title_punct_cases| ->]; [|done].
    repeat (apply elem_of_cons in Hc as [->|Hc]; [done|]). by apply elem_of_nil in Hc. }
  assert (Hl : ∀ i line, split_lines data !! i = Some line →
               (∀ c, is_title_punct c = true ∨ c = LF →
                     has_char c (clean_title line) = false) ∧
               tight (first_char (clean_title line)) ∧
               tight (last_char (clean_title line))).
  { intros i line Hi. split; [|apply clean_title_tight].
    intros c [Hc| ->]; apply clean_title_chars; [by left|right].
    by apply (split_lines_no_lf data), list_elem_of_lookup_2 with i. }
  destruct (_ || _) in Ht; [by simplify_eq|].
  destruct (string_eqb (Path.extname file) ".ipynb").
  - destruct (split_lines data !! 6%nat) as [line|] eqn:H6; [|done].
    simplify_eq. by apply (Hl 6%nat).
  - destruct (string_eqb (Path.extname file) ".md"); [|done].
    destruct (split_lines data !! 0%nat) as [line|] eqn:H0; [|done].
    simplify_eq. by apply (Hl 0%nat).
Qed.

Lemma findTitle_title_is_clean_witness :
  has_char "#" "Hello World" = false ∧ tight (first_char "Hello World").
Proof.
  destruct (findTitle_title_is_clean "hello.md" "hello.md" Sample.docs
              "Hello World" Sample.docs eq_refl) as (_ & Hc & Hf & _).
  split; [|exact Hf]. apply Hc. by left.
Defined.

(** X9. A file that is neither a notebook nor a markdown file has no
    title: when the fixed-title test lets it through, [findTitle] ends
    without a value, and the stanza that [writeSingleNotebook] makes for it
    carries the word [undefined] as its title and the lower-cased name
    without its last three characters as its url.  The name is taken to be
    ASCII. *)
Theorem writeSingleNotebook_other_extension notebookDir file w data :
  ascii_text file = true →
  fs_readFile (w_fs w) (Path.join [notebookDir; file]) = Ok data →
  ¬ untitled (split_lines data) →
  Path.extname file ≠ ".ipynb" → Path.extname file ≠ ".md" →
  has_slash file = false →
  findTitle file (Path.join [notebookDir; file]) w = (Ok None, w) ∧
  writeSingleNotebook notebookDir file w =
    (Ok ("- title: undefined" +:+ chr LF +:+
         "  url: " +:+ toLowerCase (slice_drop_end file 3) +:+ chr LF), w).
Proof.
  intros _ Hr Hu H1 H2 Hs.
  assert (Ht : findTitle file (Path.join [notebookDir; file]) w = (Ok None, w)).
  { rewrite (findTitle_titled _ _ _ _ Hr Hu). unfold string_eqb.
    by rewrite !bool_decide_eq_false_2. }
  split; [done|].
  unfold writeSingleNotebook, bind. rewrite Ht. cbv zeta.
  rewrite (basename_no_slash file Hs). unfold getSlicedFilename, string_eqb.
  rewrite bool_decide_eq_false_2 by done. unfold ret. simpl show.
  by rewrite append_nil.
Qed.

Lemma writeSingleNotebook_other_extension_witness :
  writeSingleNotebook "content" "notes.txt" site =
    (Ok ("- title: undefined" +:+ chr LF +:+ "  url: notes." +:+ chr LF), site).
Proof.
  apply (writeSingleNotebook_other_extension "content" "notes.txt" site "Some notes").
  - reflexivity.
  - reflexivity.
  - intros [H|(line & Hl & _)]; [discriminate H|discriminate Hl].
  - intros H. vm_compute in H. discriminate H.
  - intros H. vm_compute in H. discriminate H.
  - reflexivity.
Defined.

(** *** One chapter *)

Lemma kept_cons f files :
  kept (f :: files) = if no_readme f then f :: kept files else kept files.
Proof.
  unfold kept. rewrite filter_cons. destruct (no_readme f); by case_decide.
Qed.

(** The loop of a chapter when every title can be read. *)
Lemma listed_titles fs line dir files : ∀ titles content,
  Forall2 (fun g t => title_of g (fs_readFile fs (Path.join [dir; g])) = Ok t)
          (kept files) titles →
  listed fs line dir files content =
    Ok (content +:+ glue (zip_with line (kept files) titles)).
Proof.
  induction files as [|f files IH]; intros titles content.
  - intros ->%Forall2_nil_inv_l. simpl. by rewrite append_empty_r.
  - rewrite kept_cons. simpl listed. destruct (no_readme f).
    + intros (t & titles' & Ht & Hrest & ->)%Forall2_cons_inv_l.
      rewrite Ht, (IH titles' _ Hrest). simpl. by rewrite string_app_assoc.
    + apply IH.
Qed.

(** The loop of a chapter when some title cannot be read. *)
Lemma listed_fails fs line dir files g e0 : ∀ content,
  g ∈ kept files →
  title_of g (fs_readFile fs (Path.join [dir; g])) = Throw e0 →
  ∃ e, listed fs line dir files content = Throw e.
Proof.
  induction files as [|f files IH]; intros content.
  - intros H. by apply elem_of_nil in H.
  - rewrite kept_cons. simpl listed. destruct (no_readme f); [|apply IH].
    intros [->|Hg]%elem_of_cons Ht.
    + rewrite Ht. by eexists.
    + destruct (title_of f _); [by apply IH|by eexists].
Qed.

Lemma customizeJupyterBook_each_at context file w toc idx :
  customizeJupyterBook_each context "content" file (w, (toc, idx)) =
    (let s := book_step context
                {| b_fs := w_fs w; b_toc := toc; b_idx := idx; b_printed := console w |}
                file in
     (Ok tt, (world_at w s, (b_toc s, b_idx s)))).
Proof.
  destruct w as [fs gen con].
  apply (customizeJupyterBook_each_step context file
           {| w_fs := fs; generator := gen; console := con |}
           {| b_fs := fs; b_toc := toc; b_idx := idx; b_printed := con |}).
Qed.

Lemma findTitle_outcome file filePath w r w' :
  findTitle file filePath w = (r, w') → title_of file (fs_readFile (w_fs w) filePath) = r.
Proof. rewrite findTitle_title_of. by intros [= -> _]. Qed.

(** A chapter that can be listed: [content] and the chapter are
    directories. *)
Lemma readdir_chapter fs file entries :
  plain_name file = true →
  fs_readdir fs (chapter_path file) = Ok entries →
  is_dir (nodes fs !! content_key fs) = true ∧
  nodes fs !! entry_key fs file = Some (Dir entries).
Proof.
  intros Hf. unfold fs_readdir, chapter_path. rewrite locate_chapter by done.
  destruct (nodes fs !! content_key fs) as [[d|l]|]; simpl; [done| |done].
  destruct (nodes fs !! entry_key fs file) as [[d|l']|]; [done| |done].
  by intros [= ->].
Qed.

(** X10. One round of the build on a chapter that can be listed and all of
    whose pages have a title: the TOC text grows by the stanza of the
    chapter, under the name at the running index, followed by one nested
    stanza per entry of the chapter without [readme] in its name, in listing
    order; the readme of the chapter is written with the heading and one
    link per such entry; the running index moves to the next chapter name;
    nothing is printed.  The names and the texts of the file system and the
    name of the chapter are taken to be ASCII, as the stanzas hold
    lower-cased names and trimmed titles. *)
Theorem customizeJupyterBook_each_chapter context names file entries titles w toc idx :
  ascii_fs (w_fs w) = true → ascii_text file = true →
  chapterNames context = Some names →
  plain_name file = true →
  fs_readdir (w_fs w) (chapter_path file) = Ok entries →
  Forall2 (fun g t => findTitle g (Path.join [chapter_path file; g]) w = (Ok t, w))
          (kept entries) titles →
  is_dir (nodes (w_fs w) !! nested_key (w_fs w) file "readme.md") = false →
  let text := "## Notebooks in this Chapter" +:+ chr LF +:+
              glue (zip_with readme_line (kept entries) titles) in
  ∃ fs',
    fs_writeFile (w_fs w) (readme_path file) text = (Ok tt, fs') ∧
    nodes fs' !! nested_key (w_fs w) file "readme.md" = Some (File text) ∧
    customizeJupyterBook_each context "content" file (w, (toc, idx)) =
      (Ok tt, ({| w_fs := fs'; generator := generator w; console := console w |},
               (toc +:+ chapter_stanza file (names !! idx) +:+
                glue (zip_with (nested_stanza file) (kept entries) titles),
                S idx))).
Proof.
  intros _ _ Hn Hf Hlist Ht Hreadme text.
  destruct (readdir_chapter _ _ _ Hf Hlist) as [Hcon Hd].
  assert (Ht' : Forall2 (fun g t =>
                  title_of g (fs_readFile (w_fs w) (Path.join [chapter_path file; g])) = Ok t)
                  (kept entries) titles).
  { eapply Forall2_impl; [exact Ht|]. intros g t H. by apply findTitle_outcome in H. }
  assert (Hw : ∃ fs', fs_writeFile (w_fs w) (readme_path file) text = (Ok tt, fs')).
  { destruct (fs_writeFile_cases (w_fs w) (readme_path file) text)
      as [(e & _ & Hc)|[(old & _ & ->)|(n & l & _ & _ & _ & ->)]]; [|by eexists..].
    unfold readme_path in Hc. rewrite resolve_readme, locate_readme in Hc by done.
    rewrite !through_dir in Hc by (done || by rewrite Hd).
    rewrite nested_key_parent, nested_key_last, Hd in Hc.
    destruct Hc as [[code Hc]|[Hc|[[_ Hc]|[_ Hc]]]]; [done|congruence|done..]. }
  destruct Hw as [fs' Hw]. exists fs'. split; [done|]. split.
  - apply fs_writeFile_written in Hw. unfold readme_path in Hw.
    by rewrite resolve_readme in Hw.
  - rewrite customizeJupyterBook_each_at. cbv zeta. unfold book_step.
    cbn [b_fs b_toc b_idx b_printed].
    unfold fs_stat. rewrite locate_entry, through_dir, Hd, Hn by done. cbn [isDirectory].
    unfold chapter_section, readme_text. fold (chapter_path file). rewrite Hlist.
    rewrite (listed_titles _ _ _ _ _ _ Ht'), (listed_titles _ _ _ _ _ _ Ht').
    rewrite append_nil, (string_app_assoc "## Notebooks in this Chapter" (chr LF)).
    fold (readme_path file). fold text. rewrite Hw.
    unfold world_at. cbn [b_fs b_toc b_idx b_printed].
    by rewrite string_app_assoc.
Qed.

Lemma customizeJupyterBook_each_chapter_witness :
  ∃ w', customizeJupyterBook_each two_chapters "content" "ch2" (site, ("", 1%nat)) =
    (Ok tt, (w', ("- title: Second" +:+ chr LF +:+
                  "  url: ch2/readme" +:+ chr LF +:+
                  "  not_numbered: true" +:+ chr LF +:+
                  "  expand_sections: true" +:+ chr LF +:+
                  "  sections: " +:+ chr LF +:+
                  "  - title: B" +:+ chr LF +:+
                  "    url: ch2/b" +:+ chr LF +:+
                  "  - title: C continued" +:+ chr LF +:+
                  "    url: ch2/c" +:+ chr LF, 2%nat))).
Proof.
  destruct (customizeJupyterBook_each_chapter two_chapters ["First"; "Second"] "ch2"
              ["b.md"; "readme.md"; "c.md"] [Some "B"; Some "C continued"] site "" 1%nat)
    as (fs' & _ & _ & H).
  - reflexivity.
  - reflexivity.
  - reflexivity.
  - reflexivity.
  - reflexivity.
  - repeat constructor.
  - reflexivity.
  - eexists. exact H.
Defined.

(** X11. One round of the build on a chapter that can be listed and one of
    whose pages has no readable title, as when a chapter holds a folder or a
    notebook of fewer than seven lines: the stanza of the chapter stays in
    the TOC text without any nested stanza, no readme is written, the failure
    is printed, and the running index stays, so that the next chapter takes
    the name meant for this one. *)
Theorem customizeJupyterBook_each_chapter_fails context names file entries g e0 w toc idx :
  chapterNames context = Some names →
  plain_name file = true →
  fs_readdir (w_fs w) (chapter_path file) = Ok entries →
  g ∈ kept entries →
  findTitle g (Path.join [chapter_path file; g]) w = (Throw e0, w) →
  ∃ e, customizeJupyterBook_each context "content" file (w, (toc, idx)) =
         (Ok tt, (printed w [e], (toc +:+ chapter_stanza file (names !! idx), idx))).
Proof.
  intros Hn Hf Hlist Hg Ht. apply findTitle_outcome in Ht.
  destruct (readdir_chapter _ _ _ Hf Hlist) as [Hcon Hd].
  destruct (listed_fails (w_fs w) (nested_stanza file) (chapter_path file) entries g e0 ""
              Hg Ht) as [e He].
  exists e. rewrite customizeJupyterBook_each_at. cbv zeta. unfold book_step.
  cbn [b_fs b_toc b_idx b_printed].
  unfold fs_stat. rewrite locate_entry, through_dir, Hd, Hn by done. cbn [isDirectory].
  unfold chapter_section. fold (chapter_path file). by rewrite Hlist, He.
Qed.

Lemma customizeJupyterBook_each_chapter_fails_witness :
  ∃ e, customizeJupyterBook_each two_chapters "content" "ch1" (site, ("", 0%nat)) =
         (Ok tt, (printed site [e],
                  ("- title: First" +:+ chr LF +:+
                   "  url: ch1/readme" +:+ chr LF +:+
                   "  not_numbered: true" +:+ chr LF +:+
                   "  expand_sections: true" +:+ chr LF +:+
                   "  sections: " +:+ chr LF, 0%nat))).
Proof.
  apply (customizeJupyterBook_each_chapter_fails two_chapters ["First"; "Second"] "ch1"
           ["a.md"; "sub"] "sub" (EISDIR +:+ ", read") site "" 0%nat).
  - reflexivity.
  - reflexivity.
  - reflexivity.
  - apply elem_of_cons. right. apply elem_of_cons. by left.
  - reflexivity.
Defined.

(** ** Further properties: the scan and the build side by side *)

(** X12. The registry is a log, not a set: scanning the same folder, one
    that can be listed, a second time returns the same count and appends the
    same names and the same paths once more. *)
Theorem findNotebookFiles_twice folderPath errors w files names paths :
  fs_readdir (w_fs w) folderPath = Ok files →
  notebookNames (config_of w) = Some names →
  notebookPaths (config_of w) = Some paths →
  ∃ w1 w2,
    findNotebookFiles folderPath errors w = (Ok (length (notebooks_of files), errors), w1) ∧
    findNotebookFiles folderPath errors w1 = (Ok (length (notebooks_of files), errors), w2) ∧
    notebookNames (config_of w2) =
      Some (names ++ notebooks_of files ++ notebooks_of files) ∧
    notebookPaths (config_of w2) =
      Some (paths ++ map (fun f => Path.join [folderPath; f])
                         (notebooks_of files ++ notebooks_of files)).
Proof.
  intros Hd Hn Hp.
  set (new_paths := map (fun f => Path.join [folderPath; f]) (notebooks_of files)).
  set (w1 := pushed w (names ++ notebooks_of files) (paths ++ new_paths)).
  exists w1, (pushed w1 ((names ++ notebooks_of files) ++ notebooks_of files)
                        ((paths ++ new_paths) ++ new_paths)).
  split; [by apply findNotebookFiles_dir|].
  split; [by apply findNotebookFiles_dir|].
  split; simpl; [by rewrite <- app_assoc|].
  by rewrite map_app, <- app_assoc.
Qed.

Lemma findNotebookFiles_twice_witness :
  ∃ w1 w2,
    findNotebookFiles "content/ch1" None Sample.book = (Ok (1%nat, None), w1) ∧
    findNotebookFiles "content/ch1" None w1 = (Ok (1%nat, None), w2) ∧
    notebookNames (config_of w2) = Some ["intro.md"; "intro.md"] ∧
    notebookPaths (config_of w2) = Some ["content/ch1/intro.md"; "content/ch1/intro.md"].
Proof.
  apply (findNotebookFiles_twice "content/ch1" None Sample.book ["intro.md"] [] []);
    reflexivity.
Defined.

Lemma book_step_printed context s file :
  ∃ lines, b_printed (book_step context s file) = b_printed s ++ lines.
Proof.
  assert (H0 : ∃ lines, b_printed s = b_printed s ++ lines)
    by (exists []; by rewrite app_nil_r).
  assert (H1 : ∀ e, ∃ lines, b_printed s ++ [e] = b_printed s ++ lines) by (by eexists).
  unfold book_step.
  repeat (match goal with
          | |- context [match ?x with _ => _ end] => destruct x
          end; cbn [b_printed]; try done).
Qed.

Lemma foldl_printed context files : ∀ s,
  ∃ lines, b_printed (foldl (book_step context) s files) = b_printed s ++ lines.
Proof.
  induction files as [|f files IH]; intros s.
  - exists []. simpl. by rewrite app_nil_r.
  - simpl. destruct (IH (book_step context s f)) as [l2 ->].
    destruct (book_step_printed context s f) as [l1 ->].
    exists (l1 ++ l2). by rewrite app_assoc.
Qed.

(** X13. The build and the scans work on different parts of the world.
    Whatever the book looks like, [buildCustomBook] leaves the generator as it
    is, that is the three sequences of the registry and the log, and keeps
    the working directory; what it prints is appended to what was printed
    before. *)
Theorem buildCustomBook_leaves_generator context w :
  generator (snd (buildCustomBook context w)) = generator w ∧
  cwd (w_fs (snd (buildCustomBook context w))) = cwd (w_fs w) ∧
  ∃ lines, console (snd (buildCustomBook context w)) = console w ++ lines.
Proof.
  unfold buildCustomBook, try_catch. rewrite customizeJupyterBook_run. unfold book_run.
  destruct (fs_readdir (w_fs w) "content") as [bookContents|e].
  - cbv zeta.
    pose proof (foldl_cwd context bookContents (book_start w)) as Hc.
    destruct (foldl_printed context bookContents (book_start w)) as [lines Hl].
    set (s := foldl (book_step context) (book_start w) bookContents) in *.
    pose proof (fs_writeFile_cwd (b_fs s) "_data/toc.yml" (b_toc s)) as Hw.
    destruct (fs_writeFile (b_fs s) "_data/toc.yml" (b_toc s)) as [[[]|e] fs']; simpl in *.
    + split; [done|]. split; [congruence|]. by exists lines.
    + split; [done|]. split; [congruence|]. rewrite Hl, <- app_assoc. by eexists.
  - simpl. split; [done|]. split; [done|]. by eexists.
Qed.
